(** * WinOperationAuto: special-key gestures, key-to-character mapping and
      text injection

    A shallow embedding of the C++ sources [input_injection.cpp],
    [event_logger.cpp], [suggestion_overlay.cpp], [special_keys.cpp] and, of
    [main.cpp], the keyboard and the mouse branch of [ProcessRawInput] and
    the message loop of [main].

    The static members of the four classes and the globals of [main.cpp] are
    the fields of one record, [Process].  Everything the program does to the
    outside (synthetic input, sleeps, console lines, log-file lines, runs of
    the external generator) is appended to the field [world], in the order in
    which it happens.  What the outside answers (whether [SendInput] accepts
    an event, what [VkKeyScanA] says about a character, what the generator
    wrote) is not fixed by the sources: it is the class [Win32], and every
    theorem is stated for an arbitrary instance of it. *)

From Stdlib Require Import ZArith Bool Ascii String List Lia.
From Stdlib Require Import HexadecimalString HexadecimalN.
From stdpp Require Import base list.
Import ListNotations.

Open Scope Z_scope.

(** ** Windows types and constants used by the sources *)

Record POINT := { pt_x : Z; pt_y : Z }.

(** The two fields of a keyboard [INPUT] that [SendVirtualKey] fills in
    ([type] is always [INPUT_KEYBOARD] and [time] always 0). *)
Record INPUT := { wVk : Z; dwFlags : Z }.

Record RAWKEYBOARD := { MakeCode : Z; Flags : Z; VKey : Z }.

(** The fields of a [RAWMOUSE] that [ProcessRawInput] reads. *)
Record RAWMOUSE := { usButtonFlags : Z; lLastX : Z; lLastY : Z }.

(** The data of a [RAWINPUT], by [header.dwType]. *)
Inductive RAWINPUT :=
  | RIM_TYPEKEYBOARD (keyboard : RAWKEYBOARD)
  | RIM_TYPEMOUSE (mouse : RAWMOUSE)
  | RIM_TYPEHID.

Definition KEYEVENTF_KEYUP : Z := 2.
Definition RI_KEY_BREAK : Z := 1.
Definition RI_KEY_E0 : Z := 2.

Definition RI_MOUSE_LEFT_BUTTON_DOWN : Z := 0x0001.
Definition RI_MOUSE_LEFT_BUTTON_UP : Z := 0x0002.
Definition RI_MOUSE_RIGHT_BUTTON_DOWN : Z := 0x0004.
Definition RI_MOUSE_RIGHT_BUTTON_UP : Z := 0x0008.
Definition RI_MOUSE_MIDDLE_BUTTON_DOWN : Z := 0x0010.
Definition RI_MOUSE_MIDDLE_BUTTON_UP : Z := 0x0020.

Definition VK_SHIFT : Z := 0x10.
Definition VK_CONTROL : Z := 0x11.
Definition VK_MENU : Z := 0x12.
Definition VK_CAPITAL : Z := 0x14.
Definition VK_ESCAPE : Z := 0x1B.
Definition VK_SPACE : Z := 0x20.
Definition VK_LSHIFT : Z := 0xA0.
Definition VK_RSHIFT : Z := 0xA1.
Definition VK_OEM_1 : Z := 0xBA.
Definition VK_OEM_PLUS : Z := 0xBB.
Definition VK_OEM_COMMA : Z := 0xBC.
Definition VK_OEM_MINUS : Z := 0xBD.
Definition VK_OEM_PERIOD : Z := 0xBE.
Definition VK_OEM_2 : Z := 0xBF.
Definition VK_OEM_3 : Z := 0xC0.
Definition VK_OEM_4 : Z := 0xDB.
Definition VK_OEM_5 : Z := 0xDC.
Definition VK_OEM_6 : Z := 0xDD.
Definition VK_OEM_7 : Z := 0xDE.
Definition VK_BACK : Z := 0x08.
Definition VK_TAB : Z := 0x09.
Definition VK_RETURN : Z := 0x0D.
Definition VK_PRIOR : Z := 0x21.
Definition VK_NEXT : Z := 0x22.
Definition VK_END : Z := 0x23.
Definition VK_HOME : Z := 0x24.
Definition VK_LEFT : Z := 0x25.
Definition VK_UP : Z := 0x26.
Definition VK_RIGHT : Z := 0x27.
Definition VK_DOWN : Z := 0x28.
Definition VK_INSERT : Z := 0x2D.
Definition VK_DELETE : Z := 0x2E.
Definition VK_LWIN : Z := 0x5B.
Definition VK_RWIN : Z := 0x5C.
Definition VK_F1 : Z := 0x70.
Definition VK_F2 : Z := 0x71.
Definition VK_F3 : Z := 0x72.
Definition VK_F4 : Z := 0x73.
Definition VK_F5 : Z := 0x74.
Definition VK_F6 : Z := 0x75.
Definition VK_F7 : Z := 0x76.
Definition VK_F8 : Z := 0x77.
Definition VK_F9 : Z := 0x78.
Definition VK_F10 : Z := 0x79.
Definition VK_F11 : Z := 0x7A.
Definition VK_F12 : Z := 0x7B.

(** [LOBYTE] and [HIBYTE] of a 16-bit value given as a signed [SHORT]. *)
Definition LOBYTE (w : Z) : Z := Z.land w 0xFF.
Definition HIBYTE (w : Z) : Z := Z.land (Z.shiftr (w mod 65536) 8) 0xFF.

(** The code of a [char], and the one-character [std::string(1, c)]. *)
Definition char_code (c : ascii) : Z := Z.of_N (N_of_ascii c).
Definition char_of_code (n : Z) : ascii := ascii_of_N (Z.to_N (n mod 256)).
Definition string1 (n : Z) : string := String (char_of_code n) EmptyString.

Definition string_empty (s : string) : bool :=
  match s with EmptyString => true | String _ _ => false end.

(** ** Data of the program *)

(** [struct SpecialKeyState] of special_keys.h, and its constructor. *)
Record SpecialKeyState := {
  isPressed : bool;
  hadInterveningKeys : bool;
  pressTimestamp : Z;
  pressPosition : POINT
}.

Definition SpecialKeyState_new : SpecialKeyState :=
  {| isPressed := false; hadInterveningKeys := false;
     pressTimestamp := 0; pressPosition := {| pt_x := 0; pt_y := 0 |} |}.

(** [struct KeyboardEventData], [struct MouseEventData] and
    [struct InputEvent] of main.cpp: the field [type] and the union of
    [keyboardData] and [mouseData] are the two cases of [InputEventData]. *)
Record KeyboardEventData := {
  vKey : Z; scanCode : Z; flags : Z; isKeyUp : bool
}.

Inductive MouseEventType :=
  | LEFT_DOWN | LEFT_UP | RIGHT_DOWN | RIGHT_UP
  | MIDDLE_DOWN | MIDDLE_UP | WHEEL | MOVE.

Record MouseEventData := {
  eventType : MouseEventType; deltaX : Z; deltaY : Z; wheelData : Z
}.

Inductive InputEventData :=
  | KEYBOARD (keyboardData : KeyboardEventData)
  | MOUSE (mouseData : MouseEventData).

Record InputEvent := {
  timestamp : Z; cursorPosition : POINT; eventData : InputEventData
}.

(** What one run of [system("python process_input.py")] followed by the read
    of [python_output.txt] yields: the exit code, whether the file opened,
    and the first line ([None] when [std::getline] fails). *)
Record GeneratorRun := {
  exit_code : Z; output_opened : bool; output_line : option string
}.

(** One line of the log file: the JSON object of [LogKeyboardEvent] is a
    function of these four values ([le_char] empty prints as [null]). *)
Record LogLine := {
  le_timestamp : Z; le_key : Z; le_keyup : bool; le_char : string
}.

(** The JSON object of [LogMouseButtonEvent] is a function of these four
    values; a line of the log file is one or the other. *)
Record MouseLogLine := {
  ml_timestamp : Z; ml_action : string; ml_x : Z; ml_y : Z
}.

Inductive LogEntry :=
  | KeyboardLine (line : LogLine)
  | MouseLine (line : MouseLogLine).

(** The console lines of the sources, by the statement that prints them. *)
Inductive Msg :=
  (* input_injection.cpp *)
  | OK_Input_injector_initialized (delay : Z)
  | CONFIG_Key_delay_set (delay : Z)
  | ERROR_InputInjector_not_initialized
  | INPUT_Sending_text (text : string)
  | WARNING_Cannot_convert_character (c : ascii)
  | ERROR_SendInput_failed
  (* event_logger.cpp *)
  | OK_Event_logger_initialized
  | OK_Event_log_file_cleared
  | WARNING_Could_not_clear_log_file
  | ERROR_EventLogger_not_initialized
  | ERROR_Could_not_write_to_log_file
  (* suggestion_overlay.cpp *)
  | OVERLAY_Suggestion_overlay_initialized
  | ERROR_Failed_to_create_suggestion_overlay
  | ERROR_Failed_to_register_overlay_window_class
  | ERROR_Failed_to_create_overlay_window
  | OVERLAY_Showing_suggestion (suggestion : string)
  | OVERLAY_Suggestion_hidden
  (* special_keys.cpp *)
  | OK_Special_key_handler_initialized
  | SPECIAL_pressed_alone (key : string)
  | TRIGGER_Left_Ctrl_pressed
  | SPECIAL_was_part_of_key_combination (key : string)
  | COMBO_detected (key : string) (vk : Z)
  | AI_Generating_input_completion
  | READY_Completion (line : string)
  | READY_Press_RIGHT_CTRL_to_accept
  | INFO_No_completion_available
  | ERROR_Could_not_read_Python_output
  | ERROR_Could_not_open_python_output
  | ERROR_Python_script_failed (code : Z)
  | Suggestion_generation_completed
  | RIGHT_CTRL_PRESSED
  | ACCEPTING_LLM_SUGGESTION (text : string)
  | SUCCESS_Injected_LLM_text (characters : Z)
  | ERROR_Failed_to_inject_LLM_text
  | NO_PENDING_SUGGESTION_TO_ACCEPT
  | Press_LEFT_CTRL_first
  | Right_Ctrl_processing_completed
  | SHIFT_KEY_PRESSED
  | ALT_KEY_PRESSED
  | SPECIAL_KEY_HOOK_TRIGGERED (vk duration : Z) (pressPos releasePos : POINT)
  (* main.cpp *)
  | ESC_pressed_shutting_down (ts : Z)
  | KB_line (ts vk sc : Z) (up : bool) (special : option string) (cursor : POINT)
  (* input_injection.cpp, [SendKeySequence] *)
  | INPUT_Sending_key_sequence (keys : Z)
  (* main.cpp, the mouse branch of [ProcessRawInput] *)
  | MOUSE_line (ts : Z) (button : MouseEventType) (dx dy : Z) (cursor : POINT).

(** What the program does to the outside, one entry per call. *)
Inductive Effect :=
  | SendInputCall (input : INPUT) (accepted : bool)
  | Sleep (ms : Z)
  | Console (line : Msg)
  | LogTruncate
  | LogAppend (entry : LogEntry)
  | PythonRun (run : GeneratorRun)
  | PostQuit.

(** The answers of the platform.  Each may depend on everything that has
    happened so far ([list Effect]), so any behaviour of the operating
    system along a run is an instance. *)
Class Win32 := {
  (** [VkKeyScanA(c)], a [SHORT]: -1, or shift state in the high byte and
      virtual key in the low byte *)
  VkKeyScanA : ascii -> Z;
  (** whether [SendInput(1, &input, sizeof(INPUT))] returns 1 *)
  SendInput : list Effect -> INPUT -> bool;
  (** the run of the external generator and the read of its output file *)
  RunGenerator : list Effect -> GeneratorRun;
  (** whether the log file opens for appending *)
  LogFileOpens : list Effect -> bool;
  (** [GetKeyState(VK_CAPITAL) & 1] at start-up *)
  CapsLockToggled : bool;
  (** whether [RegisterClassExW] registers the class of the overlay, or
      finds it registered *)
  RegisterOverlayClass_ok : bool;
  (** whether [CreateWindowExW] returns a window for the overlay *)
  CreateOverlayWindow_ok : bool
}.

(** The static members and globals of the process. [s_overlayWindow] is
    [None] for [nullptr] and [Some shown] for a window, [shown] telling
    whether the window is currently shown on screen. *)
Record Process := {
  InputInjector_s_keyDelayMs : Z;
  InputInjector_s_initialized : bool;
  EventLogger_s_initialized : bool;
  EventLogger_s_shiftPressed : bool;
  EventLogger_s_capsLockOn : bool;
  SuggestionOverlay_s_overlayWindow : option bool;
  SuggestionOverlay_s_initialized : bool;
  SuggestionOverlay_s_currentSuggestion : string;
  s_specialKeys : list Z;
  s_specialKeyStates : list SpecialKeyState;
  s_pendingSuggestion : string;
  s_hasPendingSuggestion : bool;
  g_running : bool;
  g_eventHistory : list InputEvent;
  world : list Effect
}.

(** The values of the static initialisers. *)
Definition process_start : Process := {|
  InputInjector_s_keyDelayMs := 10;
  InputInjector_s_initialized := false;
  EventLogger_s_initialized := false;
  EventLogger_s_shiftPressed := false;
  EventLogger_s_capsLockOn := false;
  SuggestionOverlay_s_overlayWindow := None;
  SuggestionOverlay_s_initialized := false;
  SuggestionOverlay_s_currentSuggestion := EmptyString;
  s_specialKeys := [];
  s_specialKeyStates := [];
  s_pendingSuggestion := EmptyString;
  s_hasPendingSuggestion := false;
  g_running := true;
  g_eventHistory := [];
  world := []
|}.

(** Field updates. *)
Definition with_world (w : list Effect) (p : Process) : Process :=
  {| InputInjector_s_keyDelayMs := InputInjector_s_keyDelayMs p;
     InputInjector_s_initialized := InputInjector_s_initialized p;
     EventLogger_s_initialized := EventLogger_s_initialized p;
     EventLogger_s_shiftPressed := EventLogger_s_shiftPressed p;
     EventLogger_s_capsLockOn := EventLogger_s_capsLockOn p;
     SuggestionOverlay_s_overlayWindow := SuggestionOverlay_s_overlayWindow p;
     SuggestionOverlay_s_initialized := SuggestionOverlay_s_initialized p;
     SuggestionOverlay_s_currentSuggestion := SuggestionOverlay_s_currentSuggestion p;
     s_specialKeys := s_specialKeys p;
     s_specialKeyStates := s_specialKeyStates p;
     s_pendingSuggestion := s_pendingSuggestion p;
     s_hasPendingSuggestion := s_hasPendingSuggestion p;
     g_running := g_running p;
     g_eventHistory := g_eventHistory p;
     world := w |}.

Definition with_InputInjector (delay : Z) (init : bool) (p : Process) : Process :=
  {| InputInjector_s_keyDelayMs := delay;
     InputInjector_s_initialized := init;
     EventLogger_s_initialized := EventLogger_s_initialized p;
     EventLogger_s_shiftPressed := EventLogger_s_shiftPressed p;
     EventLogger_s_capsLockOn := EventLogger_s_capsLockOn p;
     SuggestionOverlay_s_overlayWindow := SuggestionOverlay_s_overlayWindow p;
     SuggestionOverlay_s_initialized := SuggestionOverlay_s_initialized p;
     SuggestionOverlay_s_currentSuggestion := SuggestionOverlay_s_currentSuggestion p;
     s_specialKeys := s_specialKeys p;
     s_specialKeyStates := s_specialKeyStates p;
     s_pendingSuggestion := s_pendingSuggestion p;
     s_hasPendingSuggestion := s_hasPendingSuggestion p;
     g_running := g_running p;
     g_eventHistory := g_eventHistory p;
     world := world p |}.

Definition with_EventLogger (init shift caps : bool) (p : Process) : Process :=
  {| InputInjector_s_keyDelayMs := InputInjector_s_keyDelayMs p;
     InputInjector_s_initialized := InputInjector_s_initialized p;
     EventLogger_s_initialized := init;
     EventLogger_s_shiftPressed := shift;
     EventLogger_s_capsLockOn := caps;
     SuggestionOverlay_s_overlayWindow := SuggestionOverlay_s_overlayWindow p;
     SuggestionOverlay_s_initialized := SuggestionOverlay_s_initialized p;
     SuggestionOverlay_s_currentSuggestion := SuggestionOverlay_s_currentSuggestion p;
     s_specialKeys := s_specialKeys p;
     s_specialKeyStates := s_specialKeyStates p;
     s_pendingSuggestion := s_pendingSuggestion p;
     s_hasPendingSuggestion := s_hasPendingSuggestion p;
     g_running := g_running p;
     g_eventHistory := g_eventHistory p;
     world := world p |}.

Definition with_SuggestionOverlay
    (window : option bool) (init : bool) (current : string) (p : Process) : Process :=
  {| InputInjector_s_keyDelayMs := InputInjector_s_keyDelayMs p;
     InputInjector_s_initialized := InputInjector_s_initialized p;
     EventLogger_s_initialized := EventLogger_s_initialized p;
     EventLogger_s_shiftPressed := EventLogger_s_shiftPressed p;
     EventLogger_s_capsLockOn := EventLogger_s_capsLockOn p;
     SuggestionOverlay_s_overlayWindow := window;
     SuggestionOverlay_s_initialized := init;
     SuggestionOverlay_s_currentSuggestion := current;
     s_specialKeys := s_specialKeys p;
     s_specialKeyStates := s_specialKeyStates p;
     s_pendingSuggestion := s_pendingSuggestion p;
     s_hasPendingSuggestion := s_hasPendingSuggestion p;
     g_running := g_running p;
     g_eventHistory := g_eventHistory p;
     world := world p |}.

Definition with_specialKeys
    (keys : list Z) (states : list SpecialKeyState) (p : Process) : Process :=
  {| InputInjector_s_keyDelayMs := InputInjector_s_keyDelayMs p;
     InputInjector_s_initialized := InputInjector_s_initialized p;
     EventLogger_s_initialized := EventLogger_s_initialized p;
     EventLogger_s_shiftPressed := EventLogger_s_shiftPressed p;
     EventLogger_s_capsLockOn := EventLogger_s_capsLockOn p;
     SuggestionOverlay_s_overlayWindow := SuggestionOverlay_s_overlayWindow p;
     SuggestionOverlay_s_initialized := SuggestionOverlay_s_initialized p;
     SuggestionOverlay_s_currentSuggestion := SuggestionOverlay_s_currentSuggestion p;
     s_specialKeys := keys;
     s_specialKeyStates := states;
     s_pendingSuggestion := s_pendingSuggestion p;
     s_hasPendingSuggestion := s_hasPendingSuggestion p;
     g_running := g_running p;
     g_eventHistory := g_eventHistory p;
     world := world p |}.

Definition with_pendingSuggestion (text : string) (has : bool) (p : Process) : Process :=
  {| InputInjector_s_keyDelayMs := InputInjector_s_keyDelayMs p;
     InputInjector_s_initialized := InputInjector_s_initialized p;
     EventLogger_s_initialized := EventLogger_s_initialized p;
     EventLogger_s_shiftPressed := EventLogger_s_shiftPressed p;
     EventLogger_s_capsLockOn := EventLogger_s_capsLockOn p;
     SuggestionOverlay_s_overlayWindow := SuggestionOverlay_s_overlayWindow p;
     SuggestionOverlay_s_initialized := SuggestionOverlay_s_initialized p;
     SuggestionOverlay_s_currentSuggestion := SuggestionOverlay_s_currentSuggestion p;
     s_specialKeys := s_specialKeys p;
     s_specialKeyStates := s_specialKeyStates p;
     s_pendingSuggestion := text;
     s_hasPendingSuggestion := has;
     g_running := g_running p;
     g_eventHistory := g_eventHistory p;
     world := world p |}.

Definition with_globals (running : bool) (history : list InputEvent) (p : Process) : Process :=
  {| InputInjector_s_keyDelayMs := InputInjector_s_keyDelayMs p;
     InputInjector_s_initialized := InputInjector_s_initialized p;
     EventLogger_s_initialized := EventLogger_s_initialized p;
     EventLogger_s_shiftPressed := EventLogger_s_shiftPressed p;
     EventLogger_s_capsLockOn := EventLogger_s_capsLockOn p;
     SuggestionOverlay_s_overlayWindow := SuggestionOverlay_s_overlayWindow p;
     SuggestionOverlay_s_initialized := SuggestionOverlay_s_initialized p;
     SuggestionOverlay_s_currentSuggestion := SuggestionOverlay_s_currentSuggestion p;
     s_specialKeys := s_specialKeys p;
     s_specialKeyStates := s_specialKeyStates p;
     s_pendingSuggestion := s_pendingSuggestion p;
     s_hasPendingSuggestion := s_hasPendingSuggestion p;
     g_running := running;
     g_eventHistory := history;
     world := world p |}.

(** ** The monad of the program: state passing over [Process] *)

Definition M (A : Type) : Type := Process -> A * Process.

#[global] Instance M_ret : MRet M := fun A a p => (a, p).
#[global] Instance M_bind : MBind M :=
  fun A B k m p => let (a, p') := m p in k a p'.

Definition gets {A} (f : Process -> A) : M A := fun p => (f p, p).
Definition modify (f : Process -> Process) : M unit := fun p => (tt, f p).
Definition emit (e : Effect) : M unit :=
  modify (fun p => with_world (world p ++ [e]) p).
Definition print (line : Msg) : M unit := emit (Console line).
Definition skip : M unit := mret tt.
Definition when (b : bool) (m : M unit) : M unit := if b then m else skip.

(** The part of [world] that was appended between [p] and [p']. *)
Definition emitted (p p' : Process) : list Effect :=
  drop (length (world p)) (world p').

(** ** input_injection.cpp *)

Module InputInjector.
Section WithWin32.
Context `{Win32}.

Definition Initialize : M unit :=
  modify (fun p => with_InputInjector (InputInjector_s_keyDelayMs p) true p);;
  delay ← gets InputInjector_s_keyDelayMs;
  print (OK_Input_injector_initialized delay).

(** [delayMs] is a [DWORD]. *)
Definition SetKeyDelay (delayMs : Z) : M unit :=
  let delayMs := delayMs mod 2 ^ 32 in
  modify (fun p => with_InputInjector delayMs (InputInjector_s_initialized p) p);;
  print (CONFIG_Key_delay_set delayMs).

Definition SendInputHelper (input : INPUT) : M bool :=
  accepted ← gets (fun p => SendInput (world p) input);
  emit (SendInputCall input accepted);;
  if negb accepted then print ERROR_SendInput_failed;; mret false
  else mret true.

Definition SendVirtualKey (vkCode : Z) (isKeyUp : bool) : M bool :=
  initialized ← gets InputInjector_s_initialized;
  if negb initialized then
    print ERROR_InputInjector_not_initialized;; mret false
  else
    SendInputHelper
      {| wVk := vkCode; dwFlags := if isKeyUp then KEYEVENTF_KEYUP else 0 |}.

Definition SendKeyPress (vkCode : Z) : M bool :=
  success ← SendVirtualKey vkCode false;
  delay ← gets InputInjector_s_keyDelayMs;
  when (success && (0 <? delay)) (emit (Sleep delay));;
  up ← SendVirtualKey vkCode true;
  mret (success && up).

Definition CharToVirtualKey (c : ascii) : Z :=
  let n := char_code c in
  if (char_code "A" <=? n) && (n <=? char_code "Z") then
    char_code "A" + (n - char_code "A")
  else if (char_code "a" <=? n) && (n <=? char_code "z") then
    char_code "A" + (n - char_code "a")
  else if (char_code "0" <=? n) && (n <=? char_code "9") then
    char_code "0" + (n - char_code "0")
  else if n =? char_code " " then VK_SPACE
  else
    let vkScan := VkKeyScanA c in
    if negb (vkScan =? -1) then LOBYTE vkScan else 0.

(** The body of the [for (char c : text)] loop of [SendTextString];
    [success] is the local variable of that name. *)
Definition SendTextString_body (c : ascii) (success : bool) : M bool :=
  let vkCode := CharToVirtualKey c in
  if negb (vkCode =? 0) then
    let vkScan := VkKeyScanA c in
    let modifiers := HIBYTE vkScan in
    when (negb (Z.land modifiers 1 =? 0))
         (_ ← SendVirtualKey VK_SHIFT false; mret tt);;
    pressed ← SendKeyPress vkCode;
    let success := success && pressed in
    when (negb (Z.land modifiers 1 =? 0))
         (_ ← SendVirtualKey VK_SHIFT true; mret tt);;
    delay ← gets InputInjector_s_keyDelayMs;
    when (0 <? delay) (emit (Sleep delay));;
    mret success
  else
    print (WARNING_Cannot_convert_character c);; mret success.

Fixpoint SendTextString_loop (text : string) (success : bool) : M bool :=
  match text with
  | EmptyString => mret success
  | String c rest =>
      success' ← SendTextString_body c success;
      SendTextString_loop rest success'
  end.

Definition SendTextString (text : string) : M bool :=
  initialized ← gets InputInjector_s_initialized;
  if negb initialized then
    print ERROR_InputInjector_not_initialized;; mret false
  else
    print (INPUT_Sending_text text);;
    SendTextString_loop text true.

(** The body of the [for (WORD vkCode : vkCodes)] loop of
    [SendKeySequence]. *)
Definition SendKeySequence_body (vkCode : Z) (success : bool) : M bool :=
  pressed ← SendKeyPress vkCode;
  let success := success && pressed in
  delay ← gets InputInjector_s_keyDelayMs;
  when (0 <? delay) (emit (Sleep delay));;
  mret success.

Fixpoint SendKeySequence_loop (vkCodes : list Z) (success : bool) : M bool :=
  match vkCodes with
  | [] => mret success
  | vkCode :: rest =>
      success' ← SendKeySequence_body vkCode success;
      SendKeySequence_loop rest success'
  end.

Definition SendKeySequence (vkCodes : list Z) : M bool :=
  initialized ← gets InputInjector_s_initialized;
  if negb initialized then
    print ERROR_InputInjector_not_initialized;; mret false
  else
    print (INPUT_Sending_key_sequence (Z.of_nat (length vkCodes)));;
    SendKeySequence_loop vkCodes true.

End WithWin32.
End InputInjector.

(** ** suggestion_overlay.cpp *)

Module SuggestionOverlay.
Section WithWin32.
Context `{Win32}.

(** A new window is not shown ([WS_POPUP | WS_BORDER], no [WS_VISIBLE]). *)
Definition CreateOverlayWindow : M bool :=
  if negb RegisterOverlayClass_ok then
    print ERROR_Failed_to_register_overlay_window_class;; mret false
  else
    modify (fun p => with_SuggestionOverlay
                       (if CreateOverlayWindow_ok then Some false else None)
                       (SuggestionOverlay_s_initialized p)
                       (SuggestionOverlay_s_currentSuggestion p) p);;
    window ← gets SuggestionOverlay_s_overlayWindow;
    if negb (bool_decide (is_Some window)) then
      print ERROR_Failed_to_create_overlay_window;; mret false
    else mret true.

Definition Initialize : M unit :=
  initialized ← gets SuggestionOverlay_s_initialized;
  if (initialized : bool) then skip
  else
    created ← CreateOverlayWindow;
    if (created : bool) then
      modify (fun p => with_SuggestionOverlay
                         (SuggestionOverlay_s_overlayWindow p) true
                         (SuggestionOverlay_s_currentSuggestion p) p);;
      print OVERLAY_Suggestion_overlay_initialized
    else print ERROR_Failed_to_create_suggestion_overlay.

(** [UpdatePosition] ([SWP_SHOWWINDOW]) and [ShowWindow(SW_SHOWNOACTIVATE)]
    both leave the window shown. *)
Definition ShowSuggestion (suggestion : string) : M unit :=
  initialized ← gets SuggestionOverlay_s_initialized;
  window ← gets SuggestionOverlay_s_overlayWindow;
  if negb initialized || negb (bool_decide (is_Some window)) then skip
  else
    modify (with_SuggestionOverlay (Some true) initialized suggestion);;
    print (OVERLAY_Showing_suggestion suggestion).

Definition HideSuggestion : M unit :=
  initialized ← gets SuggestionOverlay_s_initialized;
  window ← gets SuggestionOverlay_s_overlayWindow;
  if negb initialized || negb (bool_decide (is_Some window)) then skip
  else
    modify (with_SuggestionOverlay (Some false) initialized EmptyString);;
    print OVERLAY_Suggestion_hidden.

Definition Cleanup : M unit :=
  modify (fun p => with_SuggestionOverlay None false
                     (SuggestionOverlay_s_currentSuggestion p) p).

(** The position that [UpdatePosition] hands to [SetWindowPos], together
    with the size 600 x 80: [cursorPos] is the answer of [GetCursorPos],
    [screenWidth] and [screenHeight] those of [GetSystemMetrics].  The
    values are [int]s; the model is exact as long as no sum leaves the range
    of [int]. *)
Definition UpdatePosition_target (cursorPos : POINT) (screenWidth screenHeight : Z)
    : Z * Z :=
  let x := pt_x cursorPos + 20 in
  let y := pt_y cursorPos + 30 in
  let x := if screenWidth <? x + 600 then screenWidth - 620 else x in
  let y := if screenHeight <? y + 80 then pt_y cursorPos - 90 else y in
  let x := if x <? 0 then 10 else x in
  let y := if y <? 0 then 10 else y in
  (x, y).

End WithWin32.
End SuggestionOverlay.

(** Whether the overlay is on screen. *)
Definition overlay_displayed (p : Process) : bool :=
  match SuggestionOverlay_s_overlayWindow p with
  | Some shown => shown
  | None => false
  end.

(** ** event_logger.cpp *)

Module EventLogger.
Section WithWin32.
Context `{Win32}.

Definition Initialize : M unit :=
  modify (with_EventLogger true false CapsLockToggled);;
  print OK_Event_logger_initialized.

Definition ClearLogFile : M unit :=
  opens ← gets (fun p => LogFileOpens (world p));
  if (opens : bool) then emit LogTruncate;; print OK_Event_log_file_cleared
  else print WARNING_Could_not_clear_log_file.

(** The cases of the [switch] of [VKeyToKeyName], in the order of the
    source. *)
Definition key_names : list (Z * string) :=
  [ (0x41, "A"); (0x42, "B"); (0x43, "C"); (0x44, "D");
    (0x45, "E"); (0x46, "F"); (0x47, "G"); (0x48, "H");
    (0x49, "I"); (0x4A, "J"); (0x4B, "K"); (0x4C, "L");
    (0x4D, "M"); (0x4E, "N"); (0x4F, "O"); (0x50, "P");
    (0x51, "Q"); (0x52, "R"); (0x53, "S"); (0x54, "T");
    (0x55, "U"); (0x56, "V"); (0x57, "W"); (0x58, "X");
    (0x59, "Y"); (0x5A, "Z");
    (0x30, "0"); (0x31, "1"); (0x32, "2"); (0x33, "3");
    (0x34, "4"); (0x35, "5"); (0x36, "6"); (0x37, "7");
    (0x38, "8"); (0x39, "9");
    (VK_SPACE, "SPACE"); (VK_RETURN, "ENTER"); (VK_BACK, "BACKSPACE");
    (VK_TAB, "TAB"); (VK_ESCAPE, "ESC"); (VK_DELETE, "DELETE");
    (VK_INSERT, "INSERT"); (VK_HOME, "HOME"); (VK_END, "END");
    (VK_PRIOR, "PAGE_UP"); (VK_NEXT, "PAGE_DOWN");
    (VK_UP, "UP_ARROW"); (VK_DOWN, "DOWN_ARROW");
    (VK_LEFT, "LEFT_ARROW"); (VK_RIGHT, "RIGHT_ARROW");
    (VK_SHIFT, "SHIFT"); (VK_CONTROL, "CTRL"); (VK_MENU, "ALT");
    (VK_CAPITAL, "CAPS_LOCK"); (VK_LWIN, "LEFT_WIN"); (VK_RWIN, "RIGHT_WIN");
    (VK_F1, "F1"); (VK_F2, "F2"); (VK_F3, "F3"); (VK_F4, "F4");
    (VK_F5, "F5"); (VK_F6, "F6"); (VK_F7, "F7"); (VK_F8, "F8");
    (VK_F9, "F9"); (VK_F10, "F10"); (VK_F11, "F11"); (VK_F12, "F12");
    (VK_OEM_1, "SEMICOLON"); (VK_OEM_PLUS, "EQUALS"); (VK_OEM_COMMA, "COMMA");
    (VK_OEM_MINUS, "MINUS"); (VK_OEM_PERIOD, "PERIOD"); (VK_OEM_2, "SLASH");
    (VK_OEM_3, "BACKTICK"); (VK_OEM_4, "LEFT_BRACKET");
    (VK_OEM_5, "BACKSLASH"); (VK_OEM_6, "RIGHT_BRACKET");
    (VK_OEM_7, "QUOTE") ]%string.

Fixpoint key_name_case (cases : list (Z * string)) (vKey : Z) : option string :=
  match cases with
  | [] => None
  | (vk, name) :: rest =>
      if vKey =? vk then Some name else key_name_case rest vKey
  end.

(** [oss << std::hex << vKey] for the [USHORT] [vKey]: lower-case
    hexadecimal digits, no leading zero. *)
Definition hex (vKey : Z) : string :=
  NilEmpty.string_of_uint (N.to_hex_uint (Z.to_N vKey)).

Definition VKeyToKeyName (vKey : Z) : string :=
  match key_name_case key_names vKey with
  | Some name => name
  | None => ("VK_0x" ++ hex vKey)%string
  end.

Definition IsPrintableKey (vKey : Z) : bool :=
  if ((0x41 <=? vKey) && (vKey <=? 0x5A)) || ((0x30 <=? vKey) && (vKey <=? 0x39))
  then true
  else
    bool_decide (vKey ∈ [VK_SPACE; VK_OEM_1; VK_OEM_PLUS; VK_OEM_COMMA;
                         VK_OEM_MINUS; VK_OEM_PERIOD; VK_OEM_2; VK_OEM_3;
                         VK_OEM_4; VK_OEM_5; VK_OEM_6; VK_OEM_7]).

(** The punctuation [switch] of [VKeyToChar]: unshifted and shifted
    character of each case. *)
Definition punctuation : list (Z * (string * string)) :=
  [ (VK_SPACE, (" ", " "));
    (VK_OEM_1, (";", ":"));
    (VK_OEM_PLUS, ("=", "+"));
    (VK_OEM_COMMA, (",", "<"));
    (VK_OEM_MINUS, ("-", "_"));
    (VK_OEM_PERIOD, (".", ">"));
    (VK_OEM_2, ("/", "?"));
    (VK_OEM_3, ("`", "~"));
    (VK_OEM_4, ("[", "{"));
    (VK_OEM_5, ("\", "|"));
    (VK_OEM_6, ("]", "}"));
    (VK_OEM_7, ("'", String (char_of_code 34) EmptyString)) ]%string.

Fixpoint punctuation_case (cases : list (Z * (string * string)))
    (shift : bool) (vKey : Z) : string :=
  match cases with
  | [] => EmptyString
  | (vk, (plain, shifted)) :: rest =>
      if vKey =? vk then (if shift then shifted else plain)
      else punctuation_case rest shift vKey
  end.

(** Reads the static members [s_shiftPressed] and [s_capsLockOn]. *)
Definition VKeyToChar (p : Process) (vKey : Z) : string :=
  let s_shiftPressed := EventLogger_s_shiftPressed p in
  let s_capsLockOn := EventLogger_s_capsLockOn p in
  if negb (IsPrintableKey vKey) then EmptyString
  else if (0x41 <=? vKey) && (vKey <=? 0x5A) then
    let letter := char_code "A" + (vKey - 0x41) in
    let shouldBeUppercase := xorb s_shiftPressed s_capsLockOn in
    let letter :=
      if negb shouldBeUppercase then letter - char_code "A" + char_code "a"
      else letter in
    string1 letter
  else if (0x30 <=? vKey) && (vKey <=? 0x39) then
    if s_shiftPressed then
      match String.get (Z.to_nat (vKey - 0x30)) ")!@#$%^&*(" with
      | Some c => String c EmptyString
      | None => EmptyString
      end
    else string1 (char_code "0" + (vKey - 0x30))
  else punctuation_case punctuation s_shiftPressed vKey.

Definition UpdateModifierStates (vKey : Z) (isKeyUp : bool) : M unit :=
  if bool_decide (vKey ∈ [VK_SHIFT; VK_LSHIFT; VK_RSHIFT]) then
    modify (fun p => with_EventLogger (EventLogger_s_initialized p)
                       (negb isKeyUp) (EventLogger_s_capsLockOn p) p)
  else if vKey =? VK_CAPITAL then
    when (negb isKeyUp)
      (modify (fun p => with_EventLogger (EventLogger_s_initialized p)
                          (EventLogger_s_shiftPressed p)
                          (negb (EventLogger_s_capsLockOn p)) p))
  else skip.

Definition WriteLogEntry (entry : LogEntry) : M unit :=
  opens ← gets (fun p => LogFileOpens (world p));
  if (opens : bool) then emit (LogAppend entry)
  else print ERROR_Could_not_write_to_log_file.

Definition LogKeyboardEvent (timestamp vKey : Z) (isKeyUp : bool) : M unit :=
  initialized ← gets EventLogger_s_initialized;
  if negb initialized then print ERROR_EventLogger_not_initialized
  else
    UpdateModifierStates vKey isKeyUp;;
    charValue ← gets (fun p => VKeyToChar p vKey);
    WriteLogEntry
      (KeyboardLine {| le_timestamp := timestamp; le_key := vKey;
                       le_keyup := isKeyUp; le_char := charValue |}).

Definition LogMouseButtonEvent (timestamp : Z) (button : string) (isButtonUp : bool)
    (cursorPos : POINT) : M unit :=
  initialized ← gets EventLogger_s_initialized;
  if negb initialized then print ERROR_EventLogger_not_initialized
  else
    let action := (button ++ (if isButtonUp then "up" else "down"))%string in
    WriteLogEntry
      (MouseLine {| ml_timestamp := timestamp; ml_action := action;
                    ml_x := pt_x cursorPos; ml_y := pt_y cursorPos |}).

End WithWin32.
End EventLogger.

(** ** special_keys.cpp *)

(** [std::vector::resize(n)] with default-constructed new elements. *)
Definition resize (n : nat) (states : list SpecialKeyState) : list SpecialKeyState :=
  take n states ++ replicate (n - length states) SpecialKeyState_new.

(** [for (auto x : l) body(x)]. *)
Fixpoint for_each {A} (l : list A) (body : A -> M unit) : M unit :=
  match l with
  | [] => skip
  | a :: rest => body a;; for_each rest body
  end.

Module SpecialKeyHandler.
Section WithWin32.
Context `{Win32}.

Definition Initialize : M unit :=
  modify (fun p => with_specialKeys [VK_CONTROL; VK_SHIFT; VK_MENU]
                     (s_specialKeyStates p) p);;
  modify (fun p => with_specialKeys (s_specialKeys p)
                     (resize (length (s_specialKeys p)) (s_specialKeyStates p)) p);;
  print OK_Special_key_handler_initialized.

(** The search loop of [GetSpecialKeyIndex], from index [i] on. *)
Fixpoint index_from (keys : list Z) (i : Z) (vKey : Z) : Z :=
  match keys with
  | [] => -1
  | k :: rest => if k =? vKey then i else index_from rest (i + 1) vKey
  end.

Definition GetSpecialKeyIndex (p : Process) (vKey : Z) : Z :=
  index_from (s_specialKeys p) 0 vKey.

Definition IsSpecialKey (p : Process) (vKey : Z) : bool :=
  0 <=? GetSpecialKeyIndex p vKey.

Definition GetKeyName (vKey : Z) : string :=
  if vKey =? VK_CONTROL then "Ctrl"
  else if vKey =? VK_SHIFT then "Shift"
  else if vKey =? VK_MENU then "Alt"
  else "Unknown".

(** [s_specialKeyStates[i]]. The two vectors have the same length in every
    state the program reaches ([keys_wf] below), so the index is in range;
    out of range the read yields a fresh state and the write does nothing. *)
Definition state_at (p : Process) (i : nat) : SpecialKeyState :=
  default SpecialKeyState_new (s_specialKeyStates p !! i).

Definition update_state_at (i : nat) (f : SpecialKeyState -> SpecialKeyState) : M unit :=
  modify (fun p => with_specialKeys (s_specialKeys p)
                     (alter f i (s_specialKeyStates p)) p).

(** Timestamps are [std::uint64_t]. *)
Definition duration (pressTime releaseTime : Z) : Z :=
  (releaseTime - pressTime) mod 2 ^ 64.

Definition OnLeftCtrlPressed (pressTime releaseTime : Z) (pressPos releasePos : POINT)
    : M unit :=
  print AI_Generating_input_completion;;
  run ← gets (fun p => RunGenerator (world p));
  emit (PythonRun run);;
  (if exit_code run =? 0 then
     if output_opened run then
       match output_line run with
       | Some outputLine =>
           if negb (string_empty outputLine) then
             modify (with_pendingSuggestion outputLine true);;
             SuggestionOverlay.ShowSuggestion outputLine;;
             print (READY_Completion outputLine);;
             print READY_Press_RIGHT_CTRL_to_accept
           else
             print INFO_No_completion_available;;
             modify (fun p => with_pendingSuggestion (s_pendingSuggestion p) false p)
       | None =>
           print ERROR_Could_not_read_Python_output;;
           modify (fun p => with_pendingSuggestion (s_pendingSuggestion p) false p)
       end
     else
       print ERROR_Could_not_open_python_output;;
       modify (fun p => with_pendingSuggestion (s_pendingSuggestion p) false p)
   else
     print (ERROR_Python_script_failed (exit_code run));;
     modify (fun p => with_pendingSuggestion (s_pendingSuggestion p) false p));;
  print Suggestion_generation_completed.

Definition OnRightCtrlPressed (pressTime releaseTime : Z) (pressPos releasePos : POINT)
    : M unit :=
  print RIGHT_CTRL_PRESSED;;
  has ← gets s_hasPendingSuggestion;
  pending ← gets s_pendingSuggestion;
  (if has && negb (string_empty pending) then
     print (ACCEPTING_LLM_SUGGESTION pending);;
     success ← InputInjector.SendTextString pending;
     (if (success : bool) then
        print (SUCCESS_Injected_LLM_text (Z.of_nat (String.length pending)))
      else print ERROR_Failed_to_inject_LLM_text);;
     modify (with_pendingSuggestion EmptyString false);;
     SuggestionOverlay.HideSuggestion
   else
     print NO_PENDING_SUGGESTION_TO_ACCEPT;;
     print Press_LEFT_CTRL_first);;
  print Right_Ctrl_processing_completed.

Definition OnShiftPressed (pressTime releaseTime : Z) (pressPos releasePos : POINT)
    : M unit :=
  print SHIFT_KEY_PRESSED.

Definition OnAltPressed (pressTime releaseTime : Z) (pressPos releasePos : POINT)
    : M unit :=
  print ALT_KEY_PRESSED.

Definition OnSpecialKeyPressed (vKey pressTime releaseTime : Z)
    (pressPos releasePos : POINT) : M unit :=
  if vKey =? VK_SHIFT then OnShiftPressed pressTime releaseTime pressPos releasePos
  else if vKey =? VK_MENU then OnAltPressed pressTime releaseTime pressPos releasePos
  else
    print (SPECIAL_KEY_HOOK_TRIGGERED vKey (duration pressTime releaseTime)
             pressPos releasePos).

Definition ProcessSpecialKeyEvent (vKey flags : Z) (isKeyUp : bool)
    (timestamp : Z) (cursorPos : POINT) : M bool :=
  specialKeyIndex ← gets (fun p => GetSpecialKeyIndex p vKey);
  if specialKeyIndex <? 0 then mret false
  else
    let idx := Z.to_nat specialKeyIndex in
    (if negb isKeyUp then
       update_state_at idx (fun _ =>
         {| isPressed := true; hadInterveningKeys := false;
            pressTimestamp := timestamp; pressPosition := cursorPos |})
     else
       keyState ← gets (fun p => state_at p idx);
       (if isPressed keyState && negb (hadInterveningKeys keyState) then
          if vKey =? VK_CONTROL then
            let isRightCtrl := negb (Z.land flags RI_KEY_E0 =? 0) in
            if isRightCtrl then
              print (SPECIAL_pressed_alone "Right Ctrl");;
              OnRightCtrlPressed (pressTimestamp keyState) timestamp
                (pressPosition keyState) cursorPos
            else
              print TRIGGER_Left_Ctrl_pressed;;
              OnLeftCtrlPressed (pressTimestamp keyState) timestamp
                (pressPosition keyState) cursorPos
          else
            print (SPECIAL_pressed_alone (GetKeyName vKey));;
            OnSpecialKeyPressed vKey (pressTimestamp keyState) timestamp
              (pressPosition keyState) cursorPos
        else if isPressed keyState && hadInterveningKeys keyState then
          if vKey =? VK_CONTROL then
            let isRightCtrl := negb (Z.land flags RI_KEY_E0 =? 0) in
            print (SPECIAL_was_part_of_key_combination
                     (if isRightCtrl then "Right Ctrl" else "Left Ctrl"))
          else print (SPECIAL_was_part_of_key_combination (GetKeyName vKey))
        else skip);;
       update_state_at idx (fun keyState =>
         {| isPressed := false; hadInterveningKeys := false;
            pressTimestamp := pressTimestamp keyState;
            pressPosition := pressPosition keyState |}));;
    mret true.

Definition AddSpecialKey (vKey : Z) : M unit :=
  index ← gets (fun p => GetSpecialKeyIndex p vKey);
  if 0 <=? index then skip
  else
    modify (fun p => with_specialKeys (s_specialKeys p ++ [vKey])
                       (s_specialKeyStates p ++ [SpecialKeyState_new]) p).

Definition GetSpecialKeys (p : Process) : list Z := s_specialKeys p.

(** The body of the loop of [NotifyRegularKeyPressed], at index [i]. *)
Definition NotifyRegularKeyPressed_body (vKey : Z) (i : nat) : M unit :=
  keyState ← gets (fun p => state_at p i);
  when (isPressed keyState)
    (update_state_at i (fun keyState =>
       {| isPressed := isPressed keyState; hadInterveningKeys := true;
          pressTimestamp := pressTimestamp keyState;
          pressPosition := pressPosition keyState |});;
     key ← gets (fun p => default 0 (s_specialKeys p !! i));
     print (COMBO_detected (GetKeyName key) vKey)).

Definition NotifyRegularKeyPressed (vKey : Z) : M unit :=
  size ← gets (fun p => length (s_specialKeys p));
  for_each (seq 0 size) (NotifyRegularKeyPressed_body vKey).

End WithWin32.
End SpecialKeyHandler.

(** ** main.cpp *)

Section Main.
Context `{Win32}.

Definition StoreEvent (timestamp : Z) (cursorPos : POINT) (kbData : KeyboardEventData)
    : M unit :=
  modify (fun p => with_globals (g_running p)
    (g_eventHistory p ++ [{| timestamp := timestamp; cursorPosition := cursorPos;
                             eventData := KEYBOARD kbData |}]) p);;
  EventLogger.LogKeyboardEvent timestamp (vKey kbData) (isKeyUp kbData).

(** The overload of [StoreEvent] for mouse events: only the six button
    events reach the log. *)
Definition StoreEvent_mouse (timestamp : Z) (cursorPos : POINT)
    (mouseData : MouseEventData) : M unit :=
  modify (fun p => with_globals (g_running p)
    (g_eventHistory p ++ [{| timestamp := timestamp; cursorPosition := cursorPos;
                             eventData := MOUSE mouseData |}]) p);;
  match eventType mouseData with
  | LEFT_DOWN => EventLogger.LogMouseButtonEvent timestamp "left" false cursorPos
  | LEFT_UP => EventLogger.LogMouseButtonEvent timestamp "left" true cursorPos
  | RIGHT_DOWN => EventLogger.LogMouseButtonEvent timestamp "right" false cursorPos
  | RIGHT_UP => EventLogger.LogMouseButtonEvent timestamp "right" true cursorPos
  | MIDDLE_DOWN => EventLogger.LogMouseButtonEvent timestamp "middle" false cursorPos
  | MIDDLE_UP => EventLogger.LogMouseButtonEvent timestamp "middle" true cursorPos
  | WHEEL | MOVE => skip
  end.

(** The [RIM_TYPEKEYBOARD] branch of [ProcessRawInput]: [kb] is the
    [RAWKEYBOARD] read from the raw input, [timestamp] and [cursorPos] the
    values of [GetTimestampMicros] and [GetCursorPos]. *)
Definition ProcessRawInput (kb : RAWKEYBOARD) (timestamp : Z) (cursorPos : POINT)
    : M unit :=
  let isKeyUp := negb (Z.land (Flags kb) RI_KEY_BREAK =? 0) in
  StoreEvent timestamp cursorPos
    {| vKey := VKey kb; scanCode := MakeCode kb; flags := Flags kb;
       isKeyUp := isKeyUp |};;
  if (VKey kb =? VK_ESCAPE) && negb isKeyUp then
    print (ESC_pressed_shutting_down timestamp);;
    modify (fun p => with_globals false (g_eventHistory p) p);;
    emit PostQuit
  else
    when (negb isKeyUp)
      (let isLeftCtrl :=
         (VKey kb =? VK_CONTROL) && (Z.land (Flags kb) RI_KEY_E0 =? 0) in
       when (negb isLeftCtrl) SuggestionOverlay.HideSuggestion);;
    hookTriggered ←
      SpecialKeyHandler.ProcessSpecialKeyEvent (VKey kb) (Flags kb) isKeyUp
        timestamp cursorPos;
    when (negb hookTriggered && negb isKeyUp)
      (SpecialKeyHandler.NotifyRegularKeyPressed (VKey kb));;
    when (negb hookTriggered)
      (special ← gets (fun p =>
         if SpecialKeyHandler.IsSpecialKey p (VKey kb)
         then Some (SpecialKeyHandler.GetKeyName (VKey kb)) else None);
       print (KB_line timestamp (VKey kb) (MakeCode kb) isKeyUp special cursorPos)).

Definition InitializeEventLog : M unit :=
  EventLogger.Initialize;; EventLogger.ClearLogFile.

(** The initialisation calls at the head of [main]. *)
Definition main_initialize : M unit :=
  InitializeEventLog;;
  SpecialKeyHandler.Initialize;;
  InputInjector.Initialize;;
  SuggestionOverlay.Initialize.

(** The process after start-up, and after a sequence of keyboard events. *)
Definition started : Process := snd (main_initialize process_start).

Definition run_keys (events : list (RAWKEYBOARD * Z * POINT)) : M unit :=
  for_each events (fun '(kb, timestamp, cursorPos) =>
    ProcessRawInput kb timestamp cursorPos).

(** The [RIM_TYPEMOUSE] branch of [ProcessRawInput]: the first button flag
    that is set, in the order of the source, decides the event; the wheel
    and the movements are commented out in the source.  In each branch
    [usButtonFlags] is not 0, so the second part of the console line is
    always printed. *)
Definition ProcessRawMouse (mouse : RAWMOUSE) (timestamp : Z) (cursorPos : POINT)
    : M unit :=
  let button (type : MouseEventType) : M unit :=
    StoreEvent_mouse timestamp cursorPos
      {| eventType := type; deltaX := lLastX mouse; deltaY := lLastY mouse;
         wheelData := 0 |};;
    print (MOUSE_line timestamp type (lLastX mouse) (lLastY mouse) cursorPos) in
  if negb (Z.land (usButtonFlags mouse) RI_MOUSE_LEFT_BUTTON_DOWN =? 0) then
    button LEFT_DOWN
  else if negb (Z.land (usButtonFlags mouse) RI_MOUSE_LEFT_BUTTON_UP =? 0) then
    button LEFT_UP
  else if negb (Z.land (usButtonFlags mouse) RI_MOUSE_RIGHT_BUTTON_DOWN =? 0) then
    button RIGHT_DOWN
  else if negb (Z.land (usButtonFlags mouse) RI_MOUSE_RIGHT_BUTTON_UP =? 0) then
    button RIGHT_UP
  else if negb (Z.land (usButtonFlags mouse) RI_MOUSE_MIDDLE_BUTTON_DOWN =? 0) then
    button MIDDLE_DOWN
  else if negb (Z.land (usButtonFlags mouse) RI_MOUSE_MIDDLE_BUTTON_UP =? 0) then
    button MIDDLE_UP
  else skip.

(** [ProcessRawInput] on the data of a raw input, by [header.dwType]; an
    input of another device does nothing. *)
Definition ProcessRawInputData (raw : RAWINPUT) (timestamp : Z) (cursorPos : POINT)
    : M unit :=
  match raw with
  | RIM_TYPEKEYBOARD kb => ProcessRawInput kb timestamp cursorPos
  | RIM_TYPEMOUSE mouse => ProcessRawMouse mouse timestamp cursorPos
  | RIM_TYPEHID => skip
  end.

(** The message loop of [main], for the raw inputs, of the keyboard and of
    the mouse, that [GetMessage] delivers as [WM_INPUT] and whose data
    [GetRawInputData] reads: [while (g_running && GetMessage(...))] looks
    at [g_running] before it takes the next message.  The other messages
    go to [DefWindowProc]. *)
Fixpoint message_loop (inputs : list (RAWINPUT * Z * POINT)) : M unit :=
  match inputs with
  | [] => skip
  | (raw, timestamp, cursorPos) :: rest =>
      running ← gets g_running;
      if (running : bool) then
        ProcessRawInputData raw timestamp cursorPos;; message_loop rest
      else skip
  end.

End Main.

(** ** Observations on [world] *)

(** The synthetic key events among some effects, accepted by the platform
    or not. *)
Inductive KeyAction := KeyDown (vk : Z) | KeyUp (vk : Z).

Definition key_event (e : Effect) : option KeyAction :=
  match e with
  | SendInputCall input _ =>
      Some (if dwFlags input =? KEYEVENTF_KEYUP then KeyUp (wVk input)
            else KeyDown (wVk input))
  | _ => None
  end.

Definition key_events (effects : list Effect) : list KeyAction :=
  omap key_event effects.

Definition key_action (vk : Z) (isKeyUp : bool) : KeyAction :=
  if isKeyUp then KeyUp vk else KeyDown vk.

(** Whether [VkKeyScanA] reports the shift state for a character: the test
    [modifiers & 1] of [SendTextString]. *)
Definition needs_shift `{Win32} (c : ascii) : bool :=
  negb (Z.land (HIBYTE (VkKeyScanA c)) 1 =? 0).

(** The key events that the loop body of [SendTextString] is to synthesize
    for one character: nothing for a character without virtual key, the key
    press otherwise, inside a press of Shift when the character needs it;
    and those of a text. *)
Definition char_keys `{Win32} (c : ascii) : list KeyAction :=
  let vk := InputInjector.CharToVirtualKey c in
  if vk =? 0 then []
  else if needs_shift c then
    [KeyDown VK_SHIFT; KeyDown vk; KeyUp vk; KeyUp VK_SHIFT]
  else [KeyDown vk; KeyUp vk].

Fixpoint text_keys `{Win32} (text : string) : list KeyAction :=
  match text with
  | EmptyString => []
  | String c rest => char_keys c ++ text_keys rest
  end.

(** The result of each iteration of the loop of [SendTextString] on [text]
    from [p], every iteration being run. *)
Fixpoint per_character_results `{Win32} (text : string) (p : Process) : list bool :=
  match text with
  | EmptyString => []
  | String c rest =>
      let (r, p') := InputInjector.SendTextString_body c true p in
      r :: per_character_results rest p'
  end.

(** The answers of [SendInput] among some effects, in the order of the
    calls. *)
Definition answer (e : Effect) : option bool :=
  match e with SendInputCall _ accepted => Some accepted | _ => None end.

Definition answers (effects : list Effect) : list bool := omap answer effects.

(** The result of the injection of each character of [text], read off the
    answers that [SendInput] gave during the call: a character without
    virtual key has no event and counts as a success; for any other the
    result is that the platform accepted both the key-down and the key-up
    of the character's own key.  The answers to the two events of Shift
    around a character that needs it are passed over. *)
Fixpoint char_results `{Win32} (text : string) (answers : list bool) : list bool :=
  match text with
  | EmptyString => []
  | String c rest =>
      if InputInjector.CharToVirtualKey c =? 0 then
        true :: char_results rest answers
      else
        let own := if needs_shift c then drop 1 answers else answers in
        (default false (own !! 0%nat) && default false (own !! 1%nat)) ::
        char_results rest (drop (if needs_shift c then 3 else 2) own)
  end.

(** How many presses of Shift are open after some key events; [None] when a
    release of Shift comes without an open press. *)
Fixpoint shift_depth (open : nat) (events : list KeyAction) : option nat :=
  match events with
  | [] => Some open
  | KeyDown vk :: rest =>
      shift_depth (if vk =? VK_SHIFT then S open else open) rest
  | KeyUp vk :: rest =>
      if vk =? VK_SHIFT then
        match open with
        | O => None
        | S n => shift_depth n rest
        end
      else shift_depth open rest
  end.

(** Whether a [std::string] is one upper-case, one lower-case letter. *)
Definition is_uppercase_letter (s : string) : bool :=
  match s with
  | String c EmptyString =>
      (char_code "A" <=? char_code c) && (char_code c <=? char_code "Z")
  | _ => false
  end.

Definition is_lowercase_letter (s : string) : bool :=
  match s with
  | String c EmptyString =>
      (char_code "a" <=? char_code c) && (char_code c <=? char_code "z")
  | _ => false
  end.

(** The console lines by which [ProcessSpecialKeyEvent] announces that it
    calls the handler of a gesture, and that it does not. *)
Definition gesture_fired (e : Effect) : bool :=
  match e with
  | Console (SPECIAL_pressed_alone _) | Console TRIGGER_Left_Ctrl_pressed => true
  | _ => false
  end.

Definition gesture_suppressed (e : Effect) : bool :=
  match e with
  | Console (SPECIAL_was_part_of_key_combination _) => true
  | _ => false
  end.

Definition fired_count (effects : list Effect) : nat :=
  length (List.filter gesture_fired effects).

Definition suppressed_count (effects : list Effect) : nat :=
  length (List.filter gesture_suppressed effects).

(** Effects among which there is no announcement of a gesture. *)
Definition quiet (effects : list Effect) : bool :=
  forallb (fun e => negb (gesture_fired e || gesture_suppressed e)) effects.

(** For the key-up of the monitored key [vKey] with the flags [flags]: the
    line that announces the gesture, the handler of the gesture, and the
    line that reports a key combination.  Ctrl has one handler for each
    side, told apart by [RI_KEY_E0]. *)
Definition gesture_line (vKey flags : Z) : Msg :=
  if vKey =? VK_CONTROL then
    if negb (Z.land flags RI_KEY_E0 =? 0) then SPECIAL_pressed_alone "Right Ctrl"
    else TRIGGER_Left_Ctrl_pressed
  else SPECIAL_pressed_alone (SpecialKeyHandler.GetKeyName vKey).

Definition gesture_handler `{Win32} (vKey flags pressTime releaseTime : Z)
    (pressPos releasePos : POINT) : M unit :=
  if vKey =? VK_CONTROL then
    if negb (Z.land flags RI_KEY_E0 =? 0) then
      SpecialKeyHandler.OnRightCtrlPressed pressTime releaseTime pressPos releasePos
    else
      SpecialKeyHandler.OnLeftCtrlPressed pressTime releaseTime pressPos releasePos
  else
    SpecialKeyHandler.OnSpecialKeyPressed vKey pressTime releaseTime pressPos releasePos.

Definition combination_line (vKey flags : Z) : Msg :=
  SPECIAL_was_part_of_key_combination
    (if vKey =? VK_CONTROL then
       if negb (Z.land flags RI_KEY_E0 =? 0) then "Right Ctrl" else "Left Ctrl"
     else SpecialKeyHandler.GetKeyName vKey).

(** The state of a key after its key-up, and the process after the key-up
    of the key at index [idx]. *)
Definition released_state (keyState : SpecialKeyState) : SpecialKeyState :=
  {| isPressed := false; hadInterveningKeys := false;
     pressTimestamp := pressTimestamp keyState;
     pressPosition := pressPosition keyState |}.

Definition released (idx : nat) (p : Process) : Process :=
  with_specialKeys (s_specialKeys p)
    (alter released_state idx (s_specialKeyStates p)) p.

(** What a key-down of another key is to do to the state of a special
    key: set [hadInterveningKeys] when the key is pressed. *)
Definition mark_intervening (keyState : SpecialKeyState) : SpecialKeyState :=
  if isPressed keyState then
    {| isPressed := isPressed keyState; hadInterveningKeys := true;
       pressTimestamp := pressTimestamp keyState;
       pressPosition := pressPosition keyState |}
  else keyState.

(** ** Invariants of the static members *)

(** The two vectors of [SpecialKeyHandler] run in parallel and no key is
    monitored twice. *)
Definition keys_wf (p : Process) : Prop :=
  NoDup (s_specialKeys p) /\
  length (s_specialKeyStates p) = length (s_specialKeys p).

(** An overlay that is not initialised has no window. *)
Definition overlay_wf (p : Process) : Prop :=
  SuggestionOverlay_s_initialized p = true \/
  SuggestionOverlay_s_overlayWindow p = None.

(** The part of the static members on which the two invariants depend. No
    keyboard event changes it ([ProcessRawInput_shape] below). *)
Definition shape (p : Process) : list Z * nat * bool * bool * bool :=
  (s_specialKeys p, length (s_specialKeyStates p),
   SuggestionOverlay_s_initialized p,
   bool_decide (is_Some (SuggestionOverlay_s_overlayWindow p)),
   InputInjector_s_initialized p).

(** [has_pending] is the condition under which [OnRightCtrlPressed] accepts. *)
Definition has_pending (p : Process) : bool :=
  s_hasPendingSuggestion p && negb (string_empty (s_pendingSuggestion p)).

(** [runs m p a effects]: run from [p], [m] returns [a], appends [effects]
    to [world] and leaves every static member as it was. *)
Definition runs {A} (m : M A) (p : Process) (a : A) (effects : list Effect) : Prop :=
  m p = (a, with_world (world p ++ effects) p).

(** The effects of the functions of input_injection.cpp. *)
Definition injector_effect (e : Effect) : bool :=
  match e with
  | SendInputCall _ _ | Sleep _ => true
  | Console ERROR_InputInjector_not_initialized
  | Console (INPUT_Sending_text _)
  | Console (WARNING_Cannot_convert_character _)
  | Console ERROR_SendInput_failed => true
  | _ => false
  end.

(** ** Observations for the further properties *)

(** The lines appended to the log file among some effects. *)
Definition log_line (e : Effect) : option LogEntry :=
  match e with LogAppend entry => Some entry | _ => None end.

Definition log_lines (effects : list Effect) : list LogEntry :=
  omap log_line effects.

Definition is_Sleep (e : Effect) : bool :=
  match e with Sleep _ => true | _ => false end.

(** Whether the platform accepted every synthetic event among some
    effects. *)
Definition all_accepted (effects : list Effect) : bool :=
  forallb (fun e => match e with SendInputCall _ accepted => accepted | _ => true end)
          effects.

Definition no_sleep (effects : list Effect) : bool :=
  forallb (fun e => negb (is_Sleep e)) effects.

(** A platform that accepts every event of the virtual key [vk]. *)
Definition accepts_key `{Win32} (vk : Z) : Prop :=
  forall history flags,
    SendInput history {| wVk := vk; dwFlags := flags |} = true.

(** The key events of [SendKeySequence] on some virtual keys. *)
Definition sequence_keys (vkCodes : list Z) : list KeyAction :=
  vkCodes ≫= fun vk => [KeyDown vk; KeyUp vk].

(** The button event of a raw mouse input: that of the first button flag
    that is set, in the order left, right, middle and down before up. *)
Definition mouse_button (mouse : RAWMOUSE) : option MouseEventType :=
  let set flag := negb (Z.land (usButtonFlags mouse) flag =? 0) in
  if set RI_MOUSE_LEFT_BUTTON_DOWN then Some LEFT_DOWN
  else if set RI_MOUSE_LEFT_BUTTON_UP then Some LEFT_UP
  else if set RI_MOUSE_RIGHT_BUTTON_DOWN then Some RIGHT_DOWN
  else if set RI_MOUSE_RIGHT_BUTTON_UP then Some RIGHT_UP
  else if set RI_MOUSE_MIDDLE_BUTTON_DOWN then Some MIDDLE_DOWN
  else if set RI_MOUSE_MIDDLE_BUTTON_UP then Some MIDDLE_UP
  else None.

(** The entry of [g_eventHistory] that [ProcessRawInput] stores for a raw
    keyboard event, and the one it stores for a raw input: a mouse input
    without button event and an input of another device store none. *)
Definition stored_keyboard_event (kb : RAWKEYBOARD) (timestamp : Z) (cursorPos : POINT)
    : InputEvent :=
  {| timestamp := timestamp; cursorPosition := cursorPos;
     eventData :=
       KEYBOARD
         {| vKey := VKey kb; scanCode := MakeCode kb; flags := Flags kb;
            isKeyUp := negb (Z.land (Flags kb) RI_KEY_BREAK =? 0) |} |}.

Definition stored_event (input : RAWINPUT * Z * POINT) : option InputEvent :=
  let '(raw, timestamp, cursorPos) := input in
  match raw with
  | RIM_TYPEKEYBOARD kb => Some (stored_keyboard_event kb timestamp cursorPos)
  | RIM_TYPEMOUSE mouse =>
      type ← mouse_button mouse;
      Some {| timestamp := timestamp; cursorPosition := cursorPos;
              eventData :=
                MOUSE {| eventType := type; deltaX := lLastX mouse;
                         deltaY := lLastY mouse; wheelData := 0 |} |}
  | RIM_TYPEHID => None
  end.

(** Whether a raw keyboard event, a raw input, is the key-down of Escape,
    and the inputs up to and including the first such input. *)
Definition is_escape_down (kb : RAWKEYBOARD) : bool :=
  (VKey kb =? VK_ESCAPE) && (Z.land (Flags kb) RI_KEY_BREAK =? 0).

Definition is_escape_input (input : RAWINPUT * Z * POINT) : bool :=
  match input.1.1 with
  | RIM_TYPEKEYBOARD kb => is_escape_down kb
  | _ => false
  end.


(** The modifiers after [UpdateModifierStates]: Shift is held after the
    key-down of a Shift key and not after its key-up; Caps Lock is toggled
    by the key-down of Caps Lock. *)
Definition shift_after (vKey : Z) (isKeyUp shift : bool) : bool :=
  if bool_decide (vKey ∈ [VK_SHIFT; VK_LSHIFT; VK_RSHIFT]) then negb isKeyUp
  else shift.

Definition caps_after (vKey : Z) (isKeyUp caps : bool) : bool :=
  if bool_decide (vKey ∈ [VK_SHIFT; VK_LSHIFT; VK_RSHIFT]) then caps
  else if (vKey =? VK_CAPITAL) && negb isKeyUp then negb caps
  else caps.

(** The line that [LogKeyboardEvent] writes for an event seen in [p]: the
    character is the one under the modifiers as updated by the event. *)
Definition logged_line (timestamp vKey : Z) (isKeyUp : bool) (p : Process) : LogLine :=
  {| le_timestamp := timestamp; le_key := vKey; le_keyup := isKeyUp;
     le_char :=
       EventLogger.VKeyToChar
         (with_EventLogger true
            (shift_after vKey isKeyUp (EventLogger_s_shiftPressed p))
            (caps_after vKey isKeyUp (EventLogger_s_capsLockOn p)) p) vKey |}.

(** [keeps_core p p']: from [p] to [p'] the static members of the injector
    and of the logger, the list of monitored keys and the globals of
    main.cpp are unchanged. *)
Definition keeps_core (p p' : Process) : Prop :=
  InputInjector_s_keyDelayMs p' = InputInjector_s_keyDelayMs p /\
  InputInjector_s_initialized p' = InputInjector_s_initialized p /\
  EventLogger_s_initialized p' = EventLogger_s_initialized p /\
  EventLogger_s_shiftPressed p' = EventLogger_s_shiftPressed p /\
  EventLogger_s_capsLockOn p' = EventLogger_s_capsLockOn p /\
  s_specialKeys p' = s_specialKeys p /\
  g_running p' = g_running p /\
  g_eventHistory p' = g_eventHistory p.

(** [silent_step p p']: moreover [world] has only grown, and by no line of
    the log file. *)
Definition silent_step (p p' : Process) : Prop :=
  keeps_core p p' /\
  exists effects, world p' = world p ++ effects /\ log_lines effects = [].

(** What an event of a monitored key is to do to the state of that key:
    the key-down starts a press at [timestamp] and [cursorPos], the key-up
    ends it; both clear [hadInterveningKeys]. *)
Definition after_key_event (isKeyUp : bool) (timestamp : Z) (cursorPos : POINT)
    (keyState : SpecialKeyState) : SpecialKeyState :=
  if isKeyUp then
    {| isPressed := false; hadInterveningKeys := false;
       pressTimestamp := pressTimestamp keyState;
       pressPosition := pressPosition keyState |}
  else
    {| isPressed := true; hadInterveningKeys := false;
       pressTimestamp := timestamp; pressPosition := cursorPos |}.

(** [hadInterveningKeys] is set only in the state of a pressed key. *)
Definition had_implies_pressed (p : Process) : Prop :=
  Forall (fun keyState =>
            hadInterveningKeys keyState = true -> isPressed keyState = true)
         (s_specialKeyStates p).

(** The line that [LogMouseButtonEvent] writes for a button event at
    [timestamp] with the cursor at [cursorPos]. *)
Definition mouse_action (type : MouseEventType) : option string :=
  match type with
  | LEFT_DOWN => Some "leftdown" | LEFT_UP => Some "leftup"
  | RIGHT_DOWN => Some "rightdown" | RIGHT_UP => Some "rightup"
  | MIDDLE_DOWN => Some "middledown" | MIDDLE_UP => Some "middleup"
  | WHEEL | MOVE => None
  end%string.

Definition logged_mouse_line (mouse : RAWMOUSE) (timestamp : Z) (cursorPos : POINT)
    : option LogEntry :=
  type ← mouse_button mouse;
  action ← mouse_action type;
  Some (MouseLine {| ml_timestamp := timestamp; ml_action := action;
                     ml_x := pt_x cursorPos; ml_y := pt_y cursorPos |}).

(** What identifies an input in the log: for a keyboard event the
    timestamp, the virtual key and the direction, for a button event of the
    mouse the whole line; and the same of a line of the log. *)
Inductive LogKey :=
  | KeyLogged (timestamp vKey : Z) (isKeyUp : bool)
  | MouseLogged (line : MouseLogLine).

Definition event_key (input : RAWINPUT * Z * POINT) : option LogKey :=
  let '(raw, timestamp, cursorPos) := input in
  match raw with
  | RIM_TYPEKEYBOARD kb =>
      Some (KeyLogged timestamp (VKey kb)
              (negb (Z.land (Flags kb) RI_KEY_BREAK =? 0)))
  | RIM_TYPEMOUSE mouse =>
      match logged_mouse_line mouse timestamp cursorPos with
      | Some (MouseLine line) => Some (MouseLogged line)
      | _ => None
      end
  | RIM_TYPEHID => None
  end.

Definition line_key (entry : LogEntry) : LogKey :=
  match entry with
  | KeyboardLine line => KeyLogged (le_timestamp line) (le_key line) (le_keyup line)
  | MouseLine line => MouseLogged line
  end.

(** Whether a raw input is the key-up of Ctrl, of either side. *)
Definition is_ctrl_up (input : RAWINPUT * Z * POINT) : bool :=
  match input.1.1 with
  | RIM_TYPEKEYBOARD kb =>
      negb (Z.land (Flags kb) RI_KEY_BREAK =? 0) && (VKey kb =? VK_CONTROL)
  | _ => false
  end.

(** The completion that [OnLeftCtrlPressed] accepts from a run of the
    generator: the first line of the output file, when the script exited
    with 0, the file opened, and the line was read and is not empty. *)
Definition completion (run : GeneratorRun) : option string :=
  if (exit_code run =? 0) && output_opened run then
    match output_line run with
    | Some outputLine => if string_empty outputLine then None else Some outputLine
    | None => None
    end
  else None.

(** The overlay can show a suggestion: it is initialised and has a window. *)
Definition overlay_ready (p : Process) : bool :=
  SuggestionOverlay_s_initialized p &&
  bool_decide (is_Some (SuggestionOverlay_s_overlayWindow p)).

(** Whether a raw keyboard event counts as a key pressed in between, for
    the monitored keys [keys]: the key-down of a key that is not monitored
    and is not Escape. *)
Definition is_intervening (keys : list Z) (event : RAWKEYBOARD * Z * POINT) : bool :=
  let '(kb, _, _) := event in
  (Z.land (Flags kb) RI_KEY_BREAK =? 0) &&
  negb (bool_decide (VKey kb ∈ keys)) && negb (VKey kb =? VK_ESCAPE).

(** ** Platforms for the examples *)

(** A keyboard layout read off the table of [VKeyToChar]: a character is
    typed by the key that prints it, with Shift when only the shifted key
    prints it; -1 for the others. *)
Definition printable_keys : list Z :=
  seqZ 0x41 26 ++ seqZ 0x30 10 ++ map fst EventLogger.punctuation.

Definition layout_VkKeyScanA (c : ascii) : Z :=
  let prints (shift : bool) (vk : Z) :=
    String.eqb (EventLogger.VKeyToChar
                  (with_EventLogger true shift false process_start) vk)
               (String c EmptyString) in
  match filter (fun vk => prints false vk = true) printable_keys with
  | vk :: _ => vk
  | [] =>
      match filter (fun vk => prints true vk = true) printable_keys with
      | vk :: _ => 0x100 + vk
      | [] => -1
      end
  end.

Definition is_SendInputCall (e : Effect) : bool :=
  match e with SendInputCall _ _ => true | _ => false end.

(** A platform that accepts every synthetic event, and whose generator
    suggests [line]. *)
Definition platform (line : string) : Win32 := {|
  VkKeyScanA := layout_VkKeyScanA;
  SendInput := fun _ _ => true;
  RunGenerator := fun _ =>
    {| exit_code := 0; output_opened := true; output_line := Some line |};
  LogFileOpens := fun _ => true;
  CapsLockToggled := false;
  RegisterOverlayClass_ok := true;
  CreateOverlayWindow_ok := true
|}.

(** The same platform, except that it rejects the first synthetic event it
    is given and accepts all later ones. *)
Definition platform_rejecting_first (line : string) : Win32 := {|
  VkKeyScanA := layout_VkKeyScanA;
  SendInput := fun history _ => existsb is_SendInputCall history;
  RunGenerator := fun _ =>
    {| exit_code := 0; output_opened := true; output_line := Some line |};
  LogFileOpens := fun _ => true;
  CapsLockToggled := false;
  RegisterOverlayClass_ok := true;
  CreateOverlayWindow_ok := true
|}.

(** The same platform, except that it rejects every event of Shift. *)
Definition platform_rejecting_shift (line : string) : Win32 := {|
  VkKeyScanA := layout_VkKeyScanA;
  SendInput := fun _ input => negb (wVk input =? VK_SHIFT);
  RunGenerator := fun _ =>
    {| exit_code := 0; output_opened := true; output_line := Some line |};
  LogFileOpens := fun _ => true;
  CapsLockToggled := false;
  RegisterOverlayClass_ok := true;
  CreateOverlayWindow_ok := true
|}.

(** A platform that rejects every synthetic event. *)
Definition platform_rejecting_all (line : string) : Win32 := {|
  VkKeyScanA := layout_VkKeyScanA;
  SendInput := fun _ _ => false;
  RunGenerator := fun _ =>
    {| exit_code := 0; output_opened := true; output_line := Some line |};
  LogFileOpens := fun _ => true;
  CapsLockToggled := false;
  RegisterOverlayClass_ok := true;
  CreateOverlayWindow_ok := true
|}.

(** Raw keyboard events for the examples. *)
Definition key_down (vk : Z) : RAWKEYBOARD := {| MakeCode := 0; Flags := 0; VKey := vk |}.
Definition key_up (vk : Z) : RAWKEYBOARD :=
  {| MakeCode := 0; Flags := RI_KEY_BREAK; VKey := vk |}.
Definition right_key_down (vk : Z) : RAWKEYBOARD :=
  {| MakeCode := 0; Flags := RI_KEY_E0; VKey := vk |}.
Definition right_key_up (vk : Z) : RAWKEYBOARD :=
  {| MakeCode := 0; Flags := Z.lor RI_KEY_E0 RI_KEY_BREAK; VKey := vk |}.
Definition origin : POINT := {| pt_x := 0; pt_y := 0 |}.

(** Raw mouse inputs for the examples: a press of the left button, and a
    movement without button event. *)
Definition left_click : RAWMOUSE :=
  {| usButtonFlags := RI_MOUSE_LEFT_BUTTON_DOWN; lLastX := 0; lLastY := 0 |}.

(** The process after start-up and a key-down of Left Ctrl. *)
Definition ctrl_held `{Win32} : Process :=
  snd (run_keys [ (key_down VK_CONTROL, 1, origin) ] started).

(** The process after start-up and a press and release of Left Ctrl: on
    [platform line] the generator has suggested [line]. *)
Definition suggested `{Win32} : Process :=
  snd (run_keys [ (key_down VK_CONTROL, 1, origin);
                  (key_up VK_CONTROL, 2, origin) ] started).

(** ** Helpers of the proofs *)

(** Equality of strings is decidable. *)
#[local] Instance string_eq_dec : EqDecision string := string_dec.

(** [single t]: abstract the goal over [t], so that [t] occurs once. *)
Ltac single t :=
  pattern t;
  match goal with |- ?P _ => let Q := fresh "Q" in set (Q := P) end.

(** * Theorems *)

Example layout_A : layout_VkKeyScanA "A" = 0x141.
Proof. vm_compute. reflexivity. Qed.

Example layout_b : layout_VkKeyScanA "b" = 0x42.
Proof. vm_compute. reflexivity. Qed.

Example layout_bang : layout_VkKeyScanA "!" = 0x131.
Proof. vm_compute. reflexivity. Qed.

Example layout_newline : layout_VkKeyScanA "010" = -1.
Proof. vm_compute. reflexivity. Qed.

Example started_on_platform :
  @started (platform "Hi") =
  {| InputInjector_s_keyDelayMs := 10;
     InputInjector_s_initialized := true;
     EventLogger_s_initialized := true;
     EventLogger_s_shiftPressed := false;
     EventLogger_s_capsLockOn := false;
     SuggestionOverlay_s_overlayWindow := Some false;
     SuggestionOverlay_s_initialized := true;
     SuggestionOverlay_s_currentSuggestion := EmptyString;
     s_specialKeys := [VK_CONTROL; VK_SHIFT; VK_MENU];
     s_specialKeyStates := [SpecialKeyState_new; SpecialKeyState_new; SpecialKeyState_new];
     s_pendingSuggestion := EmptyString;
     s_hasPendingSuggestion := false;
     g_running := true;
     g_eventHistory := [];
     world := [Console OK_Event_logger_initialized; LogTruncate;
               Console OK_Event_log_file_cleared;
               Console OK_Special_key_handler_initialized;
               Console (OK_Input_injector_initialized 10);
               Console OVERLAY_Suggestion_overlay_initialized] |}.
Proof. vm_compute. reflexivity. Qed.

(** ** Runs that only append to [world] *)

Lemma with_world_same p : with_world (world p) p = p.
Proof. destruct p; reflexivity. Qed.

Lemma emitted_with_world p effects :
  emitted p (with_world (world p ++ effects) p) = effects.
Proof. unfold emitted; simpl. apply drop_app_length. Qed.

Lemma emitted_same p : emitted p p = [].
Proof. unfold emitted. apply drop_all. Qed.

Section Runs.
Context {A B : Type}.

Lemma runs_ret (a : A) p : runs (mret a) p a [].
Proof. unfold runs, mret, M_ret. by rewrite app_nil_r, with_world_same. Qed.

Lemma runs_gets (f : Process -> A) p : runs (gets f) p (f p) [].
Proof. unfold runs, gets. by rewrite app_nil_r, with_world_same. Qed.

Lemma runs_bind (m : M A) (k : A -> M B) p a b effects1 effects2 :
  runs m p a effects1 ->
  runs (k a) (with_world (world p ++ effects1) p) b effects2 ->
  runs (m ≫= k) p b (effects1 ++ effects2).
Proof.
  unfold runs, mbind, M_bind. intros -> ->. simpl.
  by rewrite app_assoc.
Qed.

Lemma runs_bind_gets (f : Process -> A) (k : A -> M B) p b effects :
  runs (k (f p)) p b effects -> runs (gets f ≫= k) p b effects.
Proof. unfold runs, mbind, M_bind, gets. auto. Qed.

Lemma runs_emitted (m : M A) p a effects :
  runs m p a effects -> emitted p (snd (m p)) = effects.
Proof. intros ->. apply emitted_with_world. Qed.

Lemma runs_fst (m : M A) p a effects : runs m p a effects -> fst (m p) = a.
Proof. by intros ->. Qed.
End Runs.

Lemma runs_skip p : runs skip p tt [].
Proof. apply runs_ret. Qed.

Lemma runs_emit e p : runs (emit e) p tt [e].
Proof. reflexivity. Qed.

Lemma runs_print line p : runs (print line) p tt [Console line].
Proof. reflexivity. Qed.

Lemma runs_when (b : bool) m p effects :
  (b = true -> runs m p tt effects) ->
  runs (when b m) p tt (if b then effects else []).
Proof. destruct b; simpl; intros Hm; [by apply Hm | apply runs_skip]. Qed.

(** ** input_injection.cpp: what a call sends *)

Section Injector.
Context `{Win32}.

Lemma key_events_app l1 l2 :
  key_events (l1 ++ l2) = key_events l1 ++ key_events l2.
Proof. apply omap_app. Qed.

(** [SendVirtualKey] hands the event to [SendInput] exactly when the
    injector is initialised, and only appends to [world]. *)
Lemma SendVirtualKey_runs vk up p :
  exists ok effects,
    runs (InputInjector.SendVirtualKey vk up) p ok effects /\
    key_events effects =
      (if InputInjector_s_initialized p then [key_action vk up] else []) /\
    forallb injector_effect effects = true.
Proof.
  unfold InputInjector.SendVirtualKey, InputInjector.SendInputHelper, runs.
  unfold mbind, M_bind, gets, print, emit, modify, mret, M_ret. simpl.
  destruct (InputInjector_s_initialized p) eqn:Hinit; simpl.
  - match goal with |- context [SendInput ?w ?i] =>
      destruct (SendInput w i) eqn:Hok end; simpl.
    + eexists true, [_]. split; [reflexivity|]. by destruct up.
    + eexists false, [_; _]. split.
      * unfold with_world; simpl. by rewrite <- app_assoc.
      * by destruct up.
  - by eexists false, [_].
Qed.

Lemma SendKeyPress_runs vk p :
  exists pressed effects,
    runs (InputInjector.SendKeyPress vk) p pressed effects /\
    key_events effects =
      (if InputInjector_s_initialized p then [KeyDown vk; KeyUp vk] else []) /\
    forallb injector_effect effects = true.
Proof.
  destruct (SendVirtualKey_runs vk false p) as (ok1 & e1 & Hr1 & Hk1 & Hf1).
  set (p1 := with_world (world p ++ e1) p).
  set (sl := if ok1 && (0 <? InputInjector_s_keyDelayMs p1)
             then [Sleep (InputInjector_s_keyDelayMs p1)] else []).
  set (p2 := with_world (world p1 ++ sl) p1).
  destruct (SendVirtualKey_runs vk true p2) as (ok2 & e2 & Hr2 & Hk2 & Hf2).
  exists (ok1 && ok2), (e1 ++ sl ++ e2 ++ []). split; [|split].
  - unfold InputInjector.SendKeyPress.
    eapply runs_bind; [exact Hr1|]. apply runs_bind_gets.
    eapply runs_bind; [apply runs_when; intros; apply runs_emit|].
    eapply runs_bind; [exact Hr2|]. apply runs_ret.
  - rewrite !key_events_app, Hk1, Hk2. simpl.
    replace (key_events sl) with (@nil KeyAction)
      by (unfold sl; by destruct (_ && _)).
    by destruct (InputInjector_s_initialized p).
  - rewrite !forallb_app, Hf1, Hf2. simpl.
    unfold sl. by destruct (_ && _).
Qed.

(** A press or release of Shift around a character: [when shift (...)]. *)
Lemma shift_runs (shift up : bool) p :
  exists effects,
    runs (when shift (_ ← InputInjector.SendVirtualKey VK_SHIFT up; mret tt))
      p tt effects /\
    key_events effects =
      (if shift && InputInjector_s_initialized p
       then [key_action VK_SHIFT up] else []) /\
    forallb injector_effect effects = true.
Proof.
  destruct shift; simpl.
  - destruct (SendVirtualKey_runs VK_SHIFT up p) as (ok & e & Hr & Hk & Hf).
    exists (e ++ []). split.
    + eapply runs_bind; [exact Hr | apply runs_ret].
    + by rewrite app_nil_r.
  - exists []. split; [apply runs_skip | done].
Qed.

(** One iteration of the loop of [SendTextString]: the result [pressed] of
    the character and the effects do not depend on [success], the
    iteration returns [success && pressed], and the key events are those of
    [char_keys] whatever [SendInput] answered. *)
Lemma SendTextString_body_runs c p :
  exists pressed effects,
    (forall success,
       runs (InputInjector.SendTextString_body c success) p
         (success && pressed) effects) /\
    key_events effects =
      (if InputInjector_s_initialized p then char_keys c else []) /\
    forallb injector_effect effects = true.
Proof.
  unfold InputInjector.SendTextString_body, char_keys, needs_shift.
  set (vk := InputInjector.CharToVirtualKey c).
  set (shift := negb (Z.land (HIBYTE (VkKeyScanA c)) 1 =? 0)).
  destruct (vk =? 0) eqn:Hvk; simpl.
  - exists true, [Console (WARNING_Cannot_convert_character c)].
    split; [|by destruct (InputInjector_s_initialized p)].
    intros success. rewrite andb_true_r.
    eapply (runs_bind _ _ _ _ _ [_] []); [apply runs_print | apply runs_ret].
  - destruct (shift_runs shift false p) as (e1 & Hr1 & Hk1 & Hf1).
    set (p1 := with_world (world p ++ e1) p).
    destruct (SendKeyPress_runs vk p1) as (pressed & e2 & Hr2 & Hk2 & Hf2).
    set (p2 := with_world (world p1 ++ e2) p1).
    destruct (shift_runs shift true p2) as (e3 & Hr3 & Hk3 & Hf3).
    set (p3 := with_world (world p2 ++ e3) p2).
    set (sl := if 0 <? InputInjector_s_keyDelayMs p3
               then [Sleep (InputInjector_s_keyDelayMs p3)] else []).
    exists pressed, (e1 ++ e2 ++ e3 ++ sl ++ []). split; [|split].
    + intros success.
      eapply runs_bind; [exact Hr1|].
      eapply runs_bind; [exact Hr2|].
      eapply runs_bind; [exact Hr3|]. apply runs_bind_gets.
      eapply runs_bind; [apply runs_when; intros; apply runs_emit|].
      apply runs_ret.
    + rewrite !key_events_app, Hk1, Hk2, Hk3. simpl.
      replace (key_events sl) with (@nil KeyAction)
        by (unfold sl; by destruct (_ <? _)).
      destruct (InputInjector_s_initialized p), shift; reflexivity.
    + rewrite !forallb_app, Hf1, Hf2, Hf3. simpl.
      unfold sl. by destruct (_ <? _).
Qed.

Lemma SendTextString_loop_runs text p :
  exists effects,
    (forall success,
       runs (InputInjector.SendTextString_loop text success) p
         (success && forallb id (per_character_results text p)) effects) /\
    key_events effects =
      (if InputInjector_s_initialized p then text_keys text else []) /\
    forallb injector_effect effects = true.
Proof.
  revert p. induction text as [|c rest IH]; intros p; simpl.
  - exists []. split; [|by destruct (InputInjector_s_initialized p)].
    intros success. rewrite andb_true_r. apply runs_ret.
  - destruct (SendTextString_body_runs c p) as (pressed & e1 & Hr1 & Hk1 & Hf1).
    rewrite (Hr1 true). simpl.
    destruct (IH (with_world (world p ++ e1) p)) as (e2 & Hr2 & Hk2 & Hf2).
    exists (e1 ++ e2). split; [|split].
    + intros success. rewrite andb_assoc.
      eapply runs_bind; [apply Hr1 | apply Hr2].
    + rewrite key_events_app, Hk1, Hk2. simpl.
      by destruct (InputInjector_s_initialized p).
    + by rewrite forallb_app, Hf1, Hf2.
Qed.

(** [SendTextString] only appends to [world], and what it appends are
    effects of the injector. *)
Lemma SendTextString_runs text p :
  exists success effects,
    runs (InputInjector.SendTextString text) p success effects /\
    key_events effects =
      (if InputInjector_s_initialized p then text_keys text else []) /\
    forallb injector_effect effects = true /\
    (InputInjector_s_initialized p = true ->
     success = forallb id (per_character_results text
                 (snd (print (INPUT_Sending_text text) p)))).
Proof.
  unfold InputInjector.SendTextString.
  destruct (InputInjector_s_initialized p) eqn:Hinit.
  - set (p0 := with_world (world p ++ [Console (INPUT_Sending_text text)]) p).
    destruct (SendTextString_loop_runs text p0) as (e & Hr & Hk & Hf).
    exists (forallb id (per_character_results text p0)),
           ([Console (INPUT_Sending_text text)] ++ e).
    split; [|split; [|split]].
    + apply runs_bind_gets. rewrite Hinit. simpl negb. cbv iota.
      eapply runs_bind; [apply runs_print | apply (Hr true)].
    + rewrite key_events_app, Hk. simpl. by rewrite Hinit.
    + by rewrite forallb_app, Hf.
    + done.
  - exists false, ([Console ERROR_InputInjector_not_initialized] ++ []).
    split; [|done].
    apply runs_bind_gets. rewrite Hinit. simpl negb. cbv iota.
    eapply runs_bind; [apply runs_print | apply runs_ret].
Qed.
End Injector.

Lemma shift_depth_app events1 events2 open open' :
  shift_depth open events1 = Some open' ->
  shift_depth open (events1 ++ events2) = shift_depth open' events2.
Proof.
  revert open. induction events1 as [|[vk|vk] rest IH]; intros open; simpl.
  - by intros [= ->].
  - apply IH.
  - destruct (vk =? VK_SHIFT); [|apply IH].
    destruct open; [done | apply IH].
Qed.

Lemma char_keys_balanced `{Win32} c : shift_depth 0 (char_keys c) = Some 0%nat.
Proof.
  unfold char_keys. destruct (_ =? 0); [done|].
  destruct (needs_shift c); simpl; rewrite ?Z.eqb_refl;
    by destruct (_ =? VK_SHIFT).
Qed.

Lemma text_keys_balanced `{Win32} text : shift_depth 0 (text_keys text) = Some 0%nat.
Proof.
  induction text as [|c rest IH]; [done|]. simpl.
  by rewrite (shift_depth_app _ _ _ _ (char_keys_balanced c)).
Qed.

(** ** The claims on text injection *)

Section InjectorAnswers.
Context `{Win32}.

Lemma answers_app l1 l2 : answers (l1 ++ l2) = answers l1 ++ answers l2.
Proof. apply omap_app. Qed.

Lemma answers_key_events effects :
  length (answers effects) = length (key_events effects).
Proof.
  induction effects as [|e rest IH]; [done|].
  unfold answers, key_events in *. destruct e; cbn; try done. by f_equal.
Qed.

Lemma SendVirtualKey_answers vk up p :
  InputInjector_s_initialized p = true ->
  exists ok effects,
    runs (InputInjector.SendVirtualKey vk up) p ok effects /\
    answers effects = [ok].
Proof.
  intros Hinit.
  unfold InputInjector.SendVirtualKey, InputInjector.SendInputHelper, runs.
  unfold mbind, M_bind, gets, print, emit, modify, mret, M_ret. simpl.
  rewrite Hinit. simpl.
  match goal with |- context [SendInput ?w ?i] =>
    destruct (SendInput w i) eqn:Hok end; simpl.
  all: try (eexists true, [_]; split; [reflexivity | done]).
  eexists false, [_; _]. split.
  - unfold with_world; simpl. by rewrite <- app_assoc.
  - reflexivity.
Qed.

Lemma SendKeyPress_answers vk p :
  InputInjector_s_initialized p = true ->
  exists down up effects,
    runs (InputInjector.SendKeyPress vk) p (down && up) effects /\
    answers effects = [down; up].
Proof.
  intros Hinit.
  destruct (SendVirtualKey_answers vk false p Hinit) as (ok1 & e1 & Hr1 & Ha1).
  set (p1 := with_world (world p ++ e1) p).
  set (sl := if ok1 && (0 <? InputInjector_s_keyDelayMs p1)
             then [Sleep (InputInjector_s_keyDelayMs p1)] else []).
  set (p2 := with_world (world p1 ++ sl) p1).
  destruct (SendVirtualKey_answers vk true p2 Hinit) as (ok2 & e2 & Hr2 & Ha2).
  exists ok1, ok2, (e1 ++ sl ++ e2 ++ []). split.
  - unfold InputInjector.SendKeyPress.
    eapply runs_bind; [exact Hr1|]. apply runs_bind_gets.
    eapply runs_bind; [apply runs_when; intros; apply runs_emit|].
    eapply runs_bind; [exact Hr2|]. apply runs_ret.
  - rewrite !answers_app, Ha1, Ha2.
    replace (answers sl) with (@nil bool) by (unfold sl; by destruct (_ && _)).
    done.
Qed.

Lemma shift_answers (shift up : bool) p :
  InputInjector_s_initialized p = true ->
  exists accepted effects,
    runs (when shift (_ ← InputInjector.SendVirtualKey VK_SHIFT up; mret tt))
      p tt effects /\
    answers effects = (if shift then [accepted] else []).
Proof.
  intros Hinit. destruct shift; simpl.
  - destruct (SendVirtualKey_answers VK_SHIFT up p Hinit) as (ok & e & Hr & Ha).
    exists ok, (e ++ []). split.
    + eapply runs_bind; [exact Hr | apply runs_ret].
    + by rewrite app_nil_r.
  - exists true, []. split; [apply runs_skip | done].
Qed.

(** One iteration of the loop of [SendTextString], by the answers of
    [SendInput]: the result of the character is read off the answers that
    the iteration adds. *)
Lemma SendTextString_body_answers c p :
  InputInjector_s_initialized p = true ->
  exists pressed effects,
    (forall success,
       runs (InputInjector.SendTextString_body c success) p
         (success && pressed) effects) /\
    forall rest more,
      char_results (String c rest) (answers effects ++ more) =
        pressed :: char_results rest more.
Proof.
  intros Hinit.
  unfold InputInjector.SendTextString_body. cbn [char_results]. unfold needs_shift.
  set (vk := InputInjector.CharToVirtualKey c).
  set (shift := negb (Z.land (HIBYTE (VkKeyScanA c)) 1 =? 0)).
  destruct (vk =? 0) eqn:Hvk; simpl.
  - exists true, [Console (WARNING_Cannot_convert_character c)].
    split; [|done].
    intros success. rewrite andb_true_r.
    eapply (runs_bind _ _ _ _ _ [_] []); [apply runs_print | apply runs_ret].
  - destruct (shift_answers shift false p Hinit) as (a1 & e1 & Hr1 & Ha1).
    set (p1 := with_world (world p ++ e1) p).
    destruct (SendKeyPress_answers vk p1 Hinit) as (down & up & e2 & Hr2 & Ha2).
    set (p2 := with_world (world p1 ++ e2) p1).
    destruct (shift_answers shift true p2 Hinit) as (a3 & e3 & Hr3 & Ha3).
    set (p3 := with_world (world p2 ++ e3) p2).
    set (sl := if 0 <? InputInjector_s_keyDelayMs p3
               then [Sleep (InputInjector_s_keyDelayMs p3)] else []).
    exists (down && up), (e1 ++ e2 ++ e3 ++ sl ++ []). split.
    + intros success.
      eapply runs_bind; [exact Hr1|].
      eapply runs_bind; [exact Hr2|].
      eapply runs_bind; [exact Hr3|]. apply runs_bind_gets.
      eapply runs_bind; [apply runs_when; intros; apply runs_emit|].
      apply runs_ret.
    + intros rest more. rewrite !answers_app, Ha1, Ha2, Ha3.
      replace (answers sl) with (@nil bool) by (unfold sl; by destruct (_ <? _)).
      by destruct shift.
Qed.

Lemma SendTextString_loop_answers text : forall p,
  InputInjector_s_initialized p = true ->
  exists effects,
    forall success,
      runs (InputInjector.SendTextString_loop text success) p
        (success && forallb id (char_results text (answers effects))) effects.
Proof.
  induction text as [|c rest IH]; intros p Hinit.
  - exists []. intros success. simpl. rewrite andb_true_r. apply runs_ret.
  - destruct (SendTextString_body_answers c p Hinit) as (pressed & e1 & Hr1 & Hc1).
    destruct (IH (with_world (world p ++ e1) p) Hinit) as (e2 & Hr2).
    exists (e1 ++ e2). intros success.
    rewrite answers_app, Hc1. cbn [forallb id]. rewrite andb_assoc.
    cbn [InputInjector.SendTextString_loop].
    eapply runs_bind; [apply Hr1 | apply Hr2].
Qed.

Lemma SendTextString_answers text p :
  InputInjector_s_initialized p = true ->
  exists effects,
    runs (InputInjector.SendTextString text) p
      (forallb id (char_results text (answers effects))) effects.
Proof.
  intros Hinit. unfold InputInjector.SendTextString.
  set (p0 := with_world (world p ++ [Console (INPUT_Sending_text text)]) p).
  destruct (SendTextString_loop_answers text p0 Hinit) as (e & Hr).
  exists ([Console (INPUT_Sending_text text)] ++ e).
  apply runs_bind_gets. rewrite Hinit. simpl negb. cbv iota.
  eapply runs_bind; [apply runs_print | apply (Hr true)].
Qed.

Lemma char_results_length text : forall recorded,
  length (char_results text recorded) = String.length text.
Proof.
  induction text as [|c rest IH]; intros recorded; [done|].
  cbn [char_results]. destruct (_ =? 0); simpl; by rewrite IH.
Qed.
End InjectorAnswers.


(** C1, as amended.  With the injector initialised, the result of
    [SendTextString] is the conjunction of the results of the characters
    of the text, one per character, where the result of a character is
    read off the answers that [SendInput] gave during the call
    ([char_results]): both events of the character's own key were accepted,
    and a character without virtual key counts as a success.  So the call
    reports failure as soon as the platform rejects the key-down or the
    key-up of a character.  A failure does not end the loop: whatever
    [SendInput] answers, the key events handed to it are those of every
    character of the text that has a virtual key. *)
Theorem SendTextString_is_conjunction_without_abort `{Win32} text p :
  InputInjector_s_initialized p = true ->
  let effects := emitted p (snd (InputInjector.SendTextString text p)) in
  let results := char_results text (answers effects) in
  fst (InputInjector.SendTextString text p) = forallb id results /\
  length results = String.length text /\
  length (answers effects) = length (text_keys text) /\
  key_events effects = text_keys text.
Proof.
  intros Hinit. cbv zeta.
  destruct (SendTextString_answers text p Hinit) as (e & Hr).
  destruct (SendTextString_runs text p) as (success & e' & Hr' & Hk & _).
  rewrite (runs_fst _ _ _ _ Hr), (runs_emitted _ _ _ _ Hr).
  rewrite <- (runs_emitted _ _ _ _ Hr), (runs_emitted _ _ _ _ Hr') in *.
  rewrite Hinit in Hk.
  split; [done|]. split; [apply char_results_length|].
  split; [by rewrite answers_key_events, Hk | done].
Qed.

Lemma SendTextString_is_conjunction_without_abort_witness :
  fst (@InputInjector.SendTextString (platform_rejecting_first "") "ab"
         (@started (platform_rejecting_first ""))) =
    forallb id
      (@char_results (platform_rejecting_first "") "ab"
         (answers
            (emitted (@started (platform_rejecting_first ""))
               (snd (@InputInjector.SendTextString (platform_rejecting_first "") "ab"
                       (@started (platform_rejecting_first ""))))))).
Proof.
  refine (proj1 (@SendTextString_is_conjunction_without_abort
                   (platform_rejecting_first "") "ab"
                   (@started (platform_rejecting_first "")) _)).
  reflexivity.
Defined.

(** C1 as stated fails.  The platform rejects the key-down of "a", the
    first character of "ab": the call reports failure, yet it goes on to
    send the key-up of "a" and both events of "b", which are accepted. *)
Lemma SendTextString_goes_on_after_failure :
  let p := @started (platform_rejecting_first "") in
  let run := @InputInjector.SendTextString (platform_rejecting_first "") "ab" p in
  fst run = false /\
  emitted p (snd run) =
    [ Console (INPUT_Sending_text "ab");
      SendInputCall {| wVk := 0x41; dwFlags := 0 |} false;
      Console ERROR_SendInput_failed;
      SendInputCall {| wVk := 0x41; dwFlags := KEYEVENTF_KEYUP |} true;
      Sleep 10;
      SendInputCall {| wVk := 0x42; dwFlags := 0 |} true;
      Sleep 10;
      SendInputCall {| wVk := 0x42; dwFlags := KEYEVENTF_KEYUP |} true;
      Sleep 10 ].
Proof. vm_compute. split; reflexivity. Qed.

(** C5.  On an initialised injector and a keyboard layout on which "A" is
    typed with Shift and "b", "1" and the space without, [SendTextString]
    on "Ab1 " hands exactly these ten key events to [SendInput], in this
    order.  (The state of Caps Lock is not read by the injector.) *)
Theorem SendTextString_Ab1 `{Win32} p :
  InputInjector_s_initialized p = true ->
  needs_shift "A" = true ->
  needs_shift "b" = false ->
  needs_shift "1" = false ->
  needs_shift " " = false ->
  key_events (emitted p (snd (InputInjector.SendTextString "Ab1 " p))) =
    [ KeyDown VK_SHIFT; KeyDown 0x41; KeyUp 0x41; KeyUp VK_SHIFT;
      KeyDown 0x42; KeyUp 0x42;
      KeyDown 0x31; KeyUp 0x31;
      KeyDown VK_SPACE; KeyUp VK_SPACE ].
Proof.
  intros Hinit HA Hb H1 Hsp.
  destruct (SendTextString_runs "Ab1 " p) as (success & e & Hr & Hk & _).
  rewrite (runs_emitted _ _ _ _ Hr), Hk, Hinit.
  unfold text_keys, char_keys. rewrite HA, Hb, H1, Hsp. reflexivity.
Qed.

Lemma SendTextString_Ab1_witness :
  key_events (emitted (@started (platform ""))
                (snd (@InputInjector.SendTextString (platform "") "Ab1 "
                        (@started (platform ""))))) =
    [ KeyDown VK_SHIFT; KeyDown 0x41; KeyUp 0x41; KeyUp VK_SHIFT;
      KeyDown 0x42; KeyUp 0x42;
      KeyDown 0x31; KeyUp 0x31;
      KeyDown VK_SPACE; KeyUp VK_SPACE ].
Proof.
  apply (@SendTextString_Ab1 (platform "") (@started (platform "")));
    vm_compute; reflexivity.
Defined.

(** C9.  Whatever [SendInput] answers, in whatever state: the key events of
    one iteration of the loop of [SendTextString] leave no press of Shift
    open and release none that is not open, and so do the key events of a
    whole call. *)
Theorem SendTextString_shift_balanced `{Win32} p :
  (forall c success,
     shift_depth 0
       (key_events (emitted p (snd (InputInjector.SendTextString_body c success p))))
     = Some 0%nat) /\
  (forall text,
     shift_depth 0
       (key_events (emitted p (snd (InputInjector.SendTextString text p))))
     = Some 0%nat).
Proof.
  split.
  - intros c success.
    destruct (SendTextString_body_runs c p) as (pressed & e & Hr & Hk & _).
    rewrite (runs_emitted _ _ _ _ (Hr success)), Hk.
    destruct (InputInjector_s_initialized p); [apply char_keys_balanced | done].
  - intros text.
    destruct (SendTextString_runs text p) as (success & e & Hr & Hk & _).
    rewrite (runs_emitted _ _ _ _ Hr), Hk.
    destruct (InputInjector_s_initialized p); [apply text_keys_balanced | done].
Qed.

(** The iteration for "A" when every event is rejected: Shift is pressed,
    the key fails, Shift is released. *)
Example shift_released_after_failure :
  let p := @started (platform_rejecting_all "") in
  key_events (emitted p
    (snd (@InputInjector.SendTextString_body (platform_rejecting_all "") "A" true p)))
  = [KeyDown VK_SHIFT; KeyDown 0x41; KeyUp 0x41; KeyUp VK_SHIFT] /\
  fst (@InputInjector.SendTextString_body (platform_rejecting_all "") "A" true p)
  = false.
Proof. vm_compute. split; reflexivity. Qed.

(** ** The claim on the character of a letter key *)

Lemma char_code_of_code n : 0 <= n < 256 -> char_code (char_of_code n) = n.
Proof.
  intros Hn. unfold char_code, char_of_code.
  rewrite Z.mod_small by done.
  rewrite N_ascii_embedding by lia. lia.
Qed.

(** C6.  For a letter key, [VKeyToChar] yields the upper-case letter of the
    key (whose code is the virtual key itself) when exactly one of
    [s_shiftPressed] and [s_capsLockOn] holds, and its lower-case letter
    otherwise. *)
Theorem VKeyToChar_letter_case p vKey :
  0x41 <= vKey <= 0x5A ->
  EventLogger.VKeyToChar p vKey =
    string1 (if xorb (EventLogger_s_shiftPressed p) (EventLogger_s_capsLockOn p)
             then vKey else vKey + 32) /\
  is_uppercase_letter (EventLogger.VKeyToChar p vKey) =
    xorb (EventLogger_s_shiftPressed p) (EventLogger_s_capsLockOn p) /\
  is_lowercase_letter (EventLogger.VKeyToChar p vKey) =
    negb (xorb (EventLogger_s_shiftPressed p) (EventLogger_s_capsLockOn p)).
Proof.
  intros Hv.
  assert (Hletter : (0x41 <=? vKey) && (vKey <=? 0x5A) = true) by lia.
  assert (Hchar : EventLogger.VKeyToChar p vKey =
    string1 (if xorb (EventLogger_s_shiftPressed p) (EventLogger_s_capsLockOn p)
             then vKey else vKey + 32)).
  { unfold EventLogger.VKeyToChar, EventLogger.IsPrintableKey.
    rewrite Hletter. simpl.
    change (char_code "A") with 65. change (char_code "a") with 97.
    destruct (xorb _ _); simpl; f_equal; lia. }
  rewrite Hchar. split; [done|].
  unfold is_uppercase_letter, is_lowercase_letter, string1.
  change (char_code "A") with 65. change (char_code "Z") with 90.
  change (char_code "a") with 97. change (char_code "z") with 122.
  destruct (xorb _ _); rewrite char_code_of_code by lia; simpl; lia.
Qed.

Lemma VKeyToChar_letter_case_witness :
  let p := with_EventLogger true true false process_start in
  EventLogger.VKeyToChar p 0x51 = "Q"%string /\
  is_uppercase_letter (EventLogger.VKeyToChar p 0x51) = true /\
  is_lowercase_letter (EventLogger.VKeyToChar p 0x51) = false.
Proof.
  apply (VKeyToChar_letter_case (with_EventLogger true true false process_start) 0x51).
  lia.
Defined.

Example VKeyToChar_both_modifiers :
  EventLogger.VKeyToChar (with_EventLogger true true true process_start) 0x51
  = "q"%string.
Proof. reflexivity. Qed.

(** ** The claims on accepting a suggestion *)

Example suggested_on_platform :
  let p := @suggested (platform "Hi") in
  s_pendingSuggestion p = "Hi"%string /\
  s_hasPendingSuggestion p = true /\
  overlay_displayed p = true /\
  SuggestionOverlay_s_currentSuggestion p = "Hi"%string.
Proof. vm_compute. repeat split. Qed.

Lemma OnRightCtrlPressed_no_pending_runs `{Win32}
    pressTime releaseTime pressPos releasePos p :
  has_pending p = false ->
  runs (SpecialKeyHandler.OnRightCtrlPressed pressTime releaseTime pressPos releasePos)
    p tt
    [ Console RIGHT_CTRL_PRESSED; Console NO_PENDING_SUGGESTION_TO_ACCEPT;
      Console Press_LEFT_CTRL_first; Console Right_Ctrl_processing_completed ].
Proof.
  unfold has_pending. intros Hp.
  unfold runs, SpecialKeyHandler.OnRightCtrlPressed.
  unfold mbind, M_bind, print, emit, modify, gets. simpl.
  rewrite Hp. simpl.
  unfold with_world; simpl. by rewrite <- !app_assoc.
Qed.

(** C7.  Without a pending suggestion [OnRightCtrlPressed] prints its four
    lines and does nothing else: no static member changes, the pending
    suggestion included, nothing is handed to [SendInput], and none of the
    lines is an error. *)
Theorem OnRightCtrlPressed_without_pending `{Win32}
    pressTime releaseTime pressPos releasePos p :
  has_pending p = false ->
  runs (SpecialKeyHandler.OnRightCtrlPressed pressTime releaseTime pressPos releasePos)
    p tt
    [ Console RIGHT_CTRL_PRESSED; Console NO_PENDING_SUGGESTION_TO_ACCEPT;
      Console Press_LEFT_CTRL_first; Console Right_Ctrl_processing_completed ] /\
  s_pendingSuggestion
    (snd (SpecialKeyHandler.OnRightCtrlPressed pressTime releaseTime
            pressPos releasePos p)) = s_pendingSuggestion p /\
  s_hasPendingSuggestion
    (snd (SpecialKeyHandler.OnRightCtrlPressed pressTime releaseTime
            pressPos releasePos p)) = s_hasPendingSuggestion p /\
  key_events
    (emitted p (snd (SpecialKeyHandler.OnRightCtrlPressed pressTime releaseTime
                       pressPos releasePos p))) = [].
Proof.
  intros Hp.
  pose proof (OnRightCtrlPressed_no_pending_runs pressTime releaseTime
                pressPos releasePos p Hp) as Hr.
  split; [exact Hr|].
  rewrite (runs_emitted _ _ _ _ Hr). rewrite Hr. done.
Qed.

Lemma OnRightCtrlPressed_without_pending_witness :
  runs (@SpecialKeyHandler.OnRightCtrlPressed (platform "Hi") 1 2 origin origin)
    (@started (platform "Hi")) tt
    [ Console RIGHT_CTRL_PRESSED; Console NO_PENDING_SUGGESTION_TO_ACCEPT;
      Console Press_LEFT_CTRL_first; Console Right_Ctrl_processing_completed ] /\
  s_pendingSuggestion
    (snd (@SpecialKeyHandler.OnRightCtrlPressed (platform "Hi") 1 2 origin origin
            (@started (platform "Hi")))) = s_pendingSuggestion (@started (platform "Hi")) /\
  s_hasPendingSuggestion
    (snd (@SpecialKeyHandler.OnRightCtrlPressed (platform "Hi") 1 2 origin origin
            (@started (platform "Hi")))) =
    s_hasPendingSuggestion (@started (platform "Hi")) /\
  key_events
    (emitted (@started (platform "Hi"))
       (snd (@SpecialKeyHandler.OnRightCtrlPressed (platform "Hi") 1 2 origin origin
               (@started (platform "Hi"))))) = [].
Proof.
  apply (@OnRightCtrlPressed_without_pending (platform "Hi")).
  reflexivity.
Defined.

(** C10.  With a pending suggestion, [OnRightCtrlPressed] hands the key
    events of the suggestion to [SendInput] and then, whatever [SendInput]
    answered, has no pending suggestion and no overlay on screen. *)
Theorem OnRightCtrlPressed_consumes_suggestion `{Win32}
    pressTime releaseTime pressPos releasePos p :
  has_pending p = true ->
  overlay_wf p ->
  s_pendingSuggestion
    (snd (SpecialKeyHandler.OnRightCtrlPressed pressTime releaseTime
            pressPos releasePos p)) = EmptyString /\
  s_hasPendingSuggestion
    (snd (SpecialKeyHandler.OnRightCtrlPressed pressTime releaseTime
            pressPos releasePos p)) = false /\
  overlay_displayed
    (snd (SpecialKeyHandler.OnRightCtrlPressed pressTime releaseTime
            pressPos releasePos p)) = false /\
  key_events
    (emitted p (snd (SpecialKeyHandler.OnRightCtrlPressed pressTime releaseTime
                       pressPos releasePos p))) =
    (if InputInjector_s_initialized p then text_keys (s_pendingSuggestion p)
     else []).
Proof.
  unfold has_pending, overlay_wf. intros Hp Hwf.
  unfold SpecialKeyHandler.OnRightCtrlPressed.
  unfold mbind, M_bind, print, emit, modify, gets. simpl.
  rewrite Hp. simpl.
  match goal with |- context [InputInjector.SendTextString ?t ?q] =>
    destruct (SendTextString_runs t q) as (success & e & Hr & Hk & _) end.
  rewrite Hr. simpl in Hk. simpl.
  unfold SuggestionOverlay.HideSuggestion, overlay_displayed, emitted.
  unfold mbind, M_bind, print, emit, modify, gets, skip, mret, M_ret.
  destruct success; simpl;
    destruct (SuggestionOverlay_s_initialized p) eqn:Hinit;
    destruct (SuggestionOverlay_s_overlayWindow p) as [shown|] eqn:Hwin;
    simpl; rewrite ?Hwin; try (by destruct Hwf).
  all: repeat split; try reflexivity.
  all: rewrite <- !app_assoc, drop_app_length, !key_events_app, Hk; simpl.
  all: by rewrite app_nil_r.
Qed.

Lemma OnRightCtrlPressed_consumes_suggestion_witness :
  s_pendingSuggestion
    (snd (@SpecialKeyHandler.OnRightCtrlPressed (platform_rejecting_all "Hi")
            1 2 origin origin (@suggested (platform_rejecting_all "Hi"))))
    = EmptyString /\
  s_hasPendingSuggestion
    (snd (@SpecialKeyHandler.OnRightCtrlPressed (platform_rejecting_all "Hi")
            1 2 origin origin (@suggested (platform_rejecting_all "Hi"))))
    = false /\
  overlay_displayed
    (snd (@SpecialKeyHandler.OnRightCtrlPressed (platform_rejecting_all "Hi")
            1 2 origin origin (@suggested (platform_rejecting_all "Hi"))))
    = false /\
  key_events
    (emitted (@suggested (platform_rejecting_all "Hi"))
       (snd (@SpecialKeyHandler.OnRightCtrlPressed (platform_rejecting_all "Hi")
               1 2 origin origin (@suggested (platform_rejecting_all "Hi")))))
    = [ KeyDown VK_SHIFT; KeyDown 0x48; KeyUp 0x48; KeyUp VK_SHIFT;
        KeyDown 0x49; KeyUp 0x49 ].
Proof.
  apply (@OnRightCtrlPressed_consumes_suggestion (platform_rejecting_all "Hi")
           1 2 origin origin (@suggested (platform_rejecting_all "Hi"))).
  - vm_compute. reflexivity.
  - left. vm_compute. reflexivity.
Defined.

(** The same call in full: every event of "Hi" is rejected, the failure is
    reported, and the suggestion is gone all the same. *)
Example failed_injection_consumes_suggestion :
  let p := @suggested (platform_rejecting_all "Hi") in
  let p' := snd (@SpecialKeyHandler.OnRightCtrlPressed (platform_rejecting_all "Hi")
                   1 2 origin origin p) in
  In (Console ERROR_Failed_to_inject_LLM_text) (emitted p p') /\
  has_pending p = true /\ has_pending p' = false.
Proof. vm_compute. split; [|done]. tauto. Qed.

(** ** The claim on registering a special key *)

Lemma index_from_not_elem keys i vKey :
  vKey ∉ keys -> SpecialKeyHandler.index_from keys i vKey = -1.
Proof.
  revert i. induction keys as [|k rest IH]; intros i Hv; simpl; [done|].
  apply not_elem_of_cons in Hv as [Hne Hv].
  destruct (Z.eqb_spec k vKey); [congruence | by apply IH].
Qed.

Lemma index_from_elem keys i vKey :
  vKey ∈ keys -> i <= SpecialKeyHandler.index_from keys i vKey.
Proof.
  revert i. induction keys as [|k rest IH]; intros i Hv; simpl.
  - by apply elem_of_nil in Hv.
  - destruct (Z.eqb_spec k vKey); [lia|].
    apply elem_of_cons in Hv as [->|Hv]; [done|].
    specialize (IH (i + 1) Hv). lia.
Qed.

Lemma IsSpecialKey_elem p vKey :
  SpecialKeyHandler.IsSpecialKey p vKey = bool_decide (vKey ∈ s_specialKeys p).
Proof.
  unfold SpecialKeyHandler.IsSpecialKey, SpecialKeyHandler.GetSpecialKeyIndex.
  case_bool_decide as Hv.
  - apply index_from_elem with (i := 0) in Hv. lia.
  - by rewrite index_from_not_elem.
Qed.

Lemma AddSpecialKey_eq vKey p :
  SpecialKeyHandler.AddSpecialKey vKey p =
  (tt, if SpecialKeyHandler.IsSpecialKey p vKey then p
       else with_specialKeys (s_specialKeys p ++ [vKey])
              (s_specialKeyStates p ++ [SpecialKeyState_new]) p).
Proof.
  unfold SpecialKeyHandler.AddSpecialKey, SpecialKeyHandler.IsSpecialKey.
  unfold mbind, M_bind, gets, modify, skip, mret, M_ret.
  by destruct (0 <=? _).
Qed.

(** C8.  In a state of the handler ([keys_wf]), adding a key a second time
    changes nothing, adding a key that is monitored changes nothing, and
    after the call the key is monitored at exactly one index, at which
    there is a state. *)
Theorem AddSpecialKey_idempotent vKey p :
  keys_wf p ->
  snd (SpecialKeyHandler.AddSpecialKey vKey
         (snd (SpecialKeyHandler.AddSpecialKey vKey p))) =
    snd (SpecialKeyHandler.AddSpecialKey vKey p) /\
  (SpecialKeyHandler.IsSpecialKey p vKey = true ->
   snd (SpecialKeyHandler.AddSpecialKey vKey p) = p) /\
  keys_wf (snd (SpecialKeyHandler.AddSpecialKey vKey p)) /\
  exists i,
    s_specialKeys (snd (SpecialKeyHandler.AddSpecialKey vKey p)) !! i = Some vKey /\
    is_Some (s_specialKeyStates (snd (SpecialKeyHandler.AddSpecialKey vKey p)) !! i) /\
    forall j,
      s_specialKeys (snd (SpecialKeyHandler.AddSpecialKey vKey p)) !! j = Some vKey ->
      j = i.
Proof.
  intros [Hnodup Hlen].
  set (p1 := snd (SpecialKeyHandler.AddSpecialKey vKey p)).
  assert (Hin : vKey ∈ s_specialKeys p1).
  { unfold p1. rewrite AddSpecialKey_eq, IsSpecialKey_elem. simpl.
    case_bool_decide; [done|]. simpl.
    apply elem_of_app. right. by apply list_elem_of_singleton. }
  assert (Hwf : keys_wf p1).
  { unfold p1. rewrite AddSpecialKey_eq, IsSpecialKey_elem. simpl.
    case_bool_decide as Hv; [done|]. split; simpl.
    - apply NoDup_app. split; [done|]. split; [|apply NoDup_singleton].
      intros k Hk ->%list_elem_of_singleton. done.
    - rewrite !length_app. simpl. lia. }
  split; [|split; [|split]].
  - rewrite AddSpecialKey_eq, IsSpecialKey_elem. simpl. by rewrite bool_decide_true.
  - intros Hs. unfold p1. rewrite AddSpecialKey_eq, Hs. done.
  - done.
  - destruct Hwf as [Hnodup1 Hlen1].
    apply list_elem_of_lookup in Hin as [i Hi]. exists i.
    split; [done|]. split.
    + apply lookup_lt_is_Some. rewrite Hlen1. by eapply lookup_lt_Some.
    + intros j Hj. by eapply NoDup_lookup.
Qed.

(** After start-up, on any platform. *)
Lemma started_statics `{Win32} :
  s_specialKeys started = [VK_CONTROL; VK_SHIFT; VK_MENU] /\
  s_specialKeyStates started =
    [SpecialKeyState_new; SpecialKeyState_new; SpecialKeyState_new] /\
  InputInjector_s_initialized started = true /\
  s_hasPendingSuggestion started = false /\
  overlay_displayed started = false /\
  overlay_wf started.
Proof.
  unfold started, main_initialize, InitializeEventLog, EventLogger.Initialize,
    EventLogger.ClearLogFile, SpecialKeyHandler.Initialize,
    InputInjector.Initialize, SuggestionOverlay.Initialize,
    SuggestionOverlay.CreateOverlayWindow, overlay_displayed, overlay_wf.
  unfold mbind, M_bind, print, emit, modify, gets, skip, mret, M_ret. simpl.
  destruct (LogFileOpens _); simpl; destruct RegisterOverlayClass_ok; simpl;
    destruct CreateOverlayWindow_ok; simpl; auto 10.
Qed.

Lemma started_keys_wf `{Win32} : keys_wf started.
Proof.
  destruct started_statics as (Hkeys & Hstates & _).
  unfold keys_wf. rewrite Hkeys, Hstates. split; [|reflexivity].
  apply (bool_decide_unpack _). vm_compute. reflexivity.
Qed.

Lemma AddSpecialKey_idempotent_witness :
  snd (SpecialKeyHandler.AddSpecialKey VK_CAPITAL
         (snd (SpecialKeyHandler.AddSpecialKey VK_CAPITAL (@started (platform ""))))) =
    snd (SpecialKeyHandler.AddSpecialKey VK_CAPITAL (@started (platform ""))) /\
  (SpecialKeyHandler.IsSpecialKey (@started (platform "")) VK_CAPITAL = true ->
   snd (SpecialKeyHandler.AddSpecialKey VK_CAPITAL (@started (platform ""))) =
     @started (platform "")) /\
  keys_wf (snd (SpecialKeyHandler.AddSpecialKey VK_CAPITAL (@started (platform "")))) /\
  exists i,
    s_specialKeys
      (snd (SpecialKeyHandler.AddSpecialKey VK_CAPITAL (@started (platform "")))) !! i
      = Some VK_CAPITAL /\
    is_Some (s_specialKeyStates
      (snd (SpecialKeyHandler.AddSpecialKey VK_CAPITAL (@started (platform "")))) !! i) /\
    forall j,
      s_specialKeys
        (snd (SpecialKeyHandler.AddSpecialKey VK_CAPITAL (@started (platform "")))) !! j
        = Some VK_CAPITAL ->
      j = i.
Proof.
  apply (AddSpecialKey_idempotent VK_CAPITAL (@started (platform ""))).
  split; [|reflexivity].
  apply (bool_decide_unpack _). vm_compute. reflexivity.
Defined.

Example AddSpecialKey_twice :
  s_specialKeys
    (snd (SpecialKeyHandler.AddSpecialKey VK_CAPITAL
       (snd (SpecialKeyHandler.AddSpecialKey VK_CAPITAL (@started (platform ""))))))
  = [VK_CONTROL; VK_SHIFT; VK_MENU; VK_CAPITAL].
Proof. reflexivity. Qed.

(** ** The claim on the release of a special key *)

Lemma quiet_app effects1 effects2 :
  quiet (effects1 ++ effects2) = quiet effects1 && quiet effects2.
Proof. apply forallb_app. Qed.

Lemma quiet_counts effects :
  quiet effects = true -> fired_count effects = 0%nat /\ suppressed_count effects = 0%nat.
Proof.
  unfold quiet, fired_count, suppressed_count.
  induction effects as [|e rest IH]; simpl; [done|].
  intros [He Hrest]%andb_true_iff. destruct (IH Hrest) as [IH1 IH2].
  apply negb_true_iff, orb_false_iff in He as [-> ->]. done.
Qed.

Lemma injector_effects_quiet effects :
  forallb injector_effect effects = true -> quiet effects = true.
Proof.
  unfold quiet. induction effects as [|e rest IH]; simpl; [done|].
  intros [He Hrest]%andb_true_iff. rewrite (IH Hrest), andb_true_r.
  by destruct e as [| |[]| | | |].
Qed.

Section Handlers.
Context `{Win32}.

Lemma OnRightCtrlPressed_world pressTime releaseTime pressPos releasePos p :
  exists effects,
    world (snd (SpecialKeyHandler.OnRightCtrlPressed pressTime releaseTime
                  pressPos releasePos p)) = world p ++ effects /\
    quiet effects = true.
Proof.
  destruct (has_pending p) eqn:Hp.
  - unfold has_pending in Hp.
    unfold SpecialKeyHandler.OnRightCtrlPressed.
    unfold mbind, M_bind, print, emit, modify, gets. simpl.
    rewrite Hp. simpl.
    match goal with |- context [InputInjector.SendTextString ?t ?q] =>
      destruct (SendTextString_runs t q) as (success & e & Hr & _ & Hf & _) end.
    rewrite Hr. simpl.
    apply injector_effects_quiet in Hf.
    unfold SuggestionOverlay.HideSuggestion.
    unfold mbind, M_bind, print, emit, modify, gets, skip, mret, M_ret.
    destruct success; simpl;
      destruct (SuggestionOverlay_s_initialized p);
      destruct (SuggestionOverlay_s_overlayWindow p); simpl;
      rewrite <- !app_assoc; eexists; (split; [reflexivity|]);
      rewrite !quiet_app, Hf; reflexivity.
  - rewrite (OnRightCtrlPressed_no_pending_runs _ _ _ _ _ Hp). simpl.
    by eexists.
Qed.

Lemma OnLeftCtrlPressed_world pressTime releaseTime pressPos releasePos p :
  exists effects,
    world (snd (SpecialKeyHandler.OnLeftCtrlPressed pressTime releaseTime
                  pressPos releasePos p)) = world p ++ effects /\
    quiet effects = true.
Proof.
  unfold SpecialKeyHandler.OnLeftCtrlPressed, SuggestionOverlay.ShowSuggestion.
  unfold mbind, M_bind, print, emit, modify, gets, skip, mret, M_ret. simpl.
  destruct (RunGenerator _) as [code opened [line|]]; simpl;
    destruct (code =? 0); simpl; destruct opened; simpl;
    try destruct (string_empty line); simpl;
    try (destruct (SuggestionOverlay_s_initialized p);
         destruct (SuggestionOverlay_s_overlayWindow p); simpl);
    rewrite <- !app_assoc; eexists; (split; [reflexivity|]); reflexivity.
Qed.

Lemma OnSpecialKeyPressed_world vKey pressTime releaseTime pressPos releasePos p :
  exists effects,
    world (snd (SpecialKeyHandler.OnSpecialKeyPressed vKey pressTime releaseTime
                  pressPos releasePos p)) = world p ++ effects /\
    quiet effects = true.
Proof.
  unfold SpecialKeyHandler.OnSpecialKeyPressed.
  destruct (vKey =? VK_SHIFT); [|destruct (vKey =? VK_MENU)];
    by eexists [_].
Qed.
End Handlers.

Lemma counts_app effects1 effects2 :
  fired_count (effects1 ++ effects2) =
    (fired_count effects1 + fired_count effects2)%nat /\
  suppressed_count (effects1 ++ effects2) =
    (suppressed_count effects1 + suppressed_count effects2)%nat.
Proof.
  unfold fired_count, suppressed_count.
  by rewrite !List.filter_app, !length_app.
Qed.

Section Release.
Context `{Win32}.

Lemma ProcessSpecialKeyEvent_release_world vKey flags timestamp cursorPos p idx :
  SpecialKeyHandler.GetSpecialKeyIndex p vKey = Z.of_nat idx ->
  exists effects,
    world (snd (SpecialKeyHandler.ProcessSpecialKeyEvent vKey flags true
                  timestamp cursorPos p)) = world p ++ effects /\
    fired_count effects =
      (if isPressed (SpecialKeyHandler.state_at p idx) &&
          negb (hadInterveningKeys (SpecialKeyHandler.state_at p idx))
       then 1 else 0)%nat /\
    suppressed_count effects =
      (if isPressed (SpecialKeyHandler.state_at p idx) &&
          hadInterveningKeys (SpecialKeyHandler.state_at p idx)
       then 1 else 0)%nat.
Proof.
  intros Hidx.
  unfold SpecialKeyHandler.ProcessSpecialKeyEvent.
  unfold mbind, M_bind, gets, mret, M_ret.
  rewrite Hidx. replace (Z.of_nat idx <? 0) with false by lia.
  rewrite Nat2Z.id. cbn [negb].
  destruct (isPressed (SpecialKeyHandler.state_at p idx));
    destruct (hadInterveningKeys (SpecialKeyHandler.state_at p idx));
    cbn [andb negb].
  - destruct (vKey =? VK_CONTROL); by eexists [_].
  - destruct (vKey =? VK_CONTROL); [destruct (negb _)|].
    all: match goal with |- context [print ?m ?q] =>
           change (print m q) with (tt, with_world (world q ++ [Console m]) q) end.
    all: cbv iota beta.
    1: match goal with |- context [SpecialKeyHandler.OnRightCtrlPressed ?a ?b ?c ?d ?q] =>
         destruct (OnRightCtrlPressed_world a b c d q) as (e & He & Hq);
         destruct (SpecialKeyHandler.OnRightCtrlPressed a b c d q) as [[] p'] end.
    2: match goal with |- context [SpecialKeyHandler.OnLeftCtrlPressed ?a ?b ?c ?d ?q] =>
         destruct (OnLeftCtrlPressed_world a b c d q) as (e & He & Hq);
         destruct (SpecialKeyHandler.OnLeftCtrlPressed a b c d q) as [[] p'] end.
    3: match goal with |- context [SpecialKeyHandler.OnSpecialKeyPressed ?v ?a ?b ?c ?d ?q] =>
         destruct (OnSpecialKeyPressed_world v a b c d q) as (e & He & Hq);
         destruct (SpecialKeyHandler.OnSpecialKeyPressed v a b c d q) as [[] p'] end.
    all: simpl in He; simpl; rewrite He, <- app_assoc; eexists; (split; [reflexivity|]).
    all: destruct (quiet_counts _ Hq) as [Hf Hs].
    all: unfold fired_count, suppressed_count in *; simpl; by rewrite Hf, Hs.
  - exists []. by rewrite app_nil_r.
  - exists []. by rewrite app_nil_r.
Qed.

(** The key-up of a monitored key, case by case. *)
Lemma ProcessSpecialKeyEvent_release_eq vKey flags timestamp cursorPos p idx :
  SpecialKeyHandler.GetSpecialKeyIndex p vKey = Z.of_nat idx ->
  let keyState := SpecialKeyHandler.state_at p idx in
  SpecialKeyHandler.ProcessSpecialKeyEvent vKey flags true timestamp cursorPos p =
  (true,
   released idx
     (if isPressed keyState && negb (hadInterveningKeys keyState) then
        snd (gesture_handler vKey flags (pressTimestamp keyState) timestamp
               (pressPosition keyState) cursorPos
               (snd (print (gesture_line vKey flags) p)))
      else if isPressed keyState && hadInterveningKeys keyState then
        snd (print (combination_line vKey flags) p)
      else p)).
Proof.
  intros Hidx. cbv zeta.
  unfold SpecialKeyHandler.ProcessSpecialKeyEvent.
  unfold mbind at 1. unfold M_bind at 1. unfold gets at 1.
  rewrite Hidx. replace (Z.of_nat idx <? 0) with false by lia.
  rewrite Nat2Z.id. cbn [negb].
  unfold mbind at 1. unfold M_bind at 1.
  unfold mbind at 1. unfold M_bind at 1. unfold gets at 1.
  unfold gesture_handler, gesture_line, combination_line.
  destruct (isPressed (SpecialKeyHandler.state_at p idx));
    destruct (hadInterveningKeys (SpecialKeyHandler.state_at p idx));
    cbn [andb negb].
  - destruct (vKey =? VK_CONTROL); [destruct (negb _)|]; reflexivity.
  - destruct (vKey =? VK_CONTROL); [destruct (negb _)|].
    all: unfold mbind, M_bind.
    all: match goal with |- context [print ?m ?q] =>
           change (print m q) with (tt, with_world (world q ++ [Console m]) q) end.
    all: cbv iota beta; cbn [snd].
    all: match goal with
         | |- context [SpecialKeyHandler.OnRightCtrlPressed ?a ?b ?c ?d ?q] =>
             destruct (SpecialKeyHandler.OnRightCtrlPressed a b c d q) as [[] q']
         | |- context [SpecialKeyHandler.OnLeftCtrlPressed ?a ?b ?c ?d ?q] =>
             destruct (SpecialKeyHandler.OnLeftCtrlPressed a b c d q) as [[] q']
         | |- context [SpecialKeyHandler.OnSpecialKeyPressed ?k ?a ?b ?c ?d ?q] =>
             destruct (SpecialKeyHandler.OnSpecialKeyPressed k a b c d q) as [[] q']
         end.
    all: reflexivity.
  - reflexivity.
  - reflexivity.
Qed.
(** C4, as amended.  On the key-up of a monitored key,
    [ProcessSpecialKeyEvent] does one of three things and then marks the
    key as released.  When the key is pressed without intervening key it
    announces the gesture and runs the handler of the gesture, with the
    time and place of the press; when the key is pressed with an
    intervening key it prints that the key was part of a combination, and
    runs no handler; when the key is not pressed it does neither.  Each
    announcement is printed once. *)
Theorem release_fires_or_suppresses vKey flags timestamp cursorPos p idx :
  SpecialKeyHandler.GetSpecialKeyIndex p vKey = Z.of_nat idx ->
  let keyState := SpecialKeyHandler.state_at p idx in
  let p' := snd (SpecialKeyHandler.ProcessSpecialKeyEvent vKey flags true
                   timestamp cursorPos p) in
  p' =
    released idx
      (if isPressed keyState && negb (hadInterveningKeys keyState) then
         snd (gesture_handler vKey flags (pressTimestamp keyState) timestamp
                (pressPosition keyState) cursorPos
                (snd (print (gesture_line vKey flags) p)))
       else if isPressed keyState && hadInterveningKeys keyState then
         snd (print (combination_line vKey flags) p)
       else p) /\
  fired_count (emitted p p') =
    (if isPressed keyState && negb (hadInterveningKeys keyState)
     then 1 else 0)%nat /\
  suppressed_count (emitted p p') =
    (if isPressed keyState && hadInterveningKeys keyState
     then 1 else 0)%nat.
Proof.
  intros Hidx. cbv zeta. split.
  - by rewrite (ProcessSpecialKeyEvent_release_eq vKey flags timestamp cursorPos
                  p idx Hidx).
  - destruct (ProcessSpecialKeyEvent_release_world vKey flags timestamp cursorPos
                p idx Hidx) as (e & He & Hf & Hs).
    unfold emitted. by rewrite He, drop_app_length.
Qed.
End Release.

Lemma release_fires_or_suppresses_witness :
  fired_count
    (emitted (@ctrl_held (platform "Hi"))
       (snd (@SpecialKeyHandler.ProcessSpecialKeyEvent (platform "Hi")
               VK_CONTROL RI_KEY_BREAK true 2 origin (@ctrl_held (platform "Hi")))))
    = 1%nat /\
  suppressed_count
    (emitted (@ctrl_held (platform "Hi"))
       (snd (@SpecialKeyHandler.ProcessSpecialKeyEvent (platform "Hi")
               VK_CONTROL RI_KEY_BREAK true 2 origin (@ctrl_held (platform "Hi")))))
    = 0%nat.
Proof.
  refine (proj2 (@release_fires_or_suppresses (platform "Hi") VK_CONTROL RI_KEY_BREAK
                   2 origin (@ctrl_held (platform "Hi")) 0%nat _)).
  reflexivity.
Defined.

(** C4 as stated fails.  Right after start-up Ctrl is monitored and not
    pressed; its key-up (the key was held when the program started)
    announces no gesture and no combination. *)
Lemma release_of_unpressed_key_does_neither :
  let p := @started (platform "Hi") in
  let p' := snd (@SpecialKeyHandler.ProcessSpecialKeyEvent (platform "Hi")
                   VK_CONTROL RI_KEY_BREAK true 1 origin p) in
  SpecialKeyHandler.IsSpecialKey p VK_CONTROL = true /\
  fired_count (emitted p p') = 0%nat /\
  suppressed_count (emitted p p') = 0%nat /\
  emitted p p' = [].
Proof. vm_compute. repeat split. Qed.

(** ** The claims on a raw key-down *)

Section RawInput.
Context `{Win32}.

(** [StoreEvent] touches the history, the logger and [world] only. *)
Lemma StoreEvent_frame timestamp cursorPos kbData p :
  s_specialKeys (snd (StoreEvent timestamp cursorPos kbData p)) = s_specialKeys p /\
  s_specialKeyStates (snd (StoreEvent timestamp cursorPos kbData p)) =
    s_specialKeyStates p /\
  SuggestionOverlay_s_overlayWindow (snd (StoreEvent timestamp cursorPos kbData p)) =
    SuggestionOverlay_s_overlayWindow p /\
  SuggestionOverlay_s_initialized (snd (StoreEvent timestamp cursorPos kbData p)) =
    SuggestionOverlay_s_initialized p.
Proof.
  unfold StoreEvent, EventLogger.LogKeyboardEvent, EventLogger.WriteLogEntry,
    EventLogger.UpdateModifierStates.
  unfold mbind, M_bind, print, emit, modify, gets, when, skip, mret, M_ret.
  simpl.
  destruct (EventLogger_s_initialized p); simpl; [|done].
  destruct (bool_decide _); simpl.
  - destruct (LogFileOpens _); done.
  - destruct (_ =? VK_CAPITAL); simpl; [destruct (negb _); simpl|];
      destruct (LogFileOpens _); done.
Qed.

Lemma HideSuggestion_frame p :
  s_specialKeys (snd (SuggestionOverlay.HideSuggestion p)) = s_specialKeys p /\
  s_specialKeyStates (snd (SuggestionOverlay.HideSuggestion p)) =
    s_specialKeyStates p.
Proof.
  unfold SuggestionOverlay.HideSuggestion.
  unfold mbind, M_bind, print, emit, modify, gets, skip, mret, M_ret. simpl.
  by destruct (negb _ || negb _).
Qed.

Lemma HideSuggestion_hides p :
  overlay_wf p ->
  overlay_displayed (snd (SuggestionOverlay.HideSuggestion p)) = false /\
  overlay_wf (snd (SuggestionOverlay.HideSuggestion p)).
Proof.
  unfold SuggestionOverlay.HideSuggestion, overlay_wf, overlay_displayed.
  unfold mbind, M_bind, print, emit, modify, gets, skip, mret, M_ret. simpl.
  intros [Hinit | Hwin].
  - rewrite Hinit. destruct (SuggestionOverlay_s_overlayWindow p) eqn:Hw; simpl.
    + split; [done | by left].
    + rewrite Hw. split; [done | by right].
  - rewrite Hwin. simpl. rewrite orb_true_r, ?Hwin. simpl. rewrite ?Hwin.
    split; [done | by right].
Qed.

(** One iteration of the loop of [NotifyRegularKeyPressed]. *)
Lemma NotifyRegularKeyPressed_body_spec vKey i p :
  s_specialKeys (snd (SpecialKeyHandler.NotifyRegularKeyPressed_body vKey i p)) =
    s_specialKeys p /\
  SuggestionOverlay_s_overlayWindow
    (snd (SpecialKeyHandler.NotifyRegularKeyPressed_body vKey i p)) =
    SuggestionOverlay_s_overlayWindow p /\
  forall j,
    s_specialKeyStates
      (snd (SpecialKeyHandler.NotifyRegularKeyPressed_body vKey i p)) !! j =
    if bool_decide (j = i)
    then mark_intervening <$> s_specialKeyStates p !! j
    else s_specialKeyStates p !! j.
Proof.
  unfold SpecialKeyHandler.NotifyRegularKeyPressed_body,
    SpecialKeyHandler.update_state_at, SpecialKeyHandler.state_at.
  unfold mbind, M_bind, print, emit, modify, gets, when, skip, mret, M_ret.
  simpl.
  destruct (s_specialKeyStates p !! i) as [keyState|] eqn:Hi; simpl.
  - destruct (isPressed keyState) eqn:Hpressed; simpl.
    + split; [done|]. split; [done|]. intros j.
      rewrite list_lookup_alter. case_bool_decide as Hj.
      * subst j. rewrite decide_True by done. rewrite Hi. simpl.
        unfold mark_intervening. by rewrite Hpressed.
      * by rewrite decide_False by done.
    + split; [done|]. split; [done|]. intros j.
      case_bool_decide as Hj; [|done]. subst j. rewrite Hi. simpl.
      unfold mark_intervening. by rewrite Hpressed.
  - split; [done|]. split; [done|]. intros j.
    case_bool_decide as Hj; [|done]. subst j. by rewrite Hi.
Qed.

Lemma NotifyRegularKeyPressed_loop vKey n : forall a p,
  s_specialKeys
    (snd (for_each (seq a n) (SpecialKeyHandler.NotifyRegularKeyPressed_body vKey) p))
    = s_specialKeys p /\
  SuggestionOverlay_s_overlayWindow
    (snd (for_each (seq a n) (SpecialKeyHandler.NotifyRegularKeyPressed_body vKey) p))
    = SuggestionOverlay_s_overlayWindow p /\
  forall i,
    s_specialKeyStates
      (snd (for_each (seq a n)
              (SpecialKeyHandler.NotifyRegularKeyPressed_body vKey) p)) !! i =
      if bool_decide (a <= i < a + n)%nat
      then mark_intervening <$> s_specialKeyStates p !! i
      else s_specialKeyStates p !! i.
Proof.
  induction n as [|n IH]; intros a p; simpl.
  - split; [done|]. split; [done|]. intros i.
    by rewrite bool_decide_false by lia.
  - unfold mbind, M_bind.
    destruct (NotifyRegularKeyPressed_body_spec vKey a p) as (Hk1 & Hw1 & Hs1).
    destruct (SpecialKeyHandler.NotifyRegularKeyPressed_body vKey a p) as [[] p1].
    simpl in Hk1, Hw1, Hs1.
    destruct (IH (S a) p1) as (Hk2 & Hw2 & Hs2).
    rewrite Hk2, Hw2, Hk1, Hw1. split; [done|]. split; [done|]. intros i.
    rewrite Hs2, Hs1.
    repeat case_bool_decide; try lia; done.
Qed.

(** [NotifyRegularKeyPressed] marks the state of every monitored key. *)
Lemma NotifyRegularKeyPressed_spec vKey p :
  length (s_specialKeyStates p) = length (s_specialKeys p) ->
  s_specialKeys (snd (SpecialKeyHandler.NotifyRegularKeyPressed vKey p)) =
    s_specialKeys p /\
  SuggestionOverlay_s_overlayWindow
    (snd (SpecialKeyHandler.NotifyRegularKeyPressed vKey p)) =
    SuggestionOverlay_s_overlayWindow p /\
  s_specialKeyStates (snd (SpecialKeyHandler.NotifyRegularKeyPressed vKey p)) =
    mark_intervening <$> s_specialKeyStates p.
Proof.
  intros Hlen. unfold SpecialKeyHandler.NotifyRegularKeyPressed.
  unfold mbind, M_bind, gets.
  destruct (NotifyRegularKeyPressed_loop vKey (length (s_specialKeys p)) 0%nat p)
    as (Hk & Hw & Hs).
  split; [done|]. split; [done|].
  apply list_eq. intros i. rewrite Hs, list_lookup_fmap.
  case_bool_decide as Hi; [done|].
  rewrite lookup_ge_None_2 by lia. done.
Qed.

(** A key-down handled by [ProcessSpecialKeyEvent] leaves the overlay
    alone; an event of a key that is not monitored leaves everything. *)
Lemma ProcessSpecialKeyEvent_not_special vKey flags isKeyUp timestamp cursorPos p :
  SpecialKeyHandler.IsSpecialKey p vKey = false ->
  SpecialKeyHandler.ProcessSpecialKeyEvent vKey flags isKeyUp timestamp cursorPos p
  = (false, p).
Proof.
  unfold SpecialKeyHandler.IsSpecialKey, SpecialKeyHandler.ProcessSpecialKeyEvent.
  unfold mbind, M_bind, gets. intros Hs.
  by replace (_ <? 0) with true by lia.
Qed.

Lemma ProcessSpecialKeyEvent_key_down_overlay vKey flags timestamp cursorPos p :
  SuggestionOverlay_s_overlayWindow
    (snd (SpecialKeyHandler.ProcessSpecialKeyEvent vKey flags false
            timestamp cursorPos p)) = SuggestionOverlay_s_overlayWindow p.
Proof.
  unfold SpecialKeyHandler.ProcessSpecialKeyEvent.
  unfold mbind, M_bind, gets. by destruct (_ <? 0).
Qed.

Lemma NotifyRegularKeyPressed_overlay vKey p :
  SuggestionOverlay_s_overlayWindow
    (snd (SpecialKeyHandler.NotifyRegularKeyPressed vKey p)) =
    SuggestionOverlay_s_overlayWindow p.
Proof.
  unfold SpecialKeyHandler.NotifyRegularKeyPressed. unfold mbind, M_bind, gets.
  apply NotifyRegularKeyPressed_loop.
Qed.

(** C2, as amended.  In a state of the handler, a key-down of a key that
    is neither monitored nor Escape sets [hadInterveningKeys] in the state
    of every monitored key that is pressed, and leaves it pressed. *)
Theorem regular_key_down_marks_pressed_keys kb timestamp cursorPos p :
  keys_wf p ->
  Z.land (Flags kb) RI_KEY_BREAK = 0 ->
  SpecialKeyHandler.IsSpecialKey p (VKey kb) = false ->
  VKey kb <> VK_ESCAPE ->
  s_specialKeyStates (snd (ProcessRawInput kb timestamp cursorPos p)) =
    mark_intervening <$> s_specialKeyStates p /\
  forall i keyState,
    s_specialKeyStates p !! i = Some keyState ->
    isPressed keyState = true ->
    exists keyState',
      s_specialKeyStates (snd (ProcessRawInput kb timestamp cursorPos p)) !! i
        = Some keyState' /\
      isPressed keyState' = true /\
      hadInterveningKeys keyState' = true.
Proof.
  intros [_ Hlen] Hdown Hspecial Hesc.
  assert (Hstates :
    s_specialKeyStates (snd (ProcessRawInput kb timestamp cursorPos p)) =
      mark_intervening <$> s_specialKeyStates p).
  { unfold ProcessRawInput. rewrite Hdown.
    replace (VKey kb =? VK_ESCAPE) with false by lia.
    change (negb (0 =? 0)) with false. cbn [andb negb when].
    unfold mbind at 1. unfold M_bind at 1.
    match goal with |- context [StoreEvent ?a ?b ?c p] =>
      destruct (StoreEvent_frame a b c p) as (Hk1 & Hs1 & _);
      destruct (StoreEvent a b c p) as [[] p1] end.
    simpl in Hk1, Hs1.
    unfold mbind at 1. unfold M_bind at 1.
    assert (exists p2,
      when (negb ((VKey kb =? VK_CONTROL) && (Z.land (Flags kb) RI_KEY_E0 =? 0)))
        SuggestionOverlay.HideSuggestion p1 = (tt, p2) /\
      s_specialKeys p2 = s_specialKeys p /\
      s_specialKeyStates p2 = s_specialKeyStates p) as (p2 & -> & Hk2 & Hs2).
    { destruct (negb _); simpl.
      - destruct (HideSuggestion_frame p1) as [Hk Hs].
        destruct (SuggestionOverlay.HideSuggestion p1) as [[] p2]. simpl in *.
        exists p2. by rewrite Hk, Hs.
      - by exists p1. }
    unfold mbind at 1. unfold M_bind at 1.
    rewrite ProcessSpecialKeyEvent_not_special
      by (unfold SpecialKeyHandler.IsSpecialKey,
            SpecialKeyHandler.GetSpecialKeyIndex in *; by rewrite Hk2).
    cbn [andb negb when].
    unfold mbind at 1. unfold M_bind at 1.
    destruct (NotifyRegularKeyPressed_spec (VKey kb) p2) as (_ & _ & Hs3);
      [by rewrite Hk2, Hs2|].
    destruct (SpecialKeyHandler.NotifyRegularKeyPressed (VKey kb) p2) as [[] p3].
    simpl in Hs3. simpl. by rewrite Hs3, Hs2. }
  split; [done|]. intros i keyState Hi Hpressed.
  exists (mark_intervening keyState). rewrite Hstates, list_lookup_fmap, Hi.
  unfold mark_intervening. simpl. by rewrite !Hpressed.
Qed.

(** C3, as amended.  While the overlay is on screen, after a key-down
    other than Escape the overlay is on screen exactly when the key is
    Left Ctrl (Ctrl without the extended flag): every other key-down,
    that of Right Ctrl included, hides it. *)
Theorem key_down_hides_overlay_unless_left_ctrl kb timestamp cursorPos p :
  overlay_wf p ->
  overlay_displayed p = true ->
  Z.land (Flags kb) RI_KEY_BREAK = 0 ->
  VKey kb <> VK_ESCAPE ->
  overlay_displayed (snd (ProcessRawInput kb timestamp cursorPos p)) =
    (VKey kb =? VK_CONTROL) && (Z.land (Flags kb) RI_KEY_E0 =? 0).
Proof.
  intros Hwf Hshown Hdown Hesc.
  unfold ProcessRawInput. rewrite Hdown.
  replace (VKey kb =? VK_ESCAPE) with false by lia.
  change (negb (0 =? 0)) with false. cbn [andb negb when].
  unfold mbind at 1. unfold M_bind at 1.
  match goal with |- context [StoreEvent ?a ?b ?c p] =>
    destruct (StoreEvent_frame a b c p) as (_ & _ & Hw1 & Hi1);
    destruct (StoreEvent a b c p) as [[] p1] end.
  simpl in Hw1, Hi1.
  assert (Hwf1 : overlay_wf p1) by (unfold overlay_wf; by rewrite Hw1, Hi1).
  assert (Hshown1 : overlay_displayed p1 = true)
    by (unfold overlay_displayed; by rewrite Hw1).
  unfold mbind at 1. unfold M_bind at 1.
  assert (exists p2,
    when (negb ((VKey kb =? VK_CONTROL) && (Z.land (Flags kb) RI_KEY_E0 =? 0)))
      SuggestionOverlay.HideSuggestion p1 = (tt, p2) /\
    overlay_displayed p2 =
      (VKey kb =? VK_CONTROL) && (Z.land (Flags kb) RI_KEY_E0 =? 0))
    as (p2 & -> & Hshown2).
  { destruct (_ && _); simpl.
    - by exists p1.
    - destruct (HideSuggestion_hides p1 Hwf1) as [Hh _].
      destruct (SuggestionOverlay.HideSuggestion p1) as [[] p2]. by exists p2. }
  rewrite <- Hshown2. unfold overlay_displayed.
  unfold mbind at 1. unfold M_bind at 1.
  pose proof (ProcessSpecialKeyEvent_key_down_overlay (VKey kb) (Flags kb)
                timestamp cursorPos p2) as Hw3.
  destruct (SpecialKeyHandler.ProcessSpecialKeyEvent _ _ _ _ _ p2) as [hook p3].
  simpl in Hw3. rewrite <- Hw3.
  destruct hook; cbn [andb negb when].
  - reflexivity.
  - unfold mbind at 1. unfold M_bind at 1.
    pose proof (NotifyRegularKeyPressed_overlay (VKey kb) p3) as Hw4.
    destruct (SpecialKeyHandler.NotifyRegularKeyPressed (VKey kb) p3) as [[] p4].
    simpl in Hw4. by rewrite <- Hw4.
Qed.
End RawInput.

Lemma regular_key_down_marks_pressed_keys_witness :
  s_specialKeyStates
    (snd (@ProcessRawInput (platform "Hi") (key_down 0x41) 2 origin
            (@ctrl_held (platform "Hi")))) =
    [ {| isPressed := true; hadInterveningKeys := true;
         pressTimestamp := 1; pressPosition := origin |};
      SpecialKeyState_new; SpecialKeyState_new ].
Proof.
  destruct (@regular_key_down_marks_pressed_keys (platform "Hi") (key_down 0x41) 2
              origin (@ctrl_held (platform "Hi"))) as [Hstates _].
  - split; [|reflexivity]. apply (bool_decide_unpack _). vm_compute. reflexivity.
  - reflexivity.
  - vm_compute. reflexivity.
  - unfold key_down, VK_ESCAPE. simpl. lia.
  - rewrite Hstates. reflexivity.
Defined.

(** C2 as stated fails.  Ctrl is pressed; the key-down of Shift, itself a
    monitored key, does not set [hadInterveningKeys] of Ctrl, and the
    release of Ctrl that follows announces the gesture of Ctrl alone. *)
Lemma special_key_down_does_not_mark :
  let p := @ctrl_held (platform "Hi") in
  let p' := snd (@ProcessRawInput (platform "Hi") (key_down VK_SHIFT) 2 origin p) in
  let p'' := snd (@ProcessRawInput (platform "Hi") (key_up VK_CONTROL) 3 origin p') in
  s_specialKeys p = [VK_CONTROL; VK_SHIFT; VK_MENU] /\
  isPressed <$> s_specialKeyStates p !! 0%nat = Some true /\
  s_specialKeyStates p' !! 0%nat =
    Some {| isPressed := true; hadInterveningKeys := false;
            pressTimestamp := 1; pressPosition := origin |} /\
  fired_count (emitted p' p'') = 1%nat.
Proof. vm_compute. repeat split. Qed.

Lemma key_down_hides_overlay_unless_left_ctrl_witness :
  overlay_displayed
    (snd (@ProcessRawInput (platform "Hi") (key_down 0x41) 3 origin
            (@suggested (platform "Hi")))) = false.
Proof.
  apply (@key_down_hides_overlay_unless_left_ctrl (platform "Hi") (key_down 0x41) 3
           origin (@suggested (platform "Hi"))).
  - left. vm_compute. reflexivity.
  - vm_compute. reflexivity.
  - reflexivity.
  - unfold key_down, VK_ESCAPE. simpl. lia.
Defined.

(** C3 as stated fails.  With the suggestion on screen, the key-down of
    Right Ctrl hides the overlay, and the key-down of Left Ctrl does not. *)
Lemma overlay_after_ctrl_key_down :
  let p := @suggested (platform "Hi") in
  overlay_displayed p = true /\
  overlay_displayed
    (snd (@ProcessRawInput (platform "Hi") (right_key_down VK_CONTROL) 3 origin p))
    = false /\
  overlay_displayed
    (snd (@ProcessRawInput (platform "Hi") (key_down VK_CONTROL) 3 origin p))
    = true.
Proof. vm_compute. repeat split. Qed.

(** The key-down of Escape ends the handling of the event before the
    overlay and the special keys are looked at. *)
Example escape_key_down :
  let p := snd (@ProcessRawInput (platform "Hi") (key_down VK_CONTROL) 3 origin
                  (@suggested (platform "Hi"))) in
  let p' := snd (@ProcessRawInput (platform "Hi") (key_down VK_ESCAPE) 4 origin p) in
  overlay_displayed p' = true /\
  s_specialKeyStates p' = s_specialKeyStates p /\
  g_running p' = false.
Proof. vm_compute. repeat split. Qed.

(** The whole workflow: Left Ctrl alone asks for the suggestion, Right Ctrl
    alone accepts it and types it. *)
Example generate_then_accept :
  let p := @suggested (platform "Hi") in
  let p' := snd (@run_keys (platform "Hi")
                   [ (right_key_down VK_CONTROL, 3, origin);
                     (right_key_up VK_CONTROL, 4, origin) ] p) in
  key_events (emitted p p') =
    [ KeyDown VK_SHIFT; KeyDown 0x48; KeyUp 0x48; KeyUp VK_SHIFT;
      KeyDown 0x49; KeyUp 0x49 ] /\
  has_pending p' = false /\
  overlay_displayed p' = false.
Proof. vm_compute. repeat split. Qed.

(** ** The invariants hold in every state the program reaches *)

Lemma shape_keys_wf p q : shape p = shape q -> keys_wf q -> keys_wf p.
Proof. unfold shape, keys_wf. intros [= -> -> _ _ _]. done. Qed.

Lemma shape_overlay_wf p q : shape p = shape q -> overlay_wf q -> overlay_wf p.
Proof.
  unfold shape, overlay_wf. intros [= _ _ -> Hw _] [Hi | Hn]; [by left|].
  right. rewrite Hn in Hw.
  by destruct (SuggestionOverlay_s_overlayWindow p).
Qed.

Lemma for_each_preserves {A} (I : Process -> Prop) (l : list A) body :
  (forall a p, I p -> I (snd (body a p))) ->
  forall p, I p -> I (snd (for_each l body p)).
Proof.
  intros Hbody. induction l as [|a rest IH]; intros p Hp; simpl; [done|].
  unfold mbind, M_bind. specialize (Hbody a p Hp).
  destruct (body a p) as [[] p1]. by apply IH.
Qed.

Section Shape.
Context `{Win32}.

Lemma runs_shape {A} (m : M A) p a effects :
  runs m p a effects -> shape (snd (m p)) = shape p.
Proof. by intros ->. Qed.

Lemma StoreEvent_shape timestamp cursorPos kbData p :
  shape (snd (StoreEvent timestamp cursorPos kbData p)) = shape p.
Proof.
  unfold StoreEvent, EventLogger.LogKeyboardEvent, EventLogger.WriteLogEntry,
    EventLogger.UpdateModifierStates.
  unfold mbind, M_bind, print, emit, modify, gets, when, skip, mret, M_ret.
  simpl.
  destruct (EventLogger_s_initialized p); simpl; [|done].
  destruct (bool_decide _); simpl.
  - destruct (LogFileOpens _); done.
  - destruct (_ =? VK_CAPITAL); simpl; [destruct (negb _); simpl|];
      destruct (LogFileOpens _); done.
Qed.

Lemma HideSuggestion_shape p :
  shape (snd (SuggestionOverlay.HideSuggestion p)) = shape p.
Proof.
  unfold SuggestionOverlay.HideSuggestion, shape.
  unfold mbind, M_bind, print, emit, modify, gets, skip, mret, M_ret. simpl.
  destruct (SuggestionOverlay_s_initialized p) eqn:Hi;
    destruct (SuggestionOverlay_s_overlayWindow p) eqn:Hw; simpl;
    by rewrite ?Hi, ?Hw.
Qed.

Lemma ShowSuggestion_shape suggestion p :
  shape (snd (SuggestionOverlay.ShowSuggestion suggestion p)) = shape p.
Proof.
  unfold SuggestionOverlay.ShowSuggestion, shape.
  unfold mbind, M_bind, print, emit, modify, gets, skip, mret, M_ret. simpl.
  destruct (SuggestionOverlay_s_initialized p) eqn:Hi;
    destruct (SuggestionOverlay_s_overlayWindow p) eqn:Hw; simpl;
    by rewrite ?Hi, ?Hw.
Qed.

Lemma OnRightCtrlPressed_shape pressTime releaseTime pressPos releasePos p :
  shape (snd (SpecialKeyHandler.OnRightCtrlPressed pressTime releaseTime
                pressPos releasePos p)) = shape p.
Proof.
  destruct (has_pending p) eqn:Hp.
  - unfold has_pending in Hp.
    unfold SpecialKeyHandler.OnRightCtrlPressed.
    unfold mbind, M_bind, print, emit, modify, gets. simpl.
    rewrite Hp. simpl.
    match goal with |- context [InputInjector.SendTextString ?t ?q] =>
      destruct (SendTextString_runs t q) as (success & e & Hr & _) end.
    rewrite Hr. simpl.
    destruct success; simpl;
      match goal with |- context [SuggestionOverlay.HideSuggestion ?q] =>
        pose proof (HideSuggestion_shape q) as Hh;
        destruct (SuggestionOverlay.HideSuggestion q) as [[] p'] end;
      done.
  - by rewrite (OnRightCtrlPressed_no_pending_runs _ _ _ _ _ Hp).
Qed.

Lemma OnLeftCtrlPressed_shape pressTime releaseTime pressPos releasePos p :
  shape (snd (SpecialKeyHandler.OnLeftCtrlPressed pressTime releaseTime
                pressPos releasePos p)) = shape p.
Proof.
  unfold SpecialKeyHandler.OnLeftCtrlPressed.
  unfold mbind, M_bind, print, emit, modify, gets, skip, mret, M_ret. simpl.
  destruct (RunGenerator _) as [code opened [line|]]; simpl;
    destruct (code =? 0); simpl; destruct opened; simpl; try done.
  destruct (string_empty line); simpl; [done|].
  match goal with |- context [SuggestionOverlay.ShowSuggestion ?l ?q] =>
    pose proof (ShowSuggestion_shape l q) as Hs;
    destruct (SuggestionOverlay.ShowSuggestion l q) as [[] p'] end.
  done.
Qed.

Lemma OnSpecialKeyPressed_shape vKey pressTime releaseTime pressPos releasePos p :
  shape (snd (SpecialKeyHandler.OnSpecialKeyPressed vKey pressTime releaseTime
                pressPos releasePos p)) = shape p.
Proof.
  unfold SpecialKeyHandler.OnSpecialKeyPressed.
  by destruct (vKey =? VK_SHIFT); [|destruct (vKey =? VK_MENU)].
Qed.

Lemma update_state_at_shape i f p :
  shape (snd (SpecialKeyHandler.update_state_at i f p)) = shape p.
Proof. unfold shape. simpl. by rewrite length_alter. Qed.

Lemma ProcessSpecialKeyEvent_shape vKey flags isKeyUp timestamp cursorPos p :
  shape (snd (SpecialKeyHandler.ProcessSpecialKeyEvent vKey flags isKeyUp
                timestamp cursorPos p)) = shape p.
Proof.
  unfold SpecialKeyHandler.ProcessSpecialKeyEvent.
  unfold mbind at 1. unfold M_bind at 1. unfold gets at 1.
  destruct (_ <? 0); [done|].
  unfold mbind at 1. unfold M_bind at 1.
  destruct isKeyUp; cbn [negb].
  - unfold mbind at 1. unfold M_bind at 1. unfold gets at 1.
    unfold mbind at 1. unfold M_bind at 1.
    match goal with |- context [(if ?c then ?a else ?b) p] =>
      assert (Hh : shape (snd ((if c then a else b) p)) = shape p);
      [|destruct ((if c then a else b) p) as [[] p1]] end.
    { destruct (_ && negb _).
      - destruct (vKey =? VK_CONTROL); [destruct (negb _)|];
          unfold mbind, M_bind;
          match goal with |- context [print ?m p] =>
            change (print m p) with (tt, with_world (world p ++ [Console m]) p) end;
          cbv iota beta.
        + by rewrite OnRightCtrlPressed_shape.
        + by rewrite OnLeftCtrlPressed_shape.
        + by rewrite OnSpecialKeyPressed_shape.
      - destruct (_ && _); [|done]. by destruct (vKey =? VK_CONTROL). }
    simpl in Hh. rewrite <- Hh.
    match goal with |- context [SpecialKeyHandler.update_state_at ?i ?f p1] =>
      pose proof (update_state_at_shape i f p1) as Hu;
      destruct (SpecialKeyHandler.update_state_at i f p1) as [[] p2] end.
    done.
  - match goal with |- context [SpecialKeyHandler.update_state_at ?i ?f p] =>
      pose proof (update_state_at_shape i f p) as Hu;
      destruct (SpecialKeyHandler.update_state_at i f p) as [[] p2] end.
    done.
Qed.

Lemma NotifyRegularKeyPressed_shape vKey p :
  shape (snd (SpecialKeyHandler.NotifyRegularKeyPressed vKey p)) = shape p.
Proof.
  unfold SpecialKeyHandler.NotifyRegularKeyPressed. unfold mbind, M_bind, gets.
  apply (for_each_preserves (fun q => shape q = shape p)); [|done].
  intros i q <-.
  unfold SpecialKeyHandler.NotifyRegularKeyPressed_body.
  unfold mbind, M_bind, print, emit, modify, gets, when, skip, mret, M_ret.
  destruct (isPressed _); [|done].
  unfold shape. simpl. by rewrite length_alter.
Qed.

Lemma ProcessRawInput_shape kb timestamp cursorPos p :
  shape (snd (ProcessRawInput kb timestamp cursorPos p)) = shape p.
Proof.
  unfold ProcessRawInput.
  unfold mbind at 1. unfold M_bind at 1.
  match goal with |- context [StoreEvent ?a ?b ?c p] =>
    pose proof (StoreEvent_shape a b c p) as H1;
    destruct (StoreEvent a b c p) as [[] p1] end.
  simpl in H1. rewrite <- H1.
  destruct (_ && _); [done|].
  unfold mbind at 1. unfold M_bind at 1.
  match goal with |- context [when ?c ?m p1] =>
    assert (H2 : shape (snd (when c m p1)) = shape p1);
    [|destruct (when c m p1) as [[] p2]] end.
  { destruct (negb _); [|done]. cbn [when].
    destruct (negb _); [|done]. apply HideSuggestion_shape. }
  simpl in H2. rewrite <- H2.
  unfold mbind at 1. unfold M_bind at 1.
  match goal with |- context [SpecialKeyHandler.ProcessSpecialKeyEvent ?a ?b ?c ?d ?e p2] =>
    pose proof (ProcessSpecialKeyEvent_shape a b c d e p2) as H3;
    destruct (SpecialKeyHandler.ProcessSpecialKeyEvent a b c d e p2) as [hook p3] end.
  simpl in H3. rewrite <- H3.
  unfold mbind at 1. unfold M_bind at 1.
  match goal with |- context [when ?c ?m p3] =>
    assert (H4 : shape (snd (when c m p3)) = shape p3);
    [|destruct (when c m p3) as [[] p4]] end.
  { destruct (_ && _); [|done]. apply NotifyRegularKeyPressed_shape. }
  simpl in H4. rewrite <- H4.
  by destruct (negb hook).
Qed.

Lemma run_keys_shape events p : shape (snd (run_keys events p)) = shape p.
Proof.
  unfold run_keys.
  apply (for_each_preserves (fun q => shape q = shape p)); [|done].
  intros [[kb timestamp] cursorPos] q <-. apply ProcessRawInput_shape.
Qed.

(** After start-up and any sequence of keyboard events, the vectors of the
    handler are parallel and without repetition, the overlay has a window
    only when initialised, and the injector is initialised: the hypotheses
    of the theorems above hold in every state the program reaches. *)
Theorem reachable_states_wf events :
  keys_wf (snd (run_keys events started)) /\
  overlay_wf (snd (run_keys events started)) /\
  InputInjector_s_initialized (snd (run_keys events started)) = true.
Proof.
  pose proof (run_keys_shape events started) as Hshape.
  split; [|split].
  - eapply shape_keys_wf; [exact Hshape | apply started_keys_wf].
  - eapply shape_overlay_wf; [exact Hshape | apply started_statics].
  - unfold shape in Hshape. injection Hshape as _ _ _ _ ->.
    apply started_statics.
Qed.
End Shape.

(** * Further properties of the sources *)

(** ** event_logger.cpp: names and characters of keys *)

Example VKeyToKeyName_examples :
  EventLogger.VKeyToKeyName 0x41 = "A"%string /\
  EventLogger.VKeyToKeyName VK_OEM_7 = "QUOTE"%string /\
  EventLogger.VKeyToKeyName 0 = "VK_0x0"%string /\
  EventLogger.VKeyToKeyName 0xA0 = "VK_0xa0"%string /\
  EventLogger.VKeyToKeyName 0xFFFF = "VK_0xffff"%string.
Proof. vm_compute. repeat split. Qed.

Lemma hex_inj v1 v2 :
  0 <= v1 -> 0 <= v2 -> EventLogger.hex v1 = EventLogger.hex v2 -> v1 = v2.
Proof.
  unfold EventLogger.hex. intros H1 H2 Heq.
  assert (Hu : N.to_hex_uint (Z.to_N v1) = N.to_hex_uint (Z.to_N v2)).
  { apply (f_equal NilEmpty.uint_of_string) in Heq.
    rewrite !NilEmpty.usu in Heq. congruence. }
  apply (f_equal N.of_hex_uint) in Hu.
  rewrite !HexadecimalN.Unsigned.of_to in Hu. lia.
Qed.

Lemma key_name_case_elem cases vKey name :
  EventLogger.key_name_case cases vKey = Some name -> (vKey, name) ∈ cases.
Proof.
  induction cases as [|[vk n] rest IH]; simpl; [done|].
  destruct (Z.eqb_spec vKey vk) as [->|].
  - intros [= ->]. apply list_elem_of_here.
  - intros Hn. apply list_elem_of_further. by apply IH.
Qed.

(** The names of the table are pairwise different and none starts like
    the name of an unknown key. *)
Lemma key_names_distinct :
  NoDup (map snd EventLogger.key_names) /\
  Forall (fun name => String.prefix "VK_0x" name = false)
         (map snd EventLogger.key_names).
Proof.
  split.
  - apply (bool_decide_unpack _). vm_compute. reflexivity.
  - apply (bool_decide_unpack _). vm_compute. reflexivity.
Qed.

Lemma key_names_keys_distinct : NoDup (map fst EventLogger.key_names).
Proof. apply (bool_decide_unpack _). vm_compute. reflexivity. Qed.

Lemma string_prefix_app s t : String.prefix s (s ++ t)%string = true.
Proof.
  induction s as [|c s IH]; simpl; [by destruct t|].
  destruct (ascii_dec c c); [done | congruence].
Qed.

Lemma VKeyToKeyName_inj v1 v2 :
  0 <= v1 -> 0 <= v2 ->
  EventLogger.VKeyToKeyName v1 = EventLogger.VKeyToKeyName v2 -> v1 = v2.
Proof.
  intros H1 H2. unfold EventLogger.VKeyToKeyName.
  destruct key_names_distinct as [Hnodup Hprefix].
  rewrite Forall_forall in Hprefix.
  destruct (EventLogger.key_name_case _ v1) as [n1|] eqn:E1;
    destruct (EventLogger.key_name_case _ v2) as [n2|] eqn:E2.
  - intros ->.
    apply key_name_case_elem in E1, E2.
    apply list_elem_of_lookup in E1 as [i Hi], E2 as [j Hj].
    assert (i = j).
    { eapply NoDup_lookup; [exact Hnodup| |];
        rewrite list_lookup_fmap; [by rewrite Hi | by rewrite Hj]. }
    subst j. congruence.
  - intros ->. apply key_name_case_elem in E1.
    assert (Hin : ("VK_0x" ++ EventLogger.hex v2)%string ∈ map snd EventLogger.key_names).
    { apply list_elem_of_fmap. by eexists (_, _). }
    apply Hprefix in Hin. by rewrite string_prefix_app in Hin.
  - intros <-. apply key_name_case_elem in E2.
    assert (Hin : ("VK_0x" ++ EventLogger.hex v1)%string ∈ map snd EventLogger.key_names).
    { apply list_elem_of_fmap. by eexists (_, _). }
    apply Hprefix in Hin. by rewrite string_prefix_app in Hin.
  - intros [= Heq]. by apply hex_inj.
Qed.

(** X1.  [VKeyToKeyName] gives different names to different virtual keys,
    whether they are cases of its [switch] or not: the [key] field of a log
    line identifies the key. *)
Theorem VKeyToKeyName_distinct v1 v2 :
  0 <= v1 -> 0 <= v2 -> v1 <> v2 ->
  EventLogger.VKeyToKeyName v1 <> EventLogger.VKeyToKeyName v2.
Proof. intros H1 H2 Hne Heq. by apply Hne, VKeyToKeyName_inj. Qed.

Lemma VKeyToKeyName_distinct_witness :
  VK_LSHIFT <> VK_RSHIFT /\
  EventLogger.VKeyToKeyName VK_LSHIFT <> EventLogger.VKeyToKeyName VK_RSHIFT.
Proof.
  split; [discriminate|].
  apply (VKeyToKeyName_distinct VK_LSHIFT VK_RSHIFT);
    unfold VK_LSHIFT, VK_RSHIFT; lia.
Defined.

Lemma char_code_bounds c : 0 <= char_code c < 256.
Proof.
  unfold char_code. pose proof (N_ascii_bounded c). lia.
Qed.

Lemma elem_of_punctuation vKey :
  vKey ∈ [VK_SPACE; VK_OEM_1; VK_OEM_PLUS; VK_OEM_COMMA; VK_OEM_MINUS;
          VK_OEM_PERIOD; VK_OEM_2; VK_OEM_3; VK_OEM_4; VK_OEM_5; VK_OEM_6;
          VK_OEM_7] ->
  forall shift, exists c,
    EventLogger.punctuation_case EventLogger.punctuation shift vKey
    = String c EmptyString.
Proof.
  intros Hin shift.
  repeat (apply elem_of_cons in Hin as [->|Hin];
          [destruct shift; eexists; reflexivity|]).
  by apply elem_of_nil in Hin.
Qed.

(** What [VKeyToChar] returns, by the kind of key. *)
Lemma VKeyToChar_cases p vKey :
  (EventLogger.IsPrintableKey vKey = false /\
   EventLogger.VKeyToChar p vKey = EmptyString) \/
  (EventLogger.IsPrintableKey vKey = true /\
   exists c, EventLogger.VKeyToChar p vKey = String c EmptyString).
Proof.
  unfold EventLogger.VKeyToChar.
  destruct (EventLogger.IsPrintableKey vKey) eqn:Hprintable; simpl; [right|by left].
  split; [done|].
  destruct ((0x41 <=? vKey) && (vKey <=? 0x5A)) eqn:Hletter; [by eexists|].
  destruct ((0x30 <=? vKey) && (vKey <=? 0x39)) eqn:Hdigit.
  - destruct (EventLogger_s_shiftPressed p); [|by eexists].
    assert (Hd : vKey ∈ seqZ 0x30 10) by (apply elem_of_seqZ; lia).
    vm_compute in Hd.
    repeat (apply elem_of_cons in Hd as [->|Hd]; [eexists; reflexivity|]).
    by apply elem_of_nil in Hd.
  - unfold EventLogger.IsPrintableKey in Hprintable.
    rewrite Hletter, Hdigit in Hprintable. simpl in Hprintable.
    apply bool_decide_eq_true in Hprintable.
    apply elem_of_punctuation. exact Hprintable.
Qed.

(** X2.  [VKeyToChar] returns the empty string exactly for the keys that
    [IsPrintableKey] rejects, and one character for all others, whatever
    the modifiers: the [char] field of a log line is [null] exactly for the
    non-printable keys. *)
Theorem VKeyToChar_empty_iff_not_printable p vKey :
  (EventLogger.VKeyToChar p vKey = EmptyString <->
   EventLogger.IsPrintableKey vKey = false) /\
  (String.length (EventLogger.VKeyToChar p vKey) <= 1)%nat.
Proof.
  destruct (VKeyToChar_cases p vKey) as [[Hp ->] | [Hp [c ->]]]; rewrite Hp.
  - split; [done | simpl; lia].
  - split; [split; discriminate | simpl; lia].
Qed.

(** X3.  Caps Lock matters for letter keys only: for every other key the
    character of [VKeyToChar] is decided by [s_shiftPressed] alone.  A digit
    key without Shift yields its digit. *)
Theorem VKeyToChar_caps_lock_only_for_letters p q vKey :
  ~ (0x41 <= vKey <= 0x5A) ->
  EventLogger_s_shiftPressed p = EventLogger_s_shiftPressed q ->
  EventLogger.VKeyToChar p vKey = EventLogger.VKeyToChar q vKey /\
  (0x30 <= vKey <= 0x39 -> EventLogger_s_shiftPressed p = false ->
   EventLogger.VKeyToChar p vKey = string1 vKey).
Proof.
  intros Hletter Hshift. unfold EventLogger.VKeyToChar.
  replace ((0x41 <=? vKey) && (vKey <=? 0x5A)) with false by lia.
  rewrite Hshift. split; [done|]. intros Hdigit Hs. rewrite Hs.
  unfold EventLogger.IsPrintableKey.
  replace ((0x30 <=? vKey) && (vKey <=? 0x39)) with true by lia.
  rewrite orb_true_r. simpl. f_equal.
  change (char_code "0") with 48. lia.
Qed.

Lemma VKeyToChar_caps_lock_only_for_letters_witness :
  EventLogger.VKeyToChar (with_EventLogger true true true process_start) 0x31 =
  EventLogger.VKeyToChar (with_EventLogger true true false process_start) 0x31 /\
  (0x30 <= 0x31 <= 0x39 ->
   EventLogger_s_shiftPressed (with_EventLogger true true true process_start) = false ->
   EventLogger.VKeyToChar (with_EventLogger true true true process_start) 0x31
   = string1 0x31).
Proof.
  apply (VKeyToChar_caps_lock_only_for_letters
           (with_EventLogger true true true process_start)
           (with_EventLogger true true false process_start) 0x31).
  - lia.
  - reflexivity.
Defined.

Example VKeyToChar_shifted_digits :
  map (EventLogger.VKeyToChar (with_EventLogger true true false process_start))
      (seqZ 0x30 10)
  = [")"; "!"; "@"; "#"; "$"; "%"; "^"; "&"; "*"; "("]%string.
Proof. reflexivity. Qed.

(** ** input_injection.cpp: the virtual key of a character *)

Lemma CharToVirtualKey_of_code `{Win32} n :
  0 <= n < 256 ->
  InputInjector.CharToVirtualKey (char_of_code n) =
    if (65 <=? n) && (n <=? 90) then n
    else if (97 <=? n) && (n <=? 122) then n - 32
    else if (48 <=? n) && (n <=? 57) then n
    else if n =? 32 then VK_SPACE
    else if negb (VkKeyScanA (char_of_code n) =? -1)
         then LOBYTE (VkKeyScanA (char_of_code n)) else 0.
Proof.
  intros Hn. unfold InputInjector.CharToVirtualKey.
  rewrite char_code_of_code by done.
  change (char_code "A") with 65. change (char_code "Z") with 90.
  change (char_code "a") with 97. change (char_code "z") with 122.
  change (char_code "0") with 48. change (char_code "9") with 57.
  change (char_code " ") with 32.
  destruct ((65 <=? n) && (n <=? 90)); [lia|].
  destruct ((97 <=? n) && (n <=? 122)); [lia|].
  by destruct ((48 <=? n) && (n <=? 57)); [lia|].
Qed.

Lemma char_of_code_char_code c : char_of_code (char_code c) = c.
Proof.
  unfold char_of_code, char_code. pose proof (N_ascii_bounded c).
  rewrite Z.mod_small by lia. rewrite N2Z.id. apply ascii_N_embedding.
Qed.

(** X4.  On every keyboard layout the virtual key of a character is a
    byte; a letter, a digit or the space is never without virtual key (it
    is not skipped by [SendTextString]), and the two cases of a letter
    have the same virtual key, the code of the upper-case letter. *)
Theorem CharToVirtualKey_range `{Win32} c :
  0 <= InputInjector.CharToVirtualKey c <= 255 /\
  (forall n, 0x41 <= n <= 0x5A ->
     InputInjector.CharToVirtualKey (char_of_code n) = n /\
     InputInjector.CharToVirtualKey (char_of_code (n + 32)) = n) /\
  (forall n, 0x30 <= n <= 0x39 ->
     InputInjector.CharToVirtualKey (char_of_code n) = n) /\
  InputInjector.CharToVirtualKey " " = VK_SPACE.
Proof.
  split; [|split; [|split]].
  - pose proof (char_code_bounds c) as Hc.
    rewrite <- (char_of_code_char_code c), CharToVirtualKey_of_code by done.
    set (n := char_code c) in *.
    destruct ((65 <=? n) && (n <=? 90)) eqn:E1; [lia|].
    destruct ((97 <=? n) && (n <=? 122)) eqn:E2; [lia|].
    destruct ((48 <=? n) && (n <=? 57)) eqn:E3; [lia|].
    destruct (n =? 32); [unfold VK_SPACE; lia|].
    destruct (negb (VkKeyScanA (char_of_code n) =? -1)); [|lia]. unfold LOBYTE.
    change 0xFF with (Z.ones 8). rewrite Z.land_ones by lia.
    change (2 ^ 8) with 256. change (Z.ones 8) with 255.
    pose proof (Z.mod_pos_bound (VkKeyScanA (char_of_code n)) 256).
    lia.
  - intros n Hn. rewrite !CharToVirtualKey_of_code by lia.
    replace ((65 <=? n) && (n <=? 90)) with true by lia.
    replace ((65 <=? n + 32) && (n + 32 <=? 90)) with false by lia.
    replace ((97 <=? n + 32) && (n + 32 <=? 122)) with true by lia.
    split; [done | lia].
  - intros n Hn. rewrite CharToVirtualKey_of_code by lia.
    replace ((65 <=? n) && (n <=? 90)) with false by lia.
    replace ((97 <=? n) && (n <=? 122)) with false by lia.
    by replace ((48 <=? n) && (n <=? 57)) with true by lia.
  - reflexivity.
Qed.

(** X5.  The table of the injector inverts the table of the logger on
    letters, on digits without Shift and on the space: the character that
    [VKeyToChar] logs for such a key is sent back by [SendTextString] as
    that key, on every keyboard layout. *)
Theorem logged_char_maps_back_to_key `{Win32} p vKey c :
  0x41 <= vKey <= 0x5A \/
  (0x30 <= vKey <= 0x39 /\ EventLogger_s_shiftPressed p = false) \/
  vKey = VK_SPACE ->
  EventLogger.VKeyToChar p vKey = String c EmptyString ->
  InputInjector.CharToVirtualKey c = vKey.
Proof.
  unfold EventLogger.VKeyToChar, EventLogger.IsPrintableKey.
  intros [Hletter | [[Hdigit Hshift] | ->]].
  - replace ((0x41 <=? vKey) && (vKey <=? 0x5A)) with true by lia. simpl.
    change (char_code "A") with 65. change (char_code "a") with 97.
    destruct (xorb _ _); simpl; intros [= <-];
      rewrite CharToVirtualKey_of_code by lia.
    + by replace ((65 <=? 65 + (vKey - 65)) && (65 + (vKey - 65) <=? 90))
        with true by lia; lia.
    + replace ((65 <=? 65 + (vKey - 65) - 65 + 97) &&
               (65 + (vKey - 65) - 65 + 97 <=? 90)) with false by lia.
      replace ((97 <=? 65 + (vKey - 65) - 65 + 97) &&
               (65 + (vKey - 65) - 65 + 97 <=? 122)) with true by lia.
      lia.
  - replace ((0x41 <=? vKey) && (vKey <=? 0x5A)) with false by lia.
    replace ((0x30 <=? vKey) && (vKey <=? 0x39)) with true by lia.
    rewrite Hshift. simpl. change (char_code "0") with 48. intros [= <-].
    rewrite CharToVirtualKey_of_code by lia.
    replace ((65 <=? 48 + (vKey - 48)) && (48 + (vKey - 48) <=? 90)) with false by lia.
    replace ((97 <=? 48 + (vKey - 48)) && (48 + (vKey - 48) <=? 122)) with false by lia.
    replace ((48 <=? 48 + (vKey - 48)) && (48 + (vKey - 48) <=? 57)) with true by lia.
    lia.
  - simpl. by destruct (EventLogger_s_shiftPressed p); intros [= <-].
Qed.

Lemma logged_char_maps_back_to_key_witness :
  @InputInjector.CharToVirtualKey (platform "") "q" = 0x51.
Proof.
  apply (@logged_char_maps_back_to_key (platform "")
           (with_EventLogger true false false process_start) 0x51 "q").
  - left. lia.
  - reflexivity.
Defined.

(** ** suggestion_overlay.cpp: where the overlay is put *)

(** X6.  On a screen of at least 620 x 90, with the cursor not below the
    bottom of the screen, the 600 x 80 rectangle that [UpdatePosition]
    chooses lies within the screen. *)
Theorem UpdatePosition_within_screen cursorPos screenWidth screenHeight :
  620 <= screenWidth ->
  90 <= screenHeight ->
  pt_y cursorPos <= screenHeight ->
  let '(x, y) :=
    SuggestionOverlay.UpdatePosition_target cursorPos screenWidth screenHeight in
  0 <= x /\ x + 600 <= screenWidth /\ 0 <= y /\ y + 80 <= screenHeight.
Proof.
  unfold SuggestionOverlay.UpdatePosition_target. intros Hw Hh Hy.
  repeat match goal with |- context [if ?b then _ else _] =>
    destruct b eqn:? end; lia.
Qed.

Lemma UpdatePosition_within_screen_witness :
  let '(x, y) :=
    SuggestionOverlay.UpdatePosition_target {| pt_x := 1900; pt_y := 1070 |}
      1920 1080 in
  0 <= x /\ x + 600 <= 1920 /\ 0 <= y /\ y + 80 <= 1080.
Proof.
  apply (UpdatePosition_within_screen {| pt_x := 1900; pt_y := 1070 |} 1920 1080);
    simpl; lia.
Defined.

Example UpdatePosition_near_corner :
  SuggestionOverlay.UpdatePosition_target {| pt_x := 1900; pt_y := 1070 |} 1920 1080
  = (1300, 980).
Proof. reflexivity. Qed.

(** ** input_injection.cpp: results, delays and the uninitialised injector *)

Section InjectorResults.
Context `{Win32}.

Lemma all_accepted_app l1 l2 :
  all_accepted (l1 ++ l2) = all_accepted l1 && all_accepted l2.
Proof. apply forallb_app. Qed.

Lemma no_sleep_app l1 l2 : no_sleep (l1 ++ l2) = no_sleep l1 && no_sleep l2.
Proof. apply forallb_app. Qed.

(** What [SendVirtualKey] returns and appends, in full. *)
Lemma SendVirtualKey_full vk up p :
  exists ok effects,
    runs (InputInjector.SendVirtualKey vk up) p ok effects /\
    key_events effects =
      (if InputInjector_s_initialized p then [key_action vk up] else []) /\
    no_sleep effects = true /\
    (InputInjector_s_initialized p = true -> ok = all_accepted effects) /\
    (InputInjector_s_initialized p = false -> ok = false) /\
    (InputInjector_s_initialized p = true -> accepts_key vk -> ok = true).
Proof.
  unfold InputInjector.SendVirtualKey, InputInjector.SendInputHelper, runs.
  unfold mbind, M_bind, gets, print, emit, modify, mret, M_ret. simpl.
  destruct (InputInjector_s_initialized p) eqn:Hinit; simpl.
  - match goal with |- context [SendInput ?w ?i] =>
      destruct (SendInput w i) eqn:Hok end; simpl.
    + eexists true, [_]. split; [reflexivity|]. by destruct up.
    + eexists false, [_; _]. split.
      * unfold with_world; simpl. by rewrite <- app_assoc.
      * destruct up; repeat split; try done;
          intros _ Hacc; by rewrite Hacc in Hok.
  - by eexists false, [_].
Qed.

Lemma SendKeyPress_full vk p :
  exists pressed effects,
    runs (InputInjector.SendKeyPress vk) p pressed effects /\
    key_events effects =
      (if InputInjector_s_initialized p then [KeyDown vk; KeyUp vk] else []) /\
    (InputInjector_s_keyDelayMs p = 0 -> no_sleep effects = true) /\
    (InputInjector_s_initialized p = true -> pressed = all_accepted effects) /\
    (InputInjector_s_initialized p = false -> pressed = false) /\
    (InputInjector_s_initialized p = true -> accepts_key vk -> pressed = true).
Proof.
  destruct (SendVirtualKey_full vk false p)
    as (ok1 & e1 & Hr1 & Hk1 & Hn1 & Ha1 & Hu1 & Hc1).
  set (p1 := with_world (world p ++ e1) p).
  set (sl := if ok1 && (0 <? InputInjector_s_keyDelayMs p1)
             then [Sleep (InputInjector_s_keyDelayMs p1)] else []).
  set (p2 := with_world (world p1 ++ sl) p1).
  destruct (SendVirtualKey_full vk true p2)
    as (ok2 & e2 & Hr2 & Hk2 & Hn2 & Ha2 & Hu2 & Hc2).
  exists (ok1 && ok2), (e1 ++ sl ++ e2 ++ []).
  split; [|split; [|split; [|split; [|split]]]].
  - unfold InputInjector.SendKeyPress.
    eapply runs_bind; [exact Hr1|]. apply runs_bind_gets.
    eapply runs_bind; [apply runs_when; intros; apply runs_emit|].
    eapply runs_bind; [exact Hr2|]. apply runs_ret.
  - rewrite !key_events_app, Hk1, Hk2. simpl.
    replace (key_events sl) with (@nil KeyAction)
      by (unfold sl; by destruct (_ && _)).
    by destruct (InputInjector_s_initialized p).
  - intros Hdelay. rewrite !no_sleep_app, Hn1, Hn2. simpl.
    unfold sl. simpl. rewrite Hdelay. by rewrite andb_false_r.
  - intros Hinit. rewrite !all_accepted_app, <- Ha1, <- Ha2 by done.
    replace (all_accepted sl) with true by (unfold sl; by destruct (_ && _)).
    simpl. by rewrite andb_true_r.
  - intros Hinit. by rewrite Hu1.
  - intros Hinit Hacc. by rewrite Hc1, Hc2.
Qed.

Lemma SendKeySequence_body_full vk p :
  exists pressed effects,
    (forall success,
       runs (InputInjector.SendKeySequence_body vk success) p
         (success && pressed) effects) /\
    key_events effects =
      (if InputInjector_s_initialized p then [KeyDown vk; KeyUp vk] else []) /\
    (InputInjector_s_keyDelayMs p = 0 -> no_sleep effects = true) /\
    (InputInjector_s_initialized p = true -> pressed = all_accepted effects).
Proof.
  destruct (SendKeyPress_full vk p) as (pressed & e1 & Hr1 & Hk1 & Hn1 & Ha1 & _).
  set (p1 := with_world (world p ++ e1) p).
  set (sl := if 0 <? InputInjector_s_keyDelayMs p1
             then [Sleep (InputInjector_s_keyDelayMs p1)] else []).
  exists pressed, (e1 ++ sl ++ []). split; [|split; [|split]].
  - intros success. unfold InputInjector.SendKeySequence_body.
    eapply runs_bind; [exact Hr1|]. apply runs_bind_gets.
    eapply runs_bind; [apply runs_when; intros; apply runs_emit|].
    apply runs_ret.
  - rewrite !key_events_app, Hk1. simpl.
    replace (key_events sl) with (@nil KeyAction)
      by (unfold sl; by destruct (_ <? _)).
    by rewrite app_nil_r.
  - intros Hdelay. rewrite !no_sleep_app, Hn1 by done. simpl.
    unfold sl. simpl. by rewrite Hdelay.
  - intros Hinit. rewrite !all_accepted_app, <- Ha1 by done.
    replace (all_accepted sl) with true by (unfold sl; by destruct (_ <? _)).
    simpl. by rewrite !andb_true_r.
Qed.

Lemma SendKeySequence_loop_full vkCodes p :
  exists result effects,
    (forall success,
       runs (InputInjector.SendKeySequence_loop vkCodes success) p
         (success && result) effects) /\
    key_events effects =
      (if InputInjector_s_initialized p then sequence_keys vkCodes else []) /\
    (InputInjector_s_keyDelayMs p = 0 -> no_sleep effects = true) /\
    (InputInjector_s_initialized p = true -> result = all_accepted effects).
Proof.
  revert p. induction vkCodes as [|vk rest IH]; intros p; simpl.
  - exists true, []. split; [|by destruct (InputInjector_s_initialized p)].
    intros success. rewrite andb_true_r. apply runs_ret.
  - destruct (SendKeySequence_body_full vk p) as (pressed & e1 & Hr1 & Hk1 & Hn1 & Ha1).
    destruct (IH (with_world (world p ++ e1) p)) as (result & e2 & Hr2 & Hk2 & Hn2 & Ha2).
    exists (pressed && result), (e1 ++ e2). split; [|split; [|split]].
    + intros success. rewrite andb_assoc.
      eapply runs_bind; [apply Hr1 | apply Hr2].
    + rewrite key_events_app, Hk1, Hk2. simpl.
      by destruct (InputInjector_s_initialized p).
    + intros Hdelay. by rewrite no_sleep_app, Hn1, Hn2.
    + intros Hinit. by rewrite all_accepted_app, <- Ha1, <- Ha2.
Qed.

Lemma SendKeySequence_full vkCodes p :
  exists result effects,
    runs (InputInjector.SendKeySequence vkCodes) p result effects /\
    key_events effects =
      (if InputInjector_s_initialized p then sequence_keys vkCodes else []) /\
    (InputInjector_s_keyDelayMs p = 0 -> no_sleep effects = true) /\
    (InputInjector_s_initialized p = true -> result = all_accepted effects).
Proof.
  unfold InputInjector.SendKeySequence.
  destruct (InputInjector_s_initialized p) eqn:Hinit.
  - set (line := Console (INPUT_Sending_key_sequence (Z.of_nat (length vkCodes)))).
    destruct (SendKeySequence_loop_full vkCodes (with_world (world p ++ [line]) p))
      as (result & e & Hr & Hk & Hn & Ha).
    exists result, ([line] ++ e). split; [|split; [|split]].
    + apply runs_bind_gets. rewrite Hinit. simpl negb. cbv iota.
      eapply runs_bind; [apply runs_print | apply (Hr true)].
    + rewrite key_events_app, Hk. simpl. by rewrite Hinit.
    + intros Hdelay. rewrite no_sleep_app, Hn; done.
    + intros _. rewrite all_accepted_app. simpl. by apply Ha.
  - exists false, ([Console ERROR_InputInjector_not_initialized] ++ []).
    split; [|done].
    apply runs_bind_gets. rewrite Hinit. simpl negb. cbv iota.
    eapply runs_bind; [apply runs_print | apply runs_ret].
Qed.

(** X7.  On an initialised injector [SendKeySequence] presses and releases
    every key of the sequence, in order, whatever [SendInput] answers, and
    returns [true] exactly when the platform accepted every event it was
    given. *)
Theorem SendKeySequence_all_keys vkCodes p :
  InputInjector_s_initialized p = true ->
  key_events (emitted p (snd (InputInjector.SendKeySequence vkCodes p))) =
    sequence_keys vkCodes /\
  fst (InputInjector.SendKeySequence vkCodes p) =
    all_accepted (emitted p (snd (InputInjector.SendKeySequence vkCodes p))).
Proof.
  intros Hinit.
  destruct (SendKeySequence_full vkCodes p) as (result & e & Hr & Hk & _ & Ha).
  rewrite (runs_emitted _ _ _ _ Hr), (runs_fst _ _ _ _ Hr), Hk, Hinit.
  split; [done | by apply Ha].
Qed.

Lemma shift_full (shift up : bool) p :
  exists effects,
    runs (when shift (_ ← InputInjector.SendVirtualKey VK_SHIFT up; mret tt))
      p tt effects /\
    no_sleep effects = true.
Proof.
  destruct shift; simpl.
  - destruct (SendVirtualKey_full VK_SHIFT up p) as (ok & e & Hr & _ & Hn & _).
    exists (e ++ []). split.
    + eapply runs_bind; [exact Hr | apply runs_ret].
    + by rewrite app_nil_r.
  - exists []. split; [apply runs_skip | done].
Qed.

Lemma SendTextString_body_full c p :
  exists pressed effects,
    (forall success,
       runs (InputInjector.SendTextString_body c success) p
         (success && pressed) effects) /\
    (InputInjector_s_keyDelayMs p = 0 -> no_sleep effects = true) /\
    (InputInjector_s_initialized p = true ->
     accepts_key (InputInjector.CharToVirtualKey c) -> pressed = true).
Proof.
  unfold InputInjector.SendTextString_body.
  set (vk := InputInjector.CharToVirtualKey c).
  set (shift := negb (Z.land (HIBYTE (VkKeyScanA c)) 1 =? 0)).
  destruct (vk =? 0) eqn:Hvk; simpl.
  - exists true, [Console (WARNING_Cannot_convert_character c)].
    split; [|done].
    intros success. rewrite andb_true_r.
    eapply (runs_bind _ _ _ _ _ [_] []); [apply runs_print | apply runs_ret].
  - destruct (shift_full shift false p) as (e1 & Hr1 & Hn1).
    set (p1 := with_world (world p ++ e1) p).
    destruct (SendKeyPress_full vk p1) as (pressed & e2 & Hr2 & _ & Hn2 & _ & _ & Hc2).
    set (p2 := with_world (world p1 ++ e2) p1).
    destruct (shift_full shift true p2) as (e3 & Hr3 & Hn3).
    set (p3 := with_world (world p2 ++ e3) p2).
    set (sl := if 0 <? InputInjector_s_keyDelayMs p3
               then [Sleep (InputInjector_s_keyDelayMs p3)] else []).
    exists pressed, (e1 ++ e2 ++ e3 ++ sl ++ []). split; [|split].
    + intros success.
      eapply runs_bind; [exact Hr1|].
      eapply runs_bind; [exact Hr2|].
      eapply runs_bind; [exact Hr3|]. apply runs_bind_gets.
      eapply runs_bind; [apply runs_when; intros; apply runs_emit|].
      apply runs_ret.
    + intros Hdelay. rewrite !no_sleep_app, Hn1, Hn2, Hn3 by done. simpl.
      unfold sl. simpl. by rewrite Hdelay.
    + intros Hinit Hacc. by apply Hc2.
Qed.

Lemma SendTextString_loop_full text p :
  exists result effects,
    (forall success,
       runs (InputInjector.SendTextString_loop text success) p
         (success && result) effects) /\
    (InputInjector_s_keyDelayMs p = 0 -> no_sleep effects = true) /\
    (InputInjector_s_initialized p = true ->
     (forall c, In c (list_ascii_of_string text) ->
        accepts_key (InputInjector.CharToVirtualKey c)) ->
     result = true).
Proof.
  revert p. induction text as [|c rest IH]; intros p; simpl.
  - exists true, []. split; [|done].
    intros success. rewrite andb_true_r. apply runs_ret.
  - destruct (SendTextString_body_full c p) as (pressed & e1 & Hr1 & Hn1 & Hc1).
    destruct (IH (with_world (world p ++ e1) p)) as (result & e2 & Hr2 & Hn2 & Hc2).
    exists (pressed && result), (e1 ++ e2). split; [|split].
    + intros success. rewrite andb_assoc.
      eapply runs_bind; [apply Hr1 | apply Hr2].
    + intros Hdelay. by rewrite no_sleep_app, Hn1, Hn2.
    + intros Hinit Hacc. rewrite Hc1, Hc2; auto.
Qed.

Lemma SendTextString_full text p :
  exists result effects,
    runs (InputInjector.SendTextString text) p result effects /\
    (InputInjector_s_keyDelayMs p = 0 -> no_sleep effects = true) /\
    (InputInjector_s_initialized p = true ->
     (forall c, In c (list_ascii_of_string text) ->
        accepts_key (InputInjector.CharToVirtualKey c)) ->
     result = true).
Proof.
  unfold InputInjector.SendTextString.
  destruct (InputInjector_s_initialized p) eqn:Hinit.
  - set (p0 := with_world (world p ++ [Console (INPUT_Sending_text text)]) p).
    destruct (SendTextString_loop_full text p0) as (result & e & Hr & Hn & Hc).
    exists result, ([Console (INPUT_Sending_text text)] ++ e).
    split; [|split].
    + apply runs_bind_gets. rewrite Hinit. simpl negb. cbv iota.
      eapply runs_bind; [apply runs_print | apply (Hr true)].
    + intros Hdelay. rewrite no_sleep_app, Hn; done.
    + intros _ Hacc. by apply Hc.
  - exists false, ([Console ERROR_InputInjector_not_initialized] ++ []).
    split; [|done].
    apply runs_bind_gets. rewrite Hinit. simpl negb. cbv iota.
    eapply runs_bind; [apply runs_print | apply runs_ret].
Qed.

(** X8.  With a key delay of 0 neither [SendTextString] nor
    [SendKeySequence] sleeps, whatever the text, the keys and the answers
    of [SendInput]. *)
Theorem zero_delay_never_sleeps text vkCodes p :
  InputInjector_s_keyDelayMs p = 0 ->
  no_sleep (emitted p (snd (InputInjector.SendTextString text p))) = true /\
  no_sleep (emitted p (snd (InputInjector.SendKeySequence vkCodes p))) = true.
Proof.
  intros Hdelay. split.
  - destruct (SendTextString_full text p) as (result & e & Hr & Hn & _).
    rewrite (runs_emitted _ _ _ _ Hr). by apply Hn.
  - destruct (SendKeySequence_full vkCodes p) as (result & e & Hr & _ & Hn & _).
    rewrite (runs_emitted _ _ _ _ Hr). by apply Hn.
Qed.


(** X10.  On an injector that is not initialised every entry point returns
    [false], prints the error and hands nothing to [SendInput]; no static
    member changes. *)
Theorem uninitialised_injector_sends_nothing text vkCodes vk up p :
  InputInjector_s_initialized p = false ->
  runs (InputInjector.SendTextString text) p false
    [Console ERROR_InputInjector_not_initialized] /\
  runs (InputInjector.SendKeySequence vkCodes) p false
    [Console ERROR_InputInjector_not_initialized] /\
  runs (InputInjector.SendVirtualKey vk up) p false
    [Console ERROR_InputInjector_not_initialized] /\
  runs (InputInjector.SendKeyPress vk) p false
    [Console ERROR_InputInjector_not_initialized;
     Console ERROR_InputInjector_not_initialized].
Proof.
  intros Hinit.
  unfold runs, InputInjector.SendTextString, InputInjector.SendKeySequence,
    InputInjector.SendKeyPress, InputInjector.SendVirtualKey.
  unfold mbind, M_bind, gets, print, emit, modify, when, skip, mret, M_ret.
  simpl. rewrite !Hinit. simpl. rewrite ?Hinit. simpl. repeat split.
  unfold with_world. simpl. by rewrite <- app_assoc.
Qed.
End InjectorResults.

Lemma SendKeySequence_all_keys_witness :
  key_events
    (emitted (@started (platform_rejecting_first ""))
       (snd (@InputInjector.SendKeySequence (platform_rejecting_first "")
               [VK_CONTROL; 0x43] (@started (platform_rejecting_first ""))))) =
    [KeyDown VK_CONTROL; KeyUp VK_CONTROL; KeyDown 0x43; KeyUp 0x43] /\
  fst (@InputInjector.SendKeySequence (platform_rejecting_first "")
         [VK_CONTROL; 0x43] (@started (platform_rejecting_first ""))) =
    all_accepted
      (emitted (@started (platform_rejecting_first ""))
         (snd (@InputInjector.SendKeySequence (platform_rejecting_first "")
                 [VK_CONTROL; 0x43] (@started (platform_rejecting_first ""))))).
Proof.
  apply (@SendKeySequence_all_keys (platform_rejecting_first "")
           [VK_CONTROL; 0x43] (@started (platform_rejecting_first ""))).
  reflexivity.
Defined.

Lemma zero_delay_never_sleeps_witness :
  no_sleep
    (emitted (snd (InputInjector.SetKeyDelay 0 (@started (platform_rejecting_first ""))))
       (snd (@InputInjector.SendTextString (platform_rejecting_first "") "Ab1 "
               (snd (InputInjector.SetKeyDelay 0
                       (@started (platform_rejecting_first ""))))))) = true /\
  no_sleep
    (emitted (snd (InputInjector.SetKeyDelay 0 (@started (platform_rejecting_first ""))))
       (snd (@InputInjector.SendKeySequence (platform_rejecting_first "") [0x41]
               (snd (InputInjector.SetKeyDelay 0
                       (@started (platform_rejecting_first ""))))))) = true.
Proof.
  apply (@zero_delay_never_sleeps (platform_rejecting_first "")).
  reflexivity.
Defined.


(** The run of the witness: both events of Shift around "H" are rejected,
    and the call reports success. *)
Example rejected_shift_goes_unreported :
  let p := @started (platform_rejecting_shift "") in
  let run := @InputInjector.SendTextString (platform_rejecting_shift "") "H" p in
  fst run = true /\
  List.filter is_SendInputCall (emitted p (snd run)) =
    [ SendInputCall {| wVk := VK_SHIFT; dwFlags := 0 |} false;
      SendInputCall {| wVk := 0x48; dwFlags := 0 |} true;
      SendInputCall {| wVk := 0x48; dwFlags := KEYEVENTF_KEYUP |} true;
      SendInputCall {| wVk := VK_SHIFT; dwFlags := KEYEVENTF_KEYUP |} false ].
Proof. vm_compute. split; reflexivity. Qed.

Lemma uninitialised_injector_sends_nothing_witness :
  runs (@InputInjector.SendTextString (platform "") "ab") process_start false
    [Console ERROR_InputInjector_not_initialized] /\
  runs (@InputInjector.SendKeySequence (platform "") [0x41]) process_start false
    [Console ERROR_InputInjector_not_initialized] /\
  runs (@InputInjector.SendVirtualKey (platform "") 0x41 false) process_start false
    [Console ERROR_InputInjector_not_initialized] /\
  runs (@InputInjector.SendKeyPress (platform "") 0x41) process_start false
    [Console ERROR_InputInjector_not_initialized;
     Console ERROR_InputInjector_not_initialized].
Proof.
  apply (@uninitialised_injector_sends_nothing (platform "")).
  reflexivity.
Defined.

(** ** Steps that leave the injector, the logger and the globals alone *)

Lemma log_lines_app l1 l2 : log_lines (l1 ++ l2) = log_lines l1 ++ log_lines l2.
Proof. apply omap_app. Qed.

Lemma injector_effects_no_log effects :
  forallb injector_effect effects = true -> log_lines effects = [].
Proof.
  induction effects as [|e rest IH]; simpl; [done|].
  intros [He Hrest]%andb_true_iff.
  unfold log_lines in *. simpl. rewrite (IH Hrest).
  by destruct e.
Qed.

Lemma keeps_core_refl p : keeps_core p p.
Proof. by repeat split. Qed.

Lemma keeps_core_trans p q r : keeps_core p q -> keeps_core q r -> keeps_core p r.
Proof.
  unfold keeps_core.
  intros (H1 & H2 & H3 & H4 & H5 & H6 & H7 & H8) (G1 & G2 & G3 & G4 & G5 & G6 & G7 & G8).
  repeat split; congruence.
Qed.

Lemma silent_step_refl p : silent_step p p.
Proof. split; [apply keeps_core_refl|]. exists []. by rewrite app_nil_r. Qed.

Lemma silent_step_trans p q r : silent_step p q -> silent_step q r -> silent_step p r.
Proof.
  intros [Hc1 (e1 & Hw1 & Hl1)] [Hc2 (e2 & Hw2 & Hl2)].
  split; [by eapply keeps_core_trans|].
  exists (e1 ++ e2). rewrite Hw2, Hw1, app_assoc. split; [done|].
  by rewrite log_lines_app, Hl1, Hl2.
Qed.

Lemma silent_step_with_world p effects :
  log_lines effects = [] -> silent_step p (with_world (world p ++ effects) p).
Proof. intros Hl. split; [by repeat split|]. by exists effects. Qed.

Lemma runs_silent {A} (m : M A) p a effects :
  runs m p a effects -> log_lines effects = [] -> silent_step p (snd (m p)).
Proof. intros -> Hl. by apply silent_step_with_world. Qed.

Lemma for_each_silent {A} (l : list A) body :
  (forall a p, silent_step p (snd (body a p))) ->
  forall p, silent_step p (snd (for_each l body p)).
Proof.
  intros Hbody p.
  apply (for_each_preserves (fun q => silent_step p q)); [|apply silent_step_refl].
  intros a q Hq. eapply silent_step_trans; [exact Hq | apply Hbody].
Qed.

Section Frames.
Context `{Win32}.

Lemma SendTextString_silent text p :
  silent_step p (snd (InputInjector.SendTextString text p)).
Proof.
  destruct (SendTextString_runs text p) as (success & e & Hr & _ & Hf & _).
  eapply runs_silent; [exact Hr | by apply injector_effects_no_log].
Qed.

Lemma HideSuggestion_silent p :
  silent_step p (snd (SuggestionOverlay.HideSuggestion p)) /\
  s_specialKeyStates (snd (SuggestionOverlay.HideSuggestion p)) = s_specialKeyStates p /\
  s_pendingSuggestion (snd (SuggestionOverlay.HideSuggestion p)) = s_pendingSuggestion p /\
  s_hasPendingSuggestion (snd (SuggestionOverlay.HideSuggestion p)) =
    s_hasPendingSuggestion p.
Proof.
  unfold SuggestionOverlay.HideSuggestion.
  unfold mbind, M_bind, print, emit, modify, gets, skip, mret, M_ret. simpl.
  destruct (negb _ || negb _); simpl.
  - split; [apply silent_step_refl | done].
  - split; [|done]. split; [by repeat split | by eexists].
Qed.

Lemma ShowSuggestion_silent suggestion p :
  silent_step p (snd (SuggestionOverlay.ShowSuggestion suggestion p)) /\
  s_specialKeyStates (snd (SuggestionOverlay.ShowSuggestion suggestion p)) =
    s_specialKeyStates p /\
  s_pendingSuggestion (snd (SuggestionOverlay.ShowSuggestion suggestion p)) =
    s_pendingSuggestion p /\
  s_hasPendingSuggestion (snd (SuggestionOverlay.ShowSuggestion suggestion p)) =
    s_hasPendingSuggestion p.
Proof.
  unfold SuggestionOverlay.ShowSuggestion.
  unfold mbind, M_bind, print, emit, modify, gets, skip, mret, M_ret. simpl.
  destruct (negb _ || negb _); simpl.
  - split; [apply silent_step_refl | done].
  - split; [|done]. split; [by repeat split | by eexists].
Qed.

Lemma OnRightCtrlPressed_silent pressTime releaseTime pressPos releasePos p :
  silent_step p (snd (SpecialKeyHandler.OnRightCtrlPressed pressTime releaseTime
                        pressPos releasePos p)) /\
  s_specialKeyStates (snd (SpecialKeyHandler.OnRightCtrlPressed pressTime releaseTime
                             pressPos releasePos p)) = s_specialKeyStates p.
Proof.
  destruct (has_pending p) eqn:Hp.
  - unfold has_pending in Hp.
    unfold SpecialKeyHandler.OnRightCtrlPressed.
    unfold mbind, M_bind, print, emit, modify, gets. simpl.
    rewrite Hp. simpl.
    match goal with |- context [InputInjector.SendTextString ?t ?q] =>
      destruct (SendTextString_runs t q) as (success & e & Hr & _ & Hf & _) end.
    rewrite Hr. simpl.
    apply injector_effects_no_log in Hf.
    destruct success; simpl;
      match goal with |- context [SuggestionOverlay.HideSuggestion ?q] =>
        destruct (HideSuggestion_silent q) as ([Hc (eh & Hw & Hl)] & Hs & _);
        destruct (SuggestionOverlay.HideSuggestion q) as [[] p'] end;
      simpl in *.
    all: split; [|done].
    all: split; [by destruct Hc as (? & ? & ? & ? & ? & ? & ? & ?); repeat split|].
    all: rewrite Hw, <- !app_assoc; eexists; (split; [reflexivity|]).
    all: unfold log_lines in *; simpl; rewrite !omap_app, Hf; simpl;
      by rewrite !omap_app, Hl.
  - rewrite (OnRightCtrlPressed_no_pending_runs _ _ _ _ _ Hp). simpl.
    split; [|done]. by apply silent_step_with_world.
Qed.

Lemma OnLeftCtrlPressed_silent pressTime releaseTime pressPos releasePos p :
  silent_step p (snd (SpecialKeyHandler.OnLeftCtrlPressed pressTime releaseTime
                        pressPos releasePos p)) /\
  s_specialKeyStates (snd (SpecialKeyHandler.OnLeftCtrlPressed pressTime releaseTime
                             pressPos releasePos p)) = s_specialKeyStates p.
Proof.
  unfold SpecialKeyHandler.OnLeftCtrlPressed.
  unfold mbind, M_bind, print, emit, modify, gets, skip, mret, M_ret. simpl.
  destruct (RunGenerator _) as [code opened [line|]]; simpl;
    destruct (code =? 0); simpl; destruct opened; simpl;
    try (split; [|done]; split; [by repeat split|];
         rewrite <- !app_assoc; by eexists).
  destruct (string_empty line); simpl;
    [split; [|done]; split; [by repeat split|]; rewrite <- !app_assoc; by eexists|].
  match goal with |- context [SuggestionOverlay.ShowSuggestion ?l ?q] =>
    destruct (ShowSuggestion_silent l q) as ([Hc (es & Hw & Hl)] & Hs & _);
    destruct (SuggestionOverlay.ShowSuggestion l q) as [[] p'] end.
  simpl in *. split; [|done].
  split; [by destruct Hc as (? & ? & ? & ? & ? & ? & ? & ?); repeat split|].
  rewrite Hw, <- !app_assoc. eexists. split; [reflexivity|].
  unfold log_lines in *. simpl. by rewrite !omap_app, Hl.
Qed.

Lemma OnSpecialKeyPressed_silent vKey pressTime releaseTime pressPos releasePos p :
  silent_step p (snd (SpecialKeyHandler.OnSpecialKeyPressed vKey pressTime releaseTime
                        pressPos releasePos p)) /\
  s_specialKeyStates (snd (SpecialKeyHandler.OnSpecialKeyPressed vKey pressTime
                             releaseTime pressPos releasePos p)) = s_specialKeyStates p /\
  s_pendingSuggestion (snd (SpecialKeyHandler.OnSpecialKeyPressed vKey pressTime
                              releaseTime pressPos releasePos p)) = s_pendingSuggestion p /\
  s_hasPendingSuggestion (snd (SpecialKeyHandler.OnSpecialKeyPressed vKey pressTime
                                 releaseTime pressPos releasePos p)) =
    s_hasPendingSuggestion p.
Proof.
  unfold SpecialKeyHandler.OnSpecialKeyPressed.
  destruct (vKey =? VK_SHIFT); [|destruct (vKey =? VK_MENU)];
    (split; [|done]); by apply (silent_step_with_world _ [_]).
Qed.
End Frames.

(** ** special_keys.cpp: the state machine of a monitored key *)

Section StateMachine.
Context `{Win32}.

Lemma update_state_at_silent i f p :
  silent_step p (snd (SpecialKeyHandler.update_state_at i f p)).
Proof. split; [by repeat split|]. exists []. simpl. by rewrite app_nil_r. Qed.

(** The branch of [ProcessSpecialKeyEvent] that looks at a released key. *)
Lemma release_branch_silent vKey flags timestamp cursorPos keyState p :
  let branch : M unit :=
    if isPressed keyState && negb (hadInterveningKeys keyState) then
      if vKey =? VK_CONTROL then
        let isRightCtrl := negb (Z.land flags RI_KEY_E0 =? 0) in
        if isRightCtrl then
          print (SPECIAL_pressed_alone "Right Ctrl");;
          SpecialKeyHandler.OnRightCtrlPressed (pressTimestamp keyState) timestamp
            (pressPosition keyState) cursorPos
        else
          print TRIGGER_Left_Ctrl_pressed;;
          SpecialKeyHandler.OnLeftCtrlPressed (pressTimestamp keyState) timestamp
            (pressPosition keyState) cursorPos
      else
        print (SPECIAL_pressed_alone (SpecialKeyHandler.GetKeyName vKey));;
        SpecialKeyHandler.OnSpecialKeyPressed vKey (pressTimestamp keyState) timestamp
          (pressPosition keyState) cursorPos
    else if isPressed keyState && hadInterveningKeys keyState then
      if vKey =? VK_CONTROL then
        let isRightCtrl := negb (Z.land flags RI_KEY_E0 =? 0) in
        print (SPECIAL_was_part_of_key_combination
                 (if isRightCtrl then "Right Ctrl" else "Left Ctrl"))
      else print (SPECIAL_was_part_of_key_combination
                    (SpecialKeyHandler.GetKeyName vKey))
    else skip in
  silent_step p (snd (branch p)) /\
  s_specialKeyStates (snd (branch p)) = s_specialKeyStates p /\
  (vKey <> VK_CONTROL ->
   s_pendingSuggestion (snd (branch p)) = s_pendingSuggestion p /\
   s_hasPendingSuggestion (snd (branch p)) = s_hasPendingSuggestion p).
Proof.
  cbv zeta.
  destruct (isPressed keyState && negb (hadInterveningKeys keyState)).
  - destruct (Z.eqb_spec vKey VK_CONTROL) as [->|Hne].
    + destruct (negb (Z.land flags RI_KEY_E0 =? 0)); unfold mbind, M_bind;
        match goal with |- context [print ?m p] =>
          change (print m p) with (tt, with_world (world p ++ [Console m]) p) end;
        cbv iota beta.
      * match goal with |- context [SpecialKeyHandler.OnRightCtrlPressed ?a ?b ?c ?d ?q] =>
          destruct (OnRightCtrlPressed_silent a b c d q) as [Hs Hst] end.
        split; [|split; [by rewrite Hst | congruence]].
        eapply silent_step_trans; [|exact Hs].
        by apply (silent_step_with_world _ [_]).
      * match goal with |- context [SpecialKeyHandler.OnLeftCtrlPressed ?a ?b ?c ?d ?q] =>
          destruct (OnLeftCtrlPressed_silent a b c d q) as [Hs Hst] end.
        split; [|split; [by rewrite Hst | congruence]].
        eapply silent_step_trans; [|exact Hs].
        by apply (silent_step_with_world _ [_]).
    + unfold mbind, M_bind;
        match goal with |- context [print ?m p] =>
          change (print m p) with (tt, with_world (world p ++ [Console m]) p) end;
        cbv iota beta.
      match goal with |- context [SpecialKeyHandler.OnSpecialKeyPressed ?v ?a ?b ?c ?d ?q] =>
        destruct (OnSpecialKeyPressed_silent v a b c d q) as (Hs & Hst & Hp1 & Hp2) end.
      split; [|split; [by rewrite Hst | by rewrite Hp1, Hp2]].
      eapply silent_step_trans; [|exact Hs].
      by apply (silent_step_with_world _ [_]).
  - destruct (isPressed keyState && hadInterveningKeys keyState).
    + destruct (vKey =? VK_CONTROL);
        (split; [by apply (silent_step_with_world _ [_]) | done]).
    + split; [apply silent_step_refl | done].
Qed.

(** What [ProcessSpecialKeyEvent] does to the static members. *)
Lemma ProcessSpecialKeyEvent_spec vKey flags isKeyUp timestamp cursorPos p :
  silent_step p (snd (SpecialKeyHandler.ProcessSpecialKeyEvent vKey flags isKeyUp
                        timestamp cursorPos p)) /\
  fst (SpecialKeyHandler.ProcessSpecialKeyEvent vKey flags isKeyUp
         timestamp cursorPos p) = SpecialKeyHandler.IsSpecialKey p vKey /\
  s_specialKeyStates (snd (SpecialKeyHandler.ProcessSpecialKeyEvent vKey flags isKeyUp
                             timestamp cursorPos p)) =
    (if SpecialKeyHandler.IsSpecialKey p vKey
     then alter (after_key_event isKeyUp timestamp cursorPos)
            (Z.to_nat (SpecialKeyHandler.GetSpecialKeyIndex p vKey))
            (s_specialKeyStates p)
     else s_specialKeyStates p) /\
  (isKeyUp = false \/ vKey <> VK_CONTROL ->
   s_pendingSuggestion (snd (SpecialKeyHandler.ProcessSpecialKeyEvent vKey flags
                               isKeyUp timestamp cursorPos p)) = s_pendingSuggestion p /\
   s_hasPendingSuggestion (snd (SpecialKeyHandler.ProcessSpecialKeyEvent vKey flags
                                  isKeyUp timestamp cursorPos p)) =
     s_hasPendingSuggestion p).
Proof.
  destruct (SpecialKeyHandler.ProcessSpecialKeyEvent vKey flags isKeyUp
              timestamp cursorPos p) as [handled p'] eqn:E.
  unfold SpecialKeyHandler.ProcessSpecialKeyEvent in E.
  unfold mbind, M_bind, gets, mret, M_ret in E.
  unfold SpecialKeyHandler.IsSpecialKey.
  set (index := SpecialKeyHandler.GetSpecialKeyIndex p vKey) in *.
  cbn [fst snd].
  destruct (index <? 0) eqn:Hindex.
  - replace (0 <=? index) with false by lia.
    injection E as <- <-. split; [apply silent_step_refl | done].
  - replace (0 <=? index) with true by lia.
    destruct isKeyUp; cbn [negb] in E.
    + pose proof (release_branch_silent vKey flags timestamp cursorPos
                    (SpecialKeyHandler.state_at p (Z.to_nat index)) p) as Hb.
      cbv zeta in Hb. unfold mbind, M_bind in Hb.
      match type of E with context [(if ?c then ?a else ?b) p] =>
        destruct ((if c then a else b) p) as [[] p1] end.
      simpl in Hb. destruct Hb as (Hs & Hst & Hp).
      simpl in E. injection E as <- <-.
      split; [|split; [done|split]].
      * eapply silent_step_trans; [exact Hs|]. apply update_state_at_silent.
      * simpl. by rewrite Hst.
      * intros [|Hne]; [done | by apply Hp].
    + simpl in E. injection E as <- <-.
      split; [|done]. apply update_state_at_silent.
Qed.
End StateMachine.

(** ** event_logger.cpp and main.cpp: what one raw keyboard event does *)

Section RawEvent.
Context `{Win32}.

(** [LogKeyboardEvent], in one equation. *)
Lemma LogKeyboardEvent_eq timestamp vKey isKeyUp p :
  snd (EventLogger.LogKeyboardEvent timestamp vKey isKeyUp p) =
  if EventLogger_s_initialized p then
    with_world
      (world p ++
       (if LogFileOpens (world p)
        then [LogAppend (KeyboardLine (logged_line timestamp vKey isKeyUp p))]
        else [Console ERROR_Could_not_write_to_log_file]))
      (with_EventLogger true
         (shift_after vKey isKeyUp (EventLogger_s_shiftPressed p))
         (caps_after vKey isKeyUp (EventLogger_s_capsLockOn p)) p)
  else with_world (world p ++ [Console ERROR_EventLogger_not_initialized]) p.
Proof.
  unfold EventLogger.LogKeyboardEvent, EventLogger.WriteLogEntry,
    EventLogger.UpdateModifierStates, logged_line, shift_after, caps_after.
  unfold mbind, M_bind, print, emit, modify, gets, when, skip, mret, M_ret.
  cbn beta iota.
  destruct (EventLogger_s_initialized p) eqn:Hinit; cbn [negb]; [|done].
  destruct p; simpl in Hinit; subst.
  destruct (bool_decide _); cbn beta iota.
  - simpl. by destruct (LogFileOpens _).
  - destruct (_ =? VK_CAPITAL); [destruct isKeyUp|]; simpl;
      by destruct (LogFileOpens _).
Qed.

(** [StoreEvent]: the event goes to the history, and to the logger. *)
Lemma StoreEvent_eq timestamp cursorPos kbData p :
  snd (StoreEvent timestamp cursorPos kbData p) =
  snd (EventLogger.LogKeyboardEvent timestamp (vKey kbData) (isKeyUp kbData)
         (with_globals (g_running p)
            (g_eventHistory p ++
             [{| timestamp := timestamp; cursorPosition := cursorPos;
                 eventData := KEYBOARD kbData |}]) p)).
Proof. reflexivity. Qed.

Lemma NotifyRegularKeyPressed_silent vKey p :
  silent_step p (snd (SpecialKeyHandler.NotifyRegularKeyPressed vKey p)) /\
  s_pendingSuggestion (snd (SpecialKeyHandler.NotifyRegularKeyPressed vKey p)) =
    s_pendingSuggestion p /\
  s_hasPendingSuggestion (snd (SpecialKeyHandler.NotifyRegularKeyPressed vKey p)) =
    s_hasPendingSuggestion p.
Proof.
  unfold SpecialKeyHandler.NotifyRegularKeyPressed. unfold mbind, M_bind, gets.
  apply (for_each_preserves
           (fun q => silent_step p q /\
                     s_pendingSuggestion q = s_pendingSuggestion p /\
                     s_hasPendingSuggestion q = s_hasPendingSuggestion p)).
  - intros i q (Hs & Hp1 & Hp2).
    unfold SpecialKeyHandler.NotifyRegularKeyPressed_body,
      SpecialKeyHandler.update_state_at.
    unfold mbind, M_bind, print, emit, modify, gets, when, skip, mret, M_ret.
    destruct (isPressed _); [|done]. simpl. split; [|done].
    eapply silent_step_trans; [exact Hs|].
    split; [by repeat split | by eexists].
  - split; [apply silent_step_refl | done].
Qed.

(** What [ProcessRawInput] does with one raw keyboard event. *)
Lemma ProcessRawInput_summary kb timestamp cursorPos p :
  let isKeyUp := negb (Z.land (Flags kb) RI_KEY_BREAK =? 0) in
  let p' := snd (ProcessRawInput kb timestamp cursorPos p) in
  g_eventHistory p' =
    g_eventHistory p ++ [stored_keyboard_event kb timestamp cursorPos] /\
  g_running p' = g_running p && negb (is_escape_down kb) /\
  EventLogger_s_initialized p' = EventLogger_s_initialized p /\
  EventLogger_s_shiftPressed p' =
    (if EventLogger_s_initialized p
     then shift_after (VKey kb) isKeyUp (EventLogger_s_shiftPressed p)
     else EventLogger_s_shiftPressed p) /\
  EventLogger_s_capsLockOn p' =
    (if EventLogger_s_initialized p
     then caps_after (VKey kb) isKeyUp (EventLogger_s_capsLockOn p)
     else EventLogger_s_capsLockOn p) /\
  s_specialKeys p' = s_specialKeys p /\
  (exists effects,
     world p' = world p ++ effects /\
     log_lines effects =
       if EventLogger_s_initialized p && LogFileOpens (world p)
       then [KeyboardLine (logged_line timestamp (VKey kb) isKeyUp p)] else []) /\
  (isKeyUp = false \/ VKey kb <> VK_CONTROL ->
   s_pendingSuggestion p' = s_pendingSuggestion p /\
   s_hasPendingSuggestion p' = s_hasPendingSuggestion p).
Proof.
  cbv zeta. unfold ProcessRawInput, is_escape_down, stored_keyboard_event.
  set (isKeyUp := negb (Z.land (Flags kb) RI_KEY_BREAK =? 0)).
  replace (Z.land (Flags kb) RI_KEY_BREAK =? 0) with (negb isKeyUp)
    by (unfold isKeyUp; by rewrite negb_involutive).
  clearbody isKeyUp.
  match goal with |- context [snd ?t] => single (snd t) end.
  unfold mbind at 1. unfold M_bind at 1.
  match goal with |- context [StoreEvent ?a ?b ?c p] =>
    pose proof (StoreEvent_eq a b c p) as Hstore;
    destruct (StoreEvent a b c p) as [[] p1] end.
  rewrite LogKeyboardEvent_eq in Hstore. simpl in Hstore.
  assert (H1 :
    g_eventHistory p1 = g_eventHistory p ++ [{| timestamp := timestamp; cursorPosition := cursorPos;
         eventData := KEYBOARD {| vKey := VKey kb; scanCode := MakeCode kb; flags := Flags kb; isKeyUp := isKeyUp |} |}] /\
    g_running p1 = g_running p /\
    EventLogger_s_initialized p1 = EventLogger_s_initialized p /\
    EventLogger_s_shiftPressed p1 =
      (if EventLogger_s_initialized p
       then shift_after (VKey kb) isKeyUp (EventLogger_s_shiftPressed p)
       else EventLogger_s_shiftPressed p) /\
    EventLogger_s_capsLockOn p1 =
      (if EventLogger_s_initialized p
       then caps_after (VKey kb) isKeyUp (EventLogger_s_capsLockOn p)
       else EventLogger_s_capsLockOn p) /\
    s_specialKeys p1 = s_specialKeys p /\
    s_pendingSuggestion p1 = s_pendingSuggestion p /\
    s_hasPendingSuggestion p1 = s_hasPendingSuggestion p /\
    exists effects,
      world p1 = world p ++ effects /\
      log_lines effects =
        if EventLogger_s_initialized p && LogFileOpens (world p)
        then [KeyboardLine (logged_line timestamp (VKey kb) isKeyUp p)] else []).
  { rewrite Hstore. destruct (EventLogger_s_initialized p) eqn:Hinit; simpl.
    - split_and!; try done. eexists. split; [reflexivity|].
      by destruct (LogFileOpens _).
    - split_and!; try done. exists [Console ERROR_EventLogger_not_initialized].
      done. }
  clear Hstore.
  destruct H1 as (Hh & Hr & Hi & Hsh & Hca & Hk & Hp1 & Hp2 & e1 & Hw & Hl).
  assert (Hrest : forall q,
    silent_step p1 q ->
    (isKeyUp = false \/ VKey kb <> VK_CONTROL ->
     s_pendingSuggestion q = s_pendingSuggestion p1 /\
     s_hasPendingSuggestion q = s_hasPendingSuggestion p1) ->
    g_eventHistory q = g_eventHistory p ++ [{| timestamp := timestamp; cursorPosition := cursorPos;
         eventData := KEYBOARD {| vKey := VKey kb; scanCode := MakeCode kb; flags := Flags kb; isKeyUp := isKeyUp |} |}] /\
    g_running q = g_running p /\
    EventLogger_s_initialized q = EventLogger_s_initialized p /\
    EventLogger_s_shiftPressed q =
      (if EventLogger_s_initialized p
       then shift_after (VKey kb) isKeyUp (EventLogger_s_shiftPressed p)
       else EventLogger_s_shiftPressed p) /\
    EventLogger_s_capsLockOn q =
      (if EventLogger_s_initialized p
       then caps_after (VKey kb) isKeyUp (EventLogger_s_capsLockOn p)
       else EventLogger_s_capsLockOn p) /\
    s_specialKeys q = s_specialKeys p /\
    (exists effects,
       world q = world p ++ effects /\
       log_lines effects =
         if EventLogger_s_initialized p && LogFileOpens (world p)
         then [KeyboardLine (logged_line timestamp (VKey kb) isKeyUp p)] else []) /\
    (isKeyUp = false \/ VKey kb <> VK_CONTROL ->
     s_pendingSuggestion q = s_pendingSuggestion p /\
     s_hasPendingSuggestion q = s_hasPendingSuggestion p)).
  { intros q [(G1 & G2 & G3 & G4 & G5 & G6 & G7 & G8) (e2 & Hw2 & Hl2)] Hpend.
    split_and!; try congruence.
    - exists (e1 ++ e2). rewrite Hw2, Hw, app_assoc. split; [done|].
      by rewrite log_lines_app, Hl, Hl2, app_nil_r.
    - intros Hc. destruct (Hpend Hc); split; congruence. }
  destruct ((VKey kb =? VK_ESCAPE) && negb isKeyUp) eqn:Hesc.
  - subst Q. unfold mbind, M_bind, print, emit, modify. simpl.
    rewrite ?Hh, ?Hr, ?Hi, ?Hsh, ?Hca, ?Hk, ?Hp1, ?Hp2, ?Hw, ?andb_false_r.
    split_and!; try done.
    exists (e1 ++ [Console (ESC_pressed_shutting_down timestamp); PostQuit]).
    rewrite <- !app_assoc. split; [done|].
    by rewrite log_lines_app, Hl, app_nil_r.
  - subst Q. cbv beta. rewrite andb_true_r.
    apply Hrest.
    + unfold mbind at 1. unfold M_bind at 1.
      match goal with |- context [when ?c ?m p1] =>
        assert (H2 : silent_step p1 (snd (when c m p1)));
        [|destruct (when c m p1) as [[] p2]] end.
      { destruct (negb isKeyUp); [|apply silent_step_refl]. cbn [when].
        destruct (negb _); [|apply silent_step_refl]. apply HideSuggestion_silent. }
      simpl in H2. eapply silent_step_trans; [exact H2|].
      unfold mbind at 1. unfold M_bind at 1.
      match goal with |- context [SpecialKeyHandler.ProcessSpecialKeyEvent ?a ?b ?c ?d ?e p2] =>
        destruct (ProcessSpecialKeyEvent_spec a b c d e p2) as (H3 & _);
        destruct (SpecialKeyHandler.ProcessSpecialKeyEvent a b c d e p2) as [hook p3] end.
      simpl in H3. eapply silent_step_trans; [exact H3|].
      unfold mbind at 1. unfold M_bind at 1.
      match goal with |- context [when ?c ?m p3] =>
        assert (H4 : silent_step p3 (snd (when c m p3)));
        [|destruct (when c m p3) as [[] p4]] end.
      { destruct (negb hook && negb isKeyUp); [|apply silent_step_refl].
        apply NotifyRegularKeyPressed_silent. }
      simpl in H4. eapply silent_step_trans; [exact H4|].
      destruct (negb hook); [|apply silent_step_refl]. cbn [when].
      unfold mbind, M_bind, gets.
      by apply (silent_step_with_world _ [_]).
    + intros Hcond.
      match goal with |- context [snd ?t] => single (snd t) end.
      unfold mbind at 1. unfold M_bind at 1.
      match goal with |- context [when ?c ?m p1] =>
        assert (H2 : s_pendingSuggestion (snd (when c m p1)) = s_pendingSuggestion p1 /\
                     s_hasPendingSuggestion (snd (when c m p1)) =
                       s_hasPendingSuggestion p1);
        [|destruct (when c m p1) as [[] p2]] end.
      { destruct (negb isKeyUp); [|done]. cbn [when].
        destruct (negb _); [|done]. apply HideSuggestion_silent. }
      simpl in H2. destruct H2 as [E2a E2b].
      unfold mbind at 1. unfold M_bind at 1.
      match goal with |- context [SpecialKeyHandler.ProcessSpecialKeyEvent ?a ?b ?c ?d ?e p2] =>
        destruct (ProcessSpecialKeyEvent_spec a b c d e p2) as (_ & _ & _ & H3);
        destruct (SpecialKeyHandler.ProcessSpecialKeyEvent a b c d e p2) as [hook p3] end.
      simpl in H3. destruct (H3 Hcond) as [E3a E3b].
      unfold mbind at 1. unfold M_bind at 1.
      match goal with |- context [when ?c ?m p3] =>
        assert (H4 : s_pendingSuggestion (snd (when c m p3)) = s_pendingSuggestion p3 /\
                     s_hasPendingSuggestion (snd (when c m p3)) =
                       s_hasPendingSuggestion p3);
        [|destruct (when c m p3) as [[] p4]] end.
      { destruct (negb hook && negb isKeyUp); [|done]. apply NotifyRegularKeyPressed_silent. }
      simpl in H4. destruct H4 as [E4a E4b].
      subst Q. cbv beta. destruct (negb hook); simpl; split; congruence.
Qed.
End RawEvent.

Section RawEventStates.
Context `{Win32}.

Lemma IsSpecialKey_keys p q vKey :
  s_specialKeys q = s_specialKeys p ->
  SpecialKeyHandler.IsSpecialKey q vKey = SpecialKeyHandler.IsSpecialKey p vKey /\
  SpecialKeyHandler.GetSpecialKeyIndex q vKey =
    SpecialKeyHandler.GetSpecialKeyIndex p vKey.
Proof.
  intros Hk.
  unfold SpecialKeyHandler.IsSpecialKey, SpecialKeyHandler.GetSpecialKeyIndex.
  by rewrite Hk.
Qed.

Lemma StoreEvent_states timestamp cursorPos kbData p :
  s_specialKeyStates (snd (StoreEvent timestamp cursorPos kbData p)) =
    s_specialKeyStates p /\
  s_specialKeys (snd (StoreEvent timestamp cursorPos kbData p)) = s_specialKeys p.
Proof.
  rewrite StoreEvent_eq, LogKeyboardEvent_eq. simpl.
  by destruct (EventLogger_s_initialized p).
Qed.

(** The states of the monitored keys after [ProcessRawInput]. *)
Lemma ProcessRawInput_states kb timestamp cursorPos p :
  length (s_specialKeyStates p) = length (s_specialKeys p) ->
  let isKeyUp := negb (Z.land (Flags kb) RI_KEY_BREAK =? 0) in
  s_specialKeyStates (snd (ProcessRawInput kb timestamp cursorPos p)) =
    if is_escape_down kb then s_specialKeyStates p
    else if SpecialKeyHandler.IsSpecialKey p (VKey kb) then
      alter (after_key_event isKeyUp timestamp cursorPos)
        (Z.to_nat (SpecialKeyHandler.GetSpecialKeyIndex p (VKey kb)))
        (s_specialKeyStates p)
    else if isKeyUp then s_specialKeyStates p
    else mark_intervening <$> s_specialKeyStates p.
Proof.
  intros Hlen. cbv zeta. unfold ProcessRawInput, is_escape_down.
  set (isKeyUp := negb (Z.land (Flags kb) RI_KEY_BREAK =? 0)).
  replace (Z.land (Flags kb) RI_KEY_BREAK =? 0) with (negb isKeyUp)
    by (unfold isKeyUp; by rewrite negb_involutive).
  clearbody isKeyUp.
  unfold mbind at 1. unfold M_bind at 1.
  match goal with |- context [StoreEvent ?a ?b ?c p] =>
    destruct (StoreEvent_states a b c p) as [Hs1 Hk1];
    destruct (StoreEvent a b c p) as [[] p1] end.
  simpl in Hs1, Hk1.
  destruct ((VKey kb =? VK_ESCAPE) && negb isKeyUp) eqn:Hesc.
  { unfold mbind, M_bind, print, emit, modify. simpl. done. }
  unfold mbind at 1. unfold M_bind at 1.
  match goal with |- context [when ?c ?m p1] =>
    assert (H2 : s_specialKeyStates (snd (when c m p1)) = s_specialKeyStates p1 /\
                 s_specialKeys (snd (when c m p1)) = s_specialKeys p1);
    [|destruct (when c m p1) as [[] p2]] end.
  { destruct (negb isKeyUp); [|done]. cbn [when].
    destruct (negb _); [|done].
    destruct (HideSuggestion_silent p1) as ((Hc & _) & Hs & _).
    split; [done|]. apply Hc. }
  simpl in H2. destruct H2 as [Hs2 Hk2].
  unfold mbind at 1. unfold M_bind at 1.
  match goal with |- context [SpecialKeyHandler.ProcessSpecialKeyEvent ?a ?b ?c ?d ?e p2] =>
    destruct (ProcessSpecialKeyEvent_spec a b c d e p2) as ((Hc3 & _) & Hf3 & Hs3 & _);
    destruct (SpecialKeyHandler.ProcessSpecialKeyEvent a b c d e p2) as [hook p3] end.
  simpl in Hc3, Hf3, Hs3.
  assert (Hk3 : s_specialKeys p3 = s_specialKeys p2) by apply Hc3.
  destruct (IsSpecialKey_keys p p2 (VKey kb)) as [Hi Hg]; [congruence|].
  rewrite Hi, Hg in *. subst hook.
  unfold mbind at 1. unfold M_bind at 1.
  destruct (SpecialKeyHandler.IsSpecialKey p (VKey kb)); cbn [negb andb when].
  - unfold skip, mret, M_ret. simpl. congruence.
  - destruct isKeyUp; cbn [negb when].
    + unfold skip, mret, M_ret, mbind, M_bind, gets, print, emit. simpl. congruence.
    + destruct (NotifyRegularKeyPressed_spec (VKey kb) p3) as (_ & _ & Hs4);
        [congruence|].
      destruct (SpecialKeyHandler.NotifyRegularKeyPressed (VKey kb) p3) as [[] p4].
      simpl in Hs4.
      unfold mbind, M_bind, gets, print, emit. simpl. congruence.
Qed.

(** [ProcessRawInput] keeps the two vectors of the handler in parallel. *)
Lemma ProcessRawInput_lengths kb timestamp cursorPos p :
  length (s_specialKeyStates p) = length (s_specialKeys p) ->
  length (s_specialKeyStates (snd (ProcessRawInput kb timestamp cursorPos p))) =
    length (s_specialKeys (snd (ProcessRawInput kb timestamp cursorPos p))).
Proof.
  intros Hlen.
  pose proof (ProcessRawInput_states kb timestamp cursorPos p Hlen) as Hs.
  destruct (ProcessRawInput_summary kb timestamp cursorPos p)
    as (_ & _ & _ & _ & _ & Hk & _).
  cbv zeta in Hs, Hk. rewrite Hs, Hk.
  repeat case_match; by rewrite ?length_alter, ?length_fmap.
Qed.
End RawEventStates.

(** ** main.cpp: the mouse branch and the message loop *)

Section MessageLoop.
Context `{Win32}.

(** The mouse branch of [ProcessRawInput], in one equation: a button event
    is stored, logged and printed, and nothing else changes. *)
Lemma ProcessRawMouse_eq mouse timestamp cursorPos p :
  snd (ProcessRawMouse mouse timestamp cursorPos p) =
  match mouse_button mouse with
  | Some type =>
      with_world
        (world p ++
         (if EventLogger_s_initialized p then
            if LogFileOpens (world p)
            then option_list (LogAppend <$> logged_mouse_line mouse timestamp cursorPos)
            else [Console ERROR_Could_not_write_to_log_file]
          else [Console ERROR_EventLogger_not_initialized]) ++
         [Console (MOUSE_line timestamp type (lLastX mouse) (lLastY mouse) cursorPos)])
        (with_globals (g_running p)
           (g_eventHistory p ++
            option_list (stored_event (RIM_TYPEMOUSE mouse, timestamp, cursorPos))) p)
  | None => p
  end.
Proof.
  unfold ProcessRawMouse, stored_event, logged_mouse_line, mouse_button.
  repeat match goal with |- context [negb (Z.land ?f ?b =? 0)] =>
    destruct (negb (Z.land f b =? 0)) end; [..|done].
  all: unfold StoreEvent_mouse, EventLogger.LogMouseButtonEvent,
         EventLogger.WriteLogEntry.
  all: unfold mbind, M_bind, print, emit, modify, gets, skip, mret, M_ret.
  all: cbn [eventType fst snd mouse_action option_ret option_bind].
  all: destruct p; simpl.
  all: match goal with |- context [if negb ?i then _ else _] => destruct i end;
    simpl; [|by rewrite <- app_assoc].
  all: match goal with |- context [LogFileOpens ?w] => destruct (LogFileOpens w) end;
    simpl; by rewrite <- app_assoc.
Qed.

(** What [ProcessRawInput] does with one raw input, of any device. *)
Lemma ProcessRawInputData_summary raw timestamp cursorPos p :
  let input := (raw, timestamp, cursorPos) in
  let p' := snd (ProcessRawInputData raw timestamp cursorPos p) in
  g_eventHistory p' = g_eventHistory p ++ option_list (stored_event input) /\
  g_running p' = g_running p && negb (is_escape_input input) /\
  EventLogger_s_initialized p' = EventLogger_s_initialized p /\
  (exists effects,
     world p' = world p ++ effects /\
     (EventLogger_s_initialized p = true -> LogFileOpens (world p) = true ->
      line_key <$> log_lines effects = option_list (event_key input))) /\
  (is_ctrl_up input = false ->
   s_pendingSuggestion p' = s_pendingSuggestion p /\
   s_hasPendingSuggestion p' = s_hasPendingSuggestion p).
Proof.
  cbv zeta. destruct raw as [kb|mouse|]; cbn [ProcessRawInputData].
  - destruct (ProcessRawInput_summary kb timestamp cursorPos p)
      as (Hh & Hr & Hi & _ & _ & _ & (e & Hw & Hl) & Hp).
    cbv zeta in *. split_and!; try done.
    + exists e. split; [done|]. intros Hinit Hopen.
      by rewrite Hl, Hinit, Hopen.
    + unfold is_ctrl_up. cbn [fst]. intros Hc. apply Hp.
      apply andb_false_iff in Hc as [Hup|Hvk].
      * left. by apply negb_false_iff in Hup as ->.
      * right. by apply Z.eqb_neq.
  - rewrite ProcessRawMouse_eq. unfold is_escape_input, event_key. cbn [fst].
    rewrite andb_true_r. unfold stored_event, logged_mouse_line.
    destruct (mouse_button mouse) as [type|]; cbn [option_bind mbind].
    2: { split_and!; try done; [by rewrite app_nil_r|].
         exists []. by rewrite app_nil_r. }
    cbn [g_eventHistory g_running with_world with_globals world
         EventLogger_s_initialized s_pendingSuggestion s_hasPendingSuggestion].
    split_and!; try done.
    eexists. split; [reflexivity|]. intros -> ->.
    rewrite log_lines_app, app_nil_r.
    by destruct type.
  - unfold skip, mret, M_ret. cbn [snd]. unfold is_escape_input. cbn [fst].
    rewrite andb_true_r. split_and!; try done; [by rewrite app_nil_r|].
    exists []. by rewrite app_nil_r.
Qed.

(** A raw input that is not a keyboard event changes nothing of the
    special keys. *)
Lemma ProcessRawInputData_other_keys raw timestamp cursorPos p :
  (forall kb, raw <> RIM_TYPEKEYBOARD kb) ->
  s_specialKeys (snd (ProcessRawInputData raw timestamp cursorPos p)) =
    s_specialKeys p /\
  s_specialKeyStates (snd (ProcessRawInputData raw timestamp cursorPos p)) =
    s_specialKeyStates p.
Proof.
  intros Hraw. destruct raw as [kb|mouse|]; cbn [ProcessRawInputData].
  - by destruct (Hraw kb).
  - rewrite ProcessRawMouse_eq. by destruct (mouse_button mouse).
  - done.
Qed.

Lemma message_loop_stopped inputs p :
  g_running p = false -> message_loop inputs p = (tt, p).
Proof.
  intros Hr. destruct inputs as [|[[raw timestamp] cursorPos] rest]; [done|].
  simpl. unfold mbind, M_bind, gets. by rewrite Hr.
Qed.

Lemma message_loop_cons raw timestamp cursorPos rest p :
  g_running p = true ->
  snd (message_loop ((raw, timestamp, cursorPos) :: rest) p) =
  snd (message_loop rest (snd (ProcessRawInputData raw timestamp cursorPos p))).
Proof.
  intros Hr. simpl. unfold mbind at 1. unfold M_bind at 1. unfold gets.
  rewrite Hr. unfold mbind, M_bind.
  by destruct (ProcessRawInputData raw timestamp cursorPos p) as [[] p1].
Qed.

(** A property of the process that [ProcessRawInput] keeps holds at the end
    of the loop when it holds at the start. *)
Lemma message_loop_preserves (P : Process -> Prop) :
  (forall raw timestamp cursorPos p,
     P p -> P (snd (ProcessRawInputData raw timestamp cursorPos p))) ->
  forall inputs p, P p -> P (snd (message_loop inputs p)).
Proof.
  intros Hstep inputs.
  induction inputs as [|[[raw timestamp] cursorPos] rest IH]; intros p HP; [done|].
  destruct (g_running p) eqn:Hr.
  - rewrite message_loop_cons by done. by apply IH, Hstep.
  - by rewrite message_loop_stopped.
Qed.


End MessageLoop.

Section RawInputProperties.
Context `{Win32}.

(** X11.  The state machine of the monitored keys, for one raw keyboard
    event.  The key-down of Escape changes no state.  Otherwise an event of
    a monitored key changes the state of that key alone: the key-down
    starts a press at the timestamp and cursor position of the event, the
    key-up ends it, and both clear [hadInterveningKeys], whatever the
    handler of the gesture does.  The key-down of any other key marks every
    pressed key; its key-up changes nothing. *)
Theorem raw_input_key_states kb timestamp cursorPos p :
  length (s_specialKeyStates p) = length (s_specialKeys p) ->
  s_specialKeyStates (snd (ProcessRawInput kb timestamp cursorPos p)) =
    if is_escape_down kb then s_specialKeyStates p
    else if bool_decide (VKey kb ∈ s_specialKeys p) then
      alter (after_key_event (negb (Z.land (Flags kb) RI_KEY_BREAK =? 0))
               timestamp cursorPos)
        (Z.to_nat (SpecialKeyHandler.GetSpecialKeyIndex p (VKey kb)))
        (s_specialKeyStates p)
    else if negb (Z.land (Flags kb) RI_KEY_BREAK =? 0) then s_specialKeyStates p
    else mark_intervening <$> s_specialKeyStates p.
Proof.
  intros Hlen. rewrite <- IsSpecialKey_elem.
  exact (ProcessRawInput_states kb timestamp cursorPos p Hlen).
Qed.

(** X12.  What one raw keyboard event adds to the log file.  With the
    logger initialised and the file opening, [ProcessRawInput] appends
    exactly one line, for this event, whose character is read under the
    modifiers as the event leaves them; otherwise it appends none.  An
    uninitialised logger does not follow Shift and Caps Lock; a logger whose
    file does not open still does. *)
Theorem raw_input_log_line kb timestamp cursorPos p :
  let isKeyUp := negb (Z.land (Flags kb) RI_KEY_BREAK =? 0) in
  let p' := snd (ProcessRawInput kb timestamp cursorPos p) in
  log_lines (emitted p p') =
    (if EventLogger_s_initialized p && LogFileOpens (world p)
     then [KeyboardLine (logged_line timestamp (VKey kb) isKeyUp p)] else []) /\
  EventLogger_s_shiftPressed p' =
    (if EventLogger_s_initialized p
     then shift_after (VKey kb) isKeyUp (EventLogger_s_shiftPressed p)
     else EventLogger_s_shiftPressed p) /\
  EventLogger_s_capsLockOn p' =
    (if EventLogger_s_initialized p
     then caps_after (VKey kb) isKeyUp (EventLogger_s_capsLockOn p)
     else EventLogger_s_capsLockOn p).
Proof.
  destruct (ProcessRawInput_summary kb timestamp cursorPos p)
    as (_ & _ & _ & Hs & Hc & _ & (e & Hw & Hl) & _).
  cbv zeta in *. split_and!; [|done|done].
  unfold emitted. by rewrite Hw, drop_app_length.
Qed.



(** X15.  The pending suggestion and its flag change only at a key-up of
    Ctrl: a run of the message loop over inputs without one leaves both as
    they were, whatever else is typed or clicked. *)
Theorem pending_suggestion_changes_only_at_ctrl_up inputs p :
  forallb (fun input => negb (is_ctrl_up input)) inputs = true ->
  s_pendingSuggestion (snd (message_loop inputs p)) = s_pendingSuggestion p /\
  s_hasPendingSuggestion (snd (message_loop inputs p)) = s_hasPendingSuggestion p.
Proof.
  revert p. induction inputs as [|[[raw timestamp] cursorPos] rest IH];
    intros p Hall; [done|].
  destruct (g_running p) eqn:Hr; [|by rewrite message_loop_stopped].
  rewrite message_loop_cons by done.
  cbn [forallb] in Hall. apply andb_true_iff in Hall as [Hraw Hall].
  destruct (IH (snd (ProcessRawInputData raw timestamp cursorPos p)) Hall)
    as [-> ->].
  destruct (ProcessRawInputData_summary raw timestamp cursorPos p)
    as (_ & _ & _ & _ & Hp).
  apply Hp. by apply negb_true_iff.
Qed.

Lemma ProcessRawInput_had_implies_pressed kb timestamp cursorPos p :
  keys_wf p /\ had_implies_pressed p ->
  keys_wf (snd (ProcessRawInput kb timestamp cursorPos p)) /\
  had_implies_pressed (snd (ProcessRawInput kb timestamp cursorPos p)).
Proof.
  intros [[Hnd Hlen] Hhad]. unfold keys_wf, had_implies_pressed in *.
  pose proof (ProcessRawInput_lengths kb timestamp cursorPos p Hlen) as Hlen'.
  pose proof (ProcessRawInput_states kb timestamp cursorPos p Hlen) as Hs.
  destruct (ProcessRawInput_summary kb timestamp cursorPos p)
    as (_ & _ & _ & _ & _ & Hk & _).
  cbv zeta in Hs, Hk. split; [split; [by rewrite Hk | done]|].
  rewrite Hs. repeat case_match; try done.
  - apply Forall_alter; [done|]. intros keyState _ _.
    unfold after_key_event. by case_match.
  - apply Forall_fmap. eapply Forall_impl; [exact Hhad|].
    intros keyState Himp Hh. simpl in Himp. unfold mark_intervening in *.
    destruct (isPressed keyState) eqn:Hp; rewrite ?Hp in *; simpl in *; auto.
Qed.

(** X16.  Along the message loop [hadInterveningKeys] is set only in the
    state of a key that is pressed, and the two vectors of the handler stay
    in parallel: no release can be suppressed on account of an earlier
    press. *)
Theorem message_loop_had_implies_pressed inputs p :
  keys_wf p -> had_implies_pressed p ->
  keys_wf (snd (message_loop inputs p)) /\
  had_implies_pressed (snd (message_loop inputs p)).
Proof.
  intros Hwf Hhad.
  apply (message_loop_preserves (fun q => keys_wf q /\ had_implies_pressed q));
    [|done].
  intros raw timestamp cursorPos q Hq.
  destruct raw as [kb|mouse|].
  - by apply ProcessRawInput_had_implies_pressed.
  - destruct (ProcessRawInputData_other_keys (RIM_TYPEMOUSE mouse) timestamp
                cursorPos q) as [Hk Hs]; [done|].
    unfold keys_wf, had_implies_pressed in *. by rewrite Hk, Hs.
  - done.
Qed.
End RawInputProperties.

Lemma raw_input_key_states_witness :
  s_specialKeyStates
    (snd (@ProcessRawInput (platform "Hi") (key_down 0x41) 2 origin
            (@ctrl_held (platform "Hi")))) =
  mark_intervening <$> s_specialKeyStates (@ctrl_held (platform "Hi")).
Proof.
  apply (@raw_input_key_states (platform "Hi") (key_down 0x41) 2 origin
           (@ctrl_held (platform "Hi"))).
  reflexivity.
Defined.



Lemma pending_suggestion_changes_only_at_ctrl_up_witness :
  s_pendingSuggestion
    (snd (@message_loop (platform "Hi")
            [(RIM_TYPEKEYBOARD (key_down VK_SHIFT), 3, origin);
             (RIM_TYPEMOUSE left_click, 4, origin);
             (RIM_TYPEKEYBOARD (key_up VK_SHIFT), 5, origin)]
            (@suggested (platform "Hi")))) =
    s_pendingSuggestion (@suggested (platform "Hi")) /\
  s_hasPendingSuggestion
    (snd (@message_loop (platform "Hi")
            [(RIM_TYPEKEYBOARD (key_down VK_SHIFT), 3, origin);
             (RIM_TYPEMOUSE left_click, 4, origin);
             (RIM_TYPEKEYBOARD (key_up VK_SHIFT), 5, origin)]
            (@suggested (platform "Hi")))) =
    s_hasPendingSuggestion (@suggested (platform "Hi")).
Proof.
  apply (@pending_suggestion_changes_only_at_ctrl_up (platform "Hi")
           [(RIM_TYPEKEYBOARD (key_down VK_SHIFT), 3, origin);
            (RIM_TYPEMOUSE left_click, 4, origin);
            (RIM_TYPEKEYBOARD (key_up VK_SHIFT), 5, origin)]
           (@suggested (platform "Hi"))).
  reflexivity.
Defined.

Lemma message_loop_had_implies_pressed_witness :
  keys_wf
    (snd (@message_loop (platform "Hi")
            [(RIM_TYPEKEYBOARD (key_down VK_CONTROL), 1, origin);
             (RIM_TYPEMOUSE left_click, 2, origin);
             (RIM_TYPEKEYBOARD (key_down 0x41), 3, origin)]
            (@started (platform "Hi")))) /\
  had_implies_pressed
    (snd (@message_loop (platform "Hi")
            [(RIM_TYPEKEYBOARD (key_down VK_CONTROL), 1, origin);
             (RIM_TYPEMOUSE left_click, 2, origin);
             (RIM_TYPEKEYBOARD (key_down 0x41), 3, origin)]
            (@started (platform "Hi")))).
Proof.
  apply (@message_loop_had_implies_pressed (platform "Hi")
           [(RIM_TYPEKEYBOARD (key_down VK_CONTROL), 1, origin);
            (RIM_TYPEMOUSE left_click, 2, origin);
            (RIM_TYPEKEYBOARD (key_down 0x41), 3, origin)]
           (@started (platform "Hi"))).
  - split; [apply (bool_decide_unpack _); vm_compute; reflexivity | reflexivity].
  - unfold had_implies_pressed. vm_compute. repeat constructor; discriminate.
Defined.

(** ** special_keys.cpp: the list of monitored keys *)

Lemma index_from_spec keys vKey : forall i,
  if bool_decide (vKey ∈ keys) then
    i <= SpecialKeyHandler.index_from keys i vKey < i + Z.of_nat (length keys) /\
    keys !! Z.to_nat (SpecialKeyHandler.index_from keys i vKey - i) = Some vKey /\
    vKey ∉ take (Z.to_nat (SpecialKeyHandler.index_from keys i vKey - i)) keys
  else SpecialKeyHandler.index_from keys i vKey = -1.
Proof.
  induction keys as [|k rest IH]; intros i.
  - by rewrite bool_decide_eq_false_2 by apply not_elem_of_nil.
  - cbn [SpecialKeyHandler.index_from]. destruct (Z.eqb_spec k vKey) as [->|Hne].
    + rewrite bool_decide_eq_true_2 by apply list_elem_of_here.
      rewrite Z.sub_diag. cbn [length]. split_and!; [lia|lia|done|].
      simpl. apply not_elem_of_nil.
    + specialize (IH (i + 1)). case_bool_decide as Hin.
      * rewrite bool_decide_eq_true_2 by by apply list_elem_of_further.
        destruct IH as (Hr & Hl & Ht). cbn [length].
        replace (Z.to_nat (SpecialKeyHandler.index_from rest (i + 1) vKey - i))
          with (S (Z.to_nat (SpecialKeyHandler.index_from rest (i + 1) vKey - (i + 1))))
          by lia.
        split_and!; [lia|lia|done|].
        cbn [take]. apply not_elem_of_cons. split; [congruence|done].
      * rewrite bool_decide_eq_false_2; [done|].
        intros [?|?]%elem_of_cons; [congruence|done].
Qed.

(** X17.  [GetSpecialKeyIndex] returns the index of the first occurrence of
    the key in [s_specialKeys], which is an index of the vector, and -1
    exactly when the key is not in it. *)
Theorem GetSpecialKeyIndex_first_occurrence p vKey :
  if bool_decide (vKey ∈ s_specialKeys p) then
    0 <= SpecialKeyHandler.GetSpecialKeyIndex p vKey
      < Z.of_nat (length (s_specialKeys p)) /\
    s_specialKeys p !! Z.to_nat (SpecialKeyHandler.GetSpecialKeyIndex p vKey)
      = Some vKey /\
    vKey ∉ take (Z.to_nat (SpecialKeyHandler.GetSpecialKeyIndex p vKey))
             (s_specialKeys p)
  else SpecialKeyHandler.GetSpecialKeyIndex p vKey = -1.
Proof.
  unfold SpecialKeyHandler.GetSpecialKeyIndex.
  pose proof (index_from_spec (s_specialKeys p) vKey 0) as Hspec.
  case_bool_decide; [|done].
  by rewrite Z.sub_0_r, Z.add_0_l in Hspec.
Qed.

Lemma GetSpecialKeyIndex_lookup p vKey :
  vKey ∈ s_specialKeys p ->
  0 <= SpecialKeyHandler.GetSpecialKeyIndex p vKey
    < Z.of_nat (length (s_specialKeys p)) /\
  s_specialKeys p !! Z.to_nat (SpecialKeyHandler.GetSpecialKeyIndex p vKey)
    = Some vKey.
Proof.
  intros Hin. unfold SpecialKeyHandler.GetSpecialKeyIndex.
  pose proof (index_from_spec (s_specialKeys p) vKey 0) as Hspec.
  rewrite bool_decide_eq_true_2 in Hspec by done.
  rewrite Z.sub_0_r, Z.add_0_l in Hspec. by destruct Hspec as (? & ? & _).
Qed.

Lemma index_from_app keys vKey more : forall i,
  vKey ∈ keys ->
  SpecialKeyHandler.index_from (keys ++ more) i vKey =
    SpecialKeyHandler.index_from keys i vKey.
Proof.
  induction keys as [|k rest IH]; intros i Hin.
  - by apply elem_of_nil in Hin.
  - simpl. destruct (Z.eqb_spec k vKey); [done|].
    apply IH. apply elem_of_cons in Hin as [?|?]; [congruence|done].
Qed.

Lemma index_from_app_new keys vKey : forall i,
  vKey ∉ keys ->
  SpecialKeyHandler.index_from (keys ++ [vKey]) i vKey = i + Z.of_nat (length keys).
Proof.
  induction keys as [|k rest IH]; intros i Hin.
  - simpl. rewrite Z.eqb_refl. lia.
  - apply not_elem_of_cons in Hin as [Hne Hin]. simpl.
    destruct (Z.eqb_spec k vKey); [congruence|]. rewrite IH by done. lia.
Qed.

(** X18.  [AddSpecialKey] keeps every monitored key at its index and with
    its state, pressed or not; a key that it adds gets the index after the
    last one and the state of a key that is not pressed. *)
Theorem AddSpecialKey_keeps_monitored_keys vKey k p :
  keys_wf p ->
  let p' := snd (SpecialKeyHandler.AddSpecialKey vKey p) in
  (k ∈ s_specialKeys p ->
   SpecialKeyHandler.GetSpecialKeyIndex p' k = SpecialKeyHandler.GetSpecialKeyIndex p k /\
   SpecialKeyHandler.state_at p' (Z.to_nat (SpecialKeyHandler.GetSpecialKeyIndex p' k)) =
     SpecialKeyHandler.state_at p (Z.to_nat (SpecialKeyHandler.GetSpecialKeyIndex p k))) /\
  (vKey ∉ s_specialKeys p ->
   SpecialKeyHandler.GetSpecialKeyIndex p' vKey = Z.of_nat (length (s_specialKeys p)) /\
   SpecialKeyHandler.state_at p' (Z.to_nat (SpecialKeyHandler.GetSpecialKeyIndex p' vKey)) =
     SpecialKeyState_new).
Proof.
  intros [Hnd Hlen]. cbv zeta. rewrite AddSpecialKey_eq, IsSpecialKey_elem.
  cbn [snd]. split.
  - intros Hk. case_bool_decide; [done|].
    unfold SpecialKeyHandler.GetSpecialKeyIndex, SpecialKeyHandler.state_at.
    cbn [s_specialKeys s_specialKeyStates with_specialKeys].
    destruct (GetSpecialKeyIndex_lookup p k Hk) as [Hr _].
    unfold SpecialKeyHandler.GetSpecialKeyIndex in Hr.
    rewrite index_from_app by done. split; [done|].
    rewrite lookup_app_l by lia. done.
  - intros Hv. rewrite bool_decide_eq_false_2 by done.
    unfold SpecialKeyHandler.GetSpecialKeyIndex, SpecialKeyHandler.state_at.
    cbn [s_specialKeys s_specialKeyStates with_specialKeys].
    rewrite index_from_app_new by done. rewrite Z.add_0_l, Nat2Z.id.
    split; [done|]. rewrite <- Hlen.
    rewrite lookup_app_r by lia. by rewrite Nat.sub_diag.
Qed.

Lemma AddSpecialKey_keeps_monitored_keys_witness :
  (VK_SHIFT ∈ s_specialKeys (@ctrl_held (platform "Hi")) ->
   SpecialKeyHandler.GetSpecialKeyIndex
     (snd (SpecialKeyHandler.AddSpecialKey VK_TAB (@ctrl_held (platform "Hi")))) VK_SHIFT =
   SpecialKeyHandler.GetSpecialKeyIndex (@ctrl_held (platform "Hi")) VK_SHIFT /\
   SpecialKeyHandler.state_at
     (snd (SpecialKeyHandler.AddSpecialKey VK_TAB (@ctrl_held (platform "Hi"))))
     (Z.to_nat (SpecialKeyHandler.GetSpecialKeyIndex
        (snd (SpecialKeyHandler.AddSpecialKey VK_TAB (@ctrl_held (platform "Hi")))) VK_SHIFT)) =
   SpecialKeyHandler.state_at (@ctrl_held (platform "Hi"))
     (Z.to_nat (SpecialKeyHandler.GetSpecialKeyIndex (@ctrl_held (platform "Hi")) VK_SHIFT))) /\
  (VK_TAB ∉ s_specialKeys (@ctrl_held (platform "Hi")) ->
   SpecialKeyHandler.GetSpecialKeyIndex
     (snd (SpecialKeyHandler.AddSpecialKey VK_TAB (@ctrl_held (platform "Hi")))) VK_TAB =
   Z.of_nat (length (s_specialKeys (@ctrl_held (platform "Hi")))) /\
   SpecialKeyHandler.state_at
     (snd (SpecialKeyHandler.AddSpecialKey VK_TAB (@ctrl_held (platform "Hi"))))
     (Z.to_nat (SpecialKeyHandler.GetSpecialKeyIndex
        (snd (SpecialKeyHandler.AddSpecialKey VK_TAB (@ctrl_held (platform "Hi")))) VK_TAB)) =
   SpecialKeyState_new).
Proof.
  apply (AddSpecialKey_keeps_monitored_keys VK_TAB VK_SHIFT (@ctrl_held (platform "Hi"))).
  split; [apply (bool_decide_unpack _); vm_compute; reflexivity | reflexivity].
Defined.

(** ** special_keys.cpp and suggestion_overlay.cpp: the suggestion *)

Section Suggestion.
Context `{Win32}.

Lemma ShowSuggestion_eq suggestion p :
  snd (SuggestionOverlay.ShowSuggestion suggestion p) =
  if overlay_ready p then
    with_world (world p ++ [Console (OVERLAY_Showing_suggestion suggestion)])
      (with_SuggestionOverlay (Some true) (SuggestionOverlay_s_initialized p)
         suggestion p)
  else p.
Proof.
  unfold SuggestionOverlay.ShowSuggestion, overlay_ready.
  unfold mbind, M_bind, print, emit, modify, gets, skip, mret, M_ret.
  destruct (SuggestionOverlay_s_initialized p); [|done].
  by destruct (bool_decide _).
Qed.

Lemma HideSuggestion_eq p :
  snd (SuggestionOverlay.HideSuggestion p) =
  if overlay_ready p then
    with_world (world p ++ [Console OVERLAY_Suggestion_hidden])
      (with_SuggestionOverlay (Some false) (SuggestionOverlay_s_initialized p)
         EmptyString p)
  else p.
Proof.
  unfold SuggestionOverlay.HideSuggestion, overlay_ready.
  unfold mbind, M_bind, print, emit, modify, gets, skip, mret, M_ret.
  destruct (SuggestionOverlay_s_initialized p); [|done].
  by destruct (bool_decide _).
Qed.

(** X19.  The overlay shows a suggestion exactly when it is initialised and
    has a window, and [HideSuggestion] undoes [ShowSuggestion]: after the
    two calls the window is as [HideSuggestion] alone leaves it, and
    nothing is on screen in a state of the program ([overlay_wf]).  After
    [Cleanup] neither call does anything. *)
Theorem ShowSuggestion_then_HideSuggestion suggestion p :
  overlay_wf p ->
  let shown := snd (SuggestionOverlay.ShowSuggestion suggestion p) in
  let hidden := snd (SuggestionOverlay.HideSuggestion shown) in
  overlay_displayed shown = overlay_ready p /\
  SuggestionOverlay_s_currentSuggestion shown =
    (if overlay_ready p then suggestion else SuggestionOverlay_s_currentSuggestion p) /\
  overlay_displayed hidden = false /\
  SuggestionOverlay_s_overlayWindow hidden =
    SuggestionOverlay_s_overlayWindow (snd (SuggestionOverlay.HideSuggestion p)) /\
  SuggestionOverlay_s_currentSuggestion hidden =
    SuggestionOverlay_s_currentSuggestion (snd (SuggestionOverlay.HideSuggestion p)) /\
  SuggestionOverlay.ShowSuggestion suggestion (snd (SuggestionOverlay.Cleanup p)) =
    (tt, snd (SuggestionOverlay.Cleanup p)) /\
  SuggestionOverlay.HideSuggestion (snd (SuggestionOverlay.Cleanup p)) =
    (tt, snd (SuggestionOverlay.Cleanup p)).
Proof.
  intros Hwf. cbv zeta.
  rewrite (HideSuggestion_eq (snd _)), !ShowSuggestion_eq, HideSuggestion_eq.
  unfold overlay_wf, overlay_ready, overlay_displayed in *.
  split_and!; try done.
  all: destruct (SuggestionOverlay_s_initialized p) eqn:Hi;
    destruct (SuggestionOverlay_s_overlayWindow p) as [w|] eqn:Hw;
    simpl; rewrite ?Hi, ?Hw; simpl; rewrite ?Hi, ?Hw; simpl; try done.
  all: by destruct Hwf.
Qed.

(** [OnLeftCtrlPressed], by the completion that the generator gives. *)
Lemma OnLeftCtrlPressed_cases pressTime releaseTime pressPos releasePos p :
  let run := RunGenerator (world p ++ [Console AI_Generating_input_completion]) in
  let p' := snd (SpecialKeyHandler.OnLeftCtrlPressed pressTime releaseTime
                   pressPos releasePos p) in
  match completion run with
  | Some outputLine =>
      s_pendingSuggestion p' = outputLine /\
      s_hasPendingSuggestion p' = true /\
      SuggestionOverlay_s_overlayWindow p' =
        (if overlay_ready p then Some true else SuggestionOverlay_s_overlayWindow p) /\
      SuggestionOverlay_s_currentSuggestion p' =
        (if overlay_ready p then outputLine
         else SuggestionOverlay_s_currentSuggestion p)
  | None =>
      s_pendingSuggestion p' = s_pendingSuggestion p /\
      s_hasPendingSuggestion p' = false /\
      SuggestionOverlay_s_overlayWindow p' = SuggestionOverlay_s_overlayWindow p /\
      SuggestionOverlay_s_currentSuggestion p' = SuggestionOverlay_s_currentSuggestion p
  end /\
  InputInjector_s_initialized p' = InputInjector_s_initialized p /\
  SuggestionOverlay_s_initialized p' = SuggestionOverlay_s_initialized p /\
  key_events (emitted p p') = [].
Proof.
  cbv zeta. unfold SpecialKeyHandler.OnLeftCtrlPressed, completion.
  unfold mbind, M_bind, print, emit, modify, gets. cbn [fst snd world with_world].
  set (run := RunGenerator (world p ++ [Console AI_Generating_input_completion])).
  destruct (exit_code run =? 0); cbn [andb].
  2: { simpl. split_and!; try done.
       unfold emitted. simpl. by rewrite <- !app_assoc, drop_app_length. }
  destruct (output_opened run).
  2: { simpl. split_and!; try done.
       unfold emitted. simpl. by rewrite <- !app_assoc, drop_app_length. }
  destruct (output_line run) as [outputLine|].
  2: { simpl. split_and!; try done.
       unfold emitted. simpl. by rewrite <- !app_assoc, drop_app_length. }
  destruct (string_empty outputLine); cbn [negb].
  { simpl. split_and!; try done.
    unfold emitted. simpl. by rewrite <- !app_assoc, drop_app_length. }
  unfold mbind, M_bind, print, emit, modify, gets. cbn [fst snd].
  match goal with |- context [SuggestionOverlay.ShowSuggestion ?s ?q] =>
    pose proof (ShowSuggestion_eq s q) as Hshow;
    destruct (SuggestionOverlay.ShowSuggestion s q) as [[] p1] end.
  cbn [snd] in Hshow. subst p1. unfold overlay_ready. simpl.
  destruct (SuggestionOverlay_s_initialized p) eqn:Hi;
    destruct (bool_decide (is_Some (SuggestionOverlay_s_overlayWindow p)));
    simpl; rewrite ?Hi; split_and!; try done.
  all: unfold emitted; simpl; by rewrite <- !app_assoc, drop_app_length.
Qed.

(** X20.  What [OnLeftCtrlPressed] leaves behind.  A completion is pending
    afterwards exactly when the generator exited with 0 and the first line
    of its output was read and is not empty; it is then shown, if the
    overlay can show it.  In every other case only the flag is cleared: the
    text of an earlier suggestion stays in [s_pendingSuggestion], and an
    overlay that shows an earlier suggestion stays on screen.  No key is
    injected. *)
Theorem OnLeftCtrlPressed_outcome pressTime releaseTime pressPos releasePos p :
  let run := RunGenerator (world p ++ [Console AI_Generating_input_completion]) in
  let p' := snd (SpecialKeyHandler.OnLeftCtrlPressed pressTime releaseTime
                   pressPos releasePos p) in
  match completion run with
  | Some outputLine =>
      s_pendingSuggestion p' = outputLine /\
      has_pending p' = true /\
      overlay_displayed p' = (overlay_ready p || overlay_displayed p) /\
      SuggestionOverlay_s_currentSuggestion p' =
        (if overlay_ready p then outputLine
         else SuggestionOverlay_s_currentSuggestion p)
  | None =>
      s_pendingSuggestion p' = s_pendingSuggestion p /\
      has_pending p' = false /\
      overlay_displayed p' = overlay_displayed p /\
      SuggestionOverlay_s_currentSuggestion p' = SuggestionOverlay_s_currentSuggestion p
  end /\
  key_events (emitted p p') = [].
Proof.
  cbv zeta.
  destruct (OnLeftCtrlPressed_cases pressTime releaseTime pressPos releasePos p)
    as (Hc & _ & _ & Hk).
  cbv zeta in Hc, Hk. split; [|done].
  unfold has_pending, overlay_displayed.
  destruct (completion _) as [outputLine|] eqn:Hcompl.
  - destruct Hc as (-> & -> & -> & ->). split_and!; try done.
    + unfold completion in Hcompl. repeat case_match; try done.
      injection Hcompl as <-. cbn [andb]. by apply negb_true_iff.
    + by destruct (overlay_ready p).
  - by destruct Hc as (-> & -> & -> & ->).
Qed.

Lemma OnRightCtrlPressed_pending_keys pressTime releaseTime pressPos releasePos p :
  has_pending p = true ->
  s_hasPendingSuggestion
    (snd (SpecialKeyHandler.OnRightCtrlPressed pressTime releaseTime
            pressPos releasePos p)) = false /\
  key_events
    (emitted p (snd (SpecialKeyHandler.OnRightCtrlPressed pressTime releaseTime
                       pressPos releasePos p))) =
    (if InputInjector_s_initialized p then text_keys (s_pendingSuggestion p)
     else []).
Proof.
  unfold has_pending. intros Hp.
  unfold SpecialKeyHandler.OnRightCtrlPressed.
  unfold mbind, M_bind, print, emit, modify, gets. simpl.
  rewrite Hp. simpl.
  match goal with |- context [InputInjector.SendTextString ?t ?q] =>
    destruct (SendTextString_runs t q) as (success & e & Hr & Hk & _) end.
  rewrite Hr. simpl in Hk. simpl.
  unfold SuggestionOverlay.HideSuggestion, emitted.
  unfold mbind, M_bind, print, emit, modify, gets, skip, mret, M_ret.
  destruct success; simpl;
    destruct (SuggestionOverlay_s_initialized p);
    destruct (bool_decide (is_Some (SuggestionOverlay_s_overlayWindow p)));
    simpl; split; try reflexivity.
  all: rewrite <- !app_assoc, drop_app_length, !key_events_app, Hk; simpl.
  all: by rewrite app_nil_r.
Qed.

(** X21.  From the generator to the keyboard.  When the generator gives a
    completion, a press of Left Ctrl followed by a press of Right Ctrl
    hands to [SendInput] the key events of exactly that line, as
    [VkKeyScanA] maps it, and leaves no suggestion pending: a second press
    of Right Ctrl injects nothing. *)
Theorem generated_completion_is_typed
    pressTime releaseTime pressPos releasePos pressTime' releaseTime' pressPos'
    releasePos' pressTime'' releaseTime'' pressPos'' releasePos'' p outputLine :
  InputInjector_s_initialized p = true ->
  completion (RunGenerator (world p ++ [Console AI_Generating_input_completion]))
    = Some outputLine ->
  let p1 := snd (SpecialKeyHandler.OnLeftCtrlPressed pressTime releaseTime
                   pressPos releasePos p) in
  let p2 := snd (SpecialKeyHandler.OnRightCtrlPressed pressTime' releaseTime'
                   pressPos' releasePos' p1) in
  let p3 := snd (SpecialKeyHandler.OnRightCtrlPressed pressTime'' releaseTime''
                   pressPos'' releasePos'' p2) in
  key_events (emitted p p2) = text_keys outputLine /\
  key_events (emitted p2 p3) = [].
Proof.
  intros Hinit Hcompl. cbv zeta.
  destruct (OnLeftCtrlPressed_cases pressTime releaseTime pressPos releasePos p)
    as (Hc & Hi & _ & Hk).
  cbv zeta in Hc, Hi, Hk. rewrite Hcompl in Hc. destruct Hc as (Hp & Hh & _).
  set (p1 := snd (SpecialKeyHandler.OnLeftCtrlPressed pressTime releaseTime
                    pressPos releasePos p)) in *.
  assert (Hpend : has_pending p1 = true).
  { unfold has_pending. rewrite Hh, Hp. unfold completion in Hcompl.
    repeat case_match; try done. injection Hcompl as <-.
    cbn [andb]. by apply negb_true_iff. }
  destruct (OnRightCtrlPressed_pending_keys pressTime' releaseTime' pressPos'
              releasePos' p1 Hpend) as (Hh2 & Hk2).
  set (p2 := snd (SpecialKeyHandler.OnRightCtrlPressed pressTime' releaseTime'
                    pressPos' releasePos' p1)) in *.
  rewrite Hi, Hinit, Hp in Hk2.
  destruct (OnLeftCtrlPressed_silent pressTime releaseTime pressPos releasePos p)
    as ((_ & e1 & Hw1 & _) & _).
  destruct (OnRightCtrlPressed_silent pressTime' releaseTime' pressPos' releasePos' p1)
    as ((_ & e2 & Hw2 & _) & _).
  fold p1 in Hw1. fold p2 in Hw2. split.
  - unfold emitted in *. rewrite Hw2, Hw1 in *. rewrite <- app_assoc.
    rewrite drop_app_length in *. rewrite key_events_app, Hk, Hk2. done.
  - assert (Hnone : has_pending p2 = false).
    { unfold has_pending. by rewrite Hh2. }
    pose proof (OnRightCtrlPressed_no_pending_runs pressTime'' releaseTime''
                  pressPos'' releasePos'' p2 Hnone) as Hruns.
    apply runs_emitted in Hruns. by rewrite Hruns.
Qed.
End Suggestion.

Lemma ShowSuggestion_then_HideSuggestion_witness :
  overlay_displayed
    (snd (SuggestionOverlay.ShowSuggestion "Hi"
            (@started (platform "Hi")))) =
  overlay_ready (@started (platform "Hi")).
Proof.
  refine (proj1 (ShowSuggestion_then_HideSuggestion "Hi"
                   (@started (platform "Hi")) _)).
  left. reflexivity.
Defined.

Lemma generated_completion_is_typed_witness :
  key_events
    (emitted (@started (platform "Hi"))
       (snd (@SpecialKeyHandler.OnRightCtrlPressed (platform "Hi") 3 4 origin origin
               (snd (@SpecialKeyHandler.OnLeftCtrlPressed (platform "Hi") 1 2
                       origin origin (@started (platform "Hi"))))))) =
  @text_keys (platform "Hi") "Hi"%string.
Proof.
  refine (proj1 (@generated_completion_is_typed (platform "Hi")
                   1 2 origin origin 3 4 origin origin 5 6 origin origin
                   (@started (platform "Hi")) "Hi"%string _ _)).
  - reflexivity.
  - reflexivity.
Defined.

(** ** main.cpp and special_keys.cpp: a press, other keys, and the release *)

Section Gesture.
Context `{Win32}.

Lemma StoreEvent_world timestamp cursorPos kbData p :
  exists effects,
    world (snd (StoreEvent timestamp cursorPos kbData p)) = world p ++ effects /\
    quiet effects = true.
Proof.
  rewrite StoreEvent_eq, LogKeyboardEvent_eq. simpl.
  destruct (EventLogger_s_initialized p); [destruct (LogFileOpens _)|];
    by eexists.
Qed.

(** The key-up of a monitored key, through [ProcessRawInput]. *)
Lemma ProcessRawInput_release_world kb timestamp cursorPos p idx :
  SpecialKeyHandler.GetSpecialKeyIndex p (VKey kb) = Z.of_nat idx ->
  Z.land (Flags kb) RI_KEY_BREAK <> 0 ->
  exists effects,
    world (snd (ProcessRawInput kb timestamp cursorPos p)) = world p ++ effects /\
    fired_count effects =
      (if isPressed (SpecialKeyHandler.state_at p idx) &&
          negb (hadInterveningKeys (SpecialKeyHandler.state_at p idx))
       then 1 else 0)%nat /\
    suppressed_count effects =
      (if isPressed (SpecialKeyHandler.state_at p idx) &&
          hadInterveningKeys (SpecialKeyHandler.state_at p idx)
       then 1 else 0)%nat.
Proof.
  intros Hidx Hup. unfold ProcessRawInput.
  apply Z.eqb_neq in Hup. rewrite Hup. cbn [negb andb when].
  rewrite andb_false_r.
  unfold mbind at 1. unfold M_bind at 1.
  match goal with |- context [StoreEvent ?a ?b ?c p] =>
    destruct (StoreEvent_world a b c p) as (e1 & Hw1 & Hq1);
    destruct (StoreEvent_states a b c p) as [Hs1 Hk1];
    destruct (StoreEvent a b c p) as [[] p1] end.
  cbn [snd] in Hw1, Hs1, Hk1.
  unfold mbind at 1. unfold M_bind at 1. unfold skip at 1, mret, M_ret.
  unfold mbind at 1. unfold M_bind at 1.
  destruct (IsSpecialKey_keys p p1 (VKey kb) Hk1) as [Hi Hg].
  assert (Hstate : SpecialKeyHandler.state_at p1 idx = SpecialKeyHandler.state_at p idx).
  { unfold SpecialKeyHandler.state_at. by rewrite Hs1. }
  destruct (ProcessSpecialKeyEvent_release_world (VKey kb) (Flags kb) timestamp
              cursorPos p1 idx) as (e2 & Hw2 & Hf2 & Hs2); [congruence|].
  destruct (ProcessSpecialKeyEvent_spec (VKey kb) (Flags kb) true timestamp
              cursorPos p1) as (_ & Hhook & _).
  destruct (SpecialKeyHandler.ProcessSpecialKeyEvent (VKey kb) (Flags kb) true
              timestamp cursorPos p1) as [hook p2].
  cbn [fst snd] in Hw2, Hhook.
  assert (hook = true) as ->.
  { rewrite Hhook, Hi. unfold SpecialKeyHandler.IsSpecialKey. rewrite Hidx.
    apply Z.leb_le. lia. }
  cbn [negb andb when]. unfold mbind, M_bind, skip, mret, M_ret. cbn [snd].
  exists (e1 ++ e2). rewrite Hw2, Hw1, app_assoc. split; [done|].
  destruct (counts_app e1 e2) as [-> ->].
  destruct (quiet_counts e1 Hq1) as [-> ->].
  by rewrite Hf2, Hs2, Hstate.
Qed.

Lemma run_keys_cons kb timestamp cursorPos rest p :
  snd (run_keys ((kb, timestamp, cursorPos) :: rest) p) =
  snd (run_keys rest (snd (ProcessRawInput kb timestamp cursorPos p))).
Proof.
  unfold run_keys. simpl. unfold mbind, M_bind.
  by destruct (ProcessRawInput kb timestamp cursorPos p) as [[] p1].
Qed.

Lemma GetSpecialKeyIndex_inj p k1 k2 :
  k1 ∈ s_specialKeys p -> k2 ∈ s_specialKeys p ->
  SpecialKeyHandler.GetSpecialKeyIndex p k1 = SpecialKeyHandler.GetSpecialKeyIndex p k2 ->
  k1 = k2.
Proof.
  intros H1 H2 Heq.
  destruct (GetSpecialKeyIndex_lookup p k1 H1) as [_ Hl1].
  destruct (GetSpecialKeyIndex_lookup p k2 H2) as [_ Hl2].
  rewrite Heq in Hl1. congruence.
Qed.

(** The key-up of a monitored key through [ProcessRawInput]: the event is
    stored and logged, and then [ProcessSpecialKeyEvent] does all the
    rest. *)
Lemma ProcessRawInput_release_eq kb timestamp cursorPos p idx :
  SpecialKeyHandler.GetSpecialKeyIndex p (VKey kb) = Z.of_nat idx ->
  Z.land (Flags kb) RI_KEY_BREAK <> 0 ->
  let keyState := SpecialKeyHandler.state_at p idx in
  let stored :=
    snd (StoreEvent timestamp cursorPos
           {| vKey := VKey kb; scanCode := MakeCode kb; flags := Flags kb;
              isKeyUp := true |} p) in
  snd (ProcessRawInput kb timestamp cursorPos p) =
  released idx
    (if isPressed keyState && negb (hadInterveningKeys keyState) then
       snd (gesture_handler (VKey kb) (Flags kb) (pressTimestamp keyState) timestamp
              (pressPosition keyState) cursorPos
              (snd (print (gesture_line (VKey kb) (Flags kb)) stored)))
     else if isPressed keyState && hadInterveningKeys keyState then
       snd (print (combination_line (VKey kb) (Flags kb)) stored)
     else stored).
Proof.
  intros Hidx Hup. cbv zeta. unfold ProcessRawInput.
  apply Z.eqb_neq in Hup. rewrite Hup. cbn [negb andb when].
  rewrite andb_false_r.
  unfold mbind at 1. unfold M_bind at 1.
  match goal with |- context [StoreEvent ?a ?b ?c p] =>
    destruct (StoreEvent_states a b c p) as [Hs1 Hk1];
    destruct (StoreEvent a b c p) as [[] p1] end.
  cbn [snd] in Hs1, Hk1 |- *.
  unfold mbind at 1. unfold M_bind at 1. unfold skip at 1, mret, M_ret.
  unfold mbind at 1. unfold M_bind at 1.
  destruct (IsSpecialKey_keys p p1 (VKey kb) Hk1) as [_ Hg].
  assert (Hstate : SpecialKeyHandler.state_at p1 idx = SpecialKeyHandler.state_at p idx).
  { unfold SpecialKeyHandler.state_at. by rewrite Hs1. }
  rewrite (ProcessSpecialKeyEvent_release_eq (VKey kb) (Flags kb) timestamp
             cursorPos p1 idx) by congruence.
  cbn [negb andb when]. unfold mbind, M_bind, skip, mret, M_ret. cbn [snd].
  by rewrite Hstate.
Qed.

(** One event of another key, seen from a monitored key: the key-down of a
    key that is not monitored marks it, if it is pressed; nothing else
    touches its state. *)
Lemma ProcessRawInput_other_key kb timestamp cursorPos vKey p :
  keys_wf p -> vKey ∈ s_specialKeys p -> VKey kb <> vKey ->
  let idx := Z.to_nat (SpecialKeyHandler.GetSpecialKeyIndex p vKey) in
  let p' := snd (ProcessRawInput kb timestamp cursorPos p) in
  keys_wf p' /\ s_specialKeys p' = s_specialKeys p /\
  SpecialKeyHandler.state_at p' idx =
    (if is_intervening (s_specialKeys p) (kb, timestamp, cursorPos)
     then mark_intervening (SpecialKeyHandler.state_at p idx)
     else SpecialKeyHandler.state_at p idx).
Proof.
  intros [Hnd Hlen] Hin Hne. cbv zeta.
  pose proof (ProcessRawInput_lengths kb timestamp cursorPos p Hlen) as Hlen'.
  pose proof (ProcessRawInput_states kb timestamp cursorPos p Hlen) as Hs.
  destruct (ProcessRawInput_summary kb timestamp cursorPos p)
    as (_ & _ & _ & _ & _ & Hk & _).
  cbv zeta in Hs, Hk.
  split; [split; [by rewrite Hk | done]|]. split; [done|].
  destruct (GetSpecialKeyIndex_lookup p vKey Hin) as [Hr Hl].
  assert (Hother : VKey kb ∈ s_specialKeys p ->
            Z.to_nat (SpecialKeyHandler.GetSpecialKeyIndex p (VKey kb)) <>
            Z.to_nat (SpecialKeyHandler.GetSpecialKeyIndex p vKey)).
  { intros Hm Heq. apply Hne. apply (GetSpecialKeyIndex_inj p); [done|done|].
    destruct (GetSpecialKeyIndex_lookup p (VKey kb) Hm) as [Hr' _]. lia. }
  unfold SpecialKeyHandler.state_at in *. rewrite Hs.
  unfold is_intervening, is_escape_down. rewrite IsSpecialKey_elem.
  destruct (VKey kb =? VK_ESCAPE) eqn:Hesc;
    destruct (Z.land (Flags kb) RI_KEY_BREAK =? 0) eqn:Hdown;
    cbn [andb negb]; rewrite ?andb_false_r; try done.
  - case_bool_decide as Hm; [|done].
    by rewrite list_lookup_alter_ne by by apply Hother.
  - case_bool_decide as Hm; cbn [negb].
    + by rewrite list_lookup_alter_ne by by apply Hother.
    + rewrite list_lookup_fmap.
      by destruct (s_specialKeyStates p !! _) as [keyState|].
  - case_bool_decide as Hm; [|done].
    by rewrite list_lookup_alter_ne by by apply Hother.
Qed.

Lemma mark_intervening_idemp keyState :
  mark_intervening (mark_intervening keyState) = mark_intervening keyState.
Proof. unfold mark_intervening. by destruct (isPressed keyState) eqn:Hp; simpl; rewrite ?Hp. Qed.

Lemma run_keys_other_keys vKey between : forall p,
  keys_wf p -> vKey ∈ s_specialKeys p ->
  Forall (fun event => VKey event.1.1 <> vKey) between ->
  let idx := Z.to_nat (SpecialKeyHandler.GetSpecialKeyIndex p vKey) in
  let p' := snd (run_keys between p) in
  s_specialKeys p' = s_specialKeys p /\
  SpecialKeyHandler.state_at p' idx =
    (if existsb (is_intervening (s_specialKeys p)) between
     then mark_intervening (SpecialKeyHandler.state_at p idx)
     else SpecialKeyHandler.state_at p idx).
Proof.
  induction between as [|[[kb timestamp] cursorPos] rest IH];
    intros p Hwf Hin Hall; cbv zeta.
  - done.
  - rewrite run_keys_cons. apply Forall_cons in Hall as [Hne Hall].
    destruct (ProcessRawInput_other_key kb timestamp cursorPos vKey p Hwf Hin Hne)
      as (Hwf1 & Hk1 & Hs1).
    destruct (IsSpecialKey_keys p _ vKey Hk1) as [_ Hg].
    specialize (IH (snd (ProcessRawInput kb timestamp cursorPos p)) Hwf1).
    cbv zeta in IH. rewrite Hg, Hk1 in IH.
    destruct (IH Hin Hall) as (Hk2 & Hs2).
    split; [done|]. rewrite Hs2, Hs1. cbn [existsb].
    destruct (is_intervening _ (kb, timestamp, cursorPos));
      destruct (existsb _ rest); cbn [orb]; try done.
    apply mark_intervening_idemp.
Qed.

(** X22.  A gesture, from the press to the release.  After the key-down of
    a monitored key and any events of other keys, each handed to
    [ProcessRawInput], the key-up of the key is stored and logged and then,
    when none of the events in between was the key-down of a key that is
    not monitored, announces the gesture and runs its handler, with the
    time and the cursor position of the key-down; otherwise it reports a
    key combination and runs no handler.  Either line is printed once.
    Key-ups and events of other monitored keys do not count, nor does the
    key-down of Escape, which returns before the handler is notified. *)
Theorem release_after_other_keys kbDown kbUp between t1 c1 t2 c2 p :
  keys_wf p ->
  VKey kbDown ∈ s_specialKeys p -> VKey kbDown <> VK_ESCAPE ->
  Z.land (Flags kbDown) RI_KEY_BREAK = 0 ->
  VKey kbUp = VKey kbDown -> Z.land (Flags kbUp) RI_KEY_BREAK <> 0 ->
  Forall (fun event => VKey event.1.1 <> VKey kbDown) between ->
  let p1 := snd (ProcessRawInput kbDown t1 c1 p) in
  let p2 := snd (run_keys between p1) in
  let p3 := snd (ProcessRawInput kbUp t2 c2 p2) in
  let idx := Z.to_nat (SpecialKeyHandler.GetSpecialKeyIndex p (VKey kbDown)) in
  let stored :=
    snd (StoreEvent t2 c2
           {| vKey := VKey kbUp; scanCode := MakeCode kbUp; flags := Flags kbUp;
              isKeyUp := true |} p2) in
  p3 =
    released idx
      (if existsb (is_intervening (s_specialKeys p)) between then
         snd (print (combination_line (VKey kbUp) (Flags kbUp)) stored)
       else
         snd (gesture_handler (VKey kbUp) (Flags kbUp) t1 t2 c1 c2
                (snd (print (gesture_line (VKey kbUp) (Flags kbUp)) stored)))) /\
  fired_count (emitted p2 p3) =
    (if existsb (is_intervening (s_specialKeys p)) between then 0 else 1)%nat /\
  suppressed_count (emitted p2 p3) =
    (if existsb (is_intervening (s_specialKeys p)) between then 1 else 0)%nat.
Proof.
  intros Hwf Hin Hesc Hdown Hvk Hup Hall. cbv zeta.
  set (p1 := snd (ProcessRawInput kbDown t1 c1 p)).
  set (idx := Z.to_nat (SpecialKeyHandler.GetSpecialKeyIndex p (VKey kbDown))).
  destruct (GetSpecialKeyIndex_lookup p (VKey kbDown) Hin) as [Hr Hl].
  assert (H1 : keys_wf p1 /\ s_specialKeys p1 = s_specialKeys p /\
               SpecialKeyHandler.state_at p1 idx =
                 {| isPressed := true; hadInterveningKeys := false;
                    pressTimestamp := t1; pressPosition := c1 |}).
  { destruct Hwf as [Hnd Hlen].
    pose proof (ProcessRawInput_lengths kbDown t1 c1 p Hlen) as Hlen'.
    pose proof (ProcessRawInput_states kbDown t1 c1 p Hlen) as Hs.
    destruct (ProcessRawInput_summary kbDown t1 c1 p)
      as (_ & _ & _ & _ & _ & Hk & _).
    cbv zeta in Hs, Hk. fold p1 in Hlen', Hs, Hk.
    split; [split; [by rewrite Hk | exact Hlen']|]. split; [exact Hk|].
    unfold SpecialKeyHandler.state_at. rewrite Hs.
    unfold is_escape_down. rewrite IsSpecialKey_elem.
    replace (VKey kbDown =? VK_ESCAPE) with false by (symmetry; by apply Z.eqb_neq).
    rewrite bool_decide_eq_true_2 by done. cbn [andb].
    fold idx. rewrite list_lookup_alter.
    destruct (lookup_lt_is_Some_2 (s_specialKeyStates p) idx) as [keyState ->];
      [unfold idx; lia|].
    rewrite decide_True by done.
    unfold after_key_event. rewrite Hdown. by simpl. }
  destruct H1 as (Hwf1 & Hk1 & Hs1).
  destruct (IsSpecialKey_keys p p1 (VKey kbDown) Hk1) as [_ Hg1].
  destruct (run_keys_other_keys (VKey kbDown) between p1 Hwf1) as (Hk2 & Hs2);
    [by rewrite Hk1 | done |].
  rewrite Hg1 in Hs2. fold idx in Hs2. rewrite Hs1, Hk1 in Hs2.
  set (p2 := snd (run_keys between p1)) in *.
  destruct (IsSpecialKey_keys p p2 (VKey kbDown)) as [_ Hg2]; [congruence|].
  assert (Hidx : SpecialKeyHandler.GetSpecialKeyIndex p2 (VKey kbUp) = Z.of_nat idx)
    by (rewrite Hvk, Hg2; unfold idx; lia).
  split.
  - rewrite (ProcessRawInput_release_eq kbUp t2 c2 p2 idx Hidx Hup), Hs2.
    by destruct (existsb _ between).
  - destruct (ProcessRawInput_release_world kbUp t2 c2 p2 idx Hidx Hup)
      as (e & Hw & Hf & Hs).
    unfold emitted. rewrite Hw, drop_app_length, Hf, Hs, Hs2.
    by destruct (existsb _ between).
Qed.
End Gesture.

Lemma release_after_other_keys_witness :
  fired_count
    (emitted
       (snd (@run_keys (platform "Hi") [(key_down VK_SHIFT, 2, origin)]
               (snd (@ProcessRawInput (platform "Hi") (key_down VK_CONTROL) 1 origin
                       (@started (platform "Hi"))))))
       (snd (@ProcessRawInput (platform "Hi") (key_up VK_CONTROL) 3 origin
               (snd (@run_keys (platform "Hi") [(key_down VK_SHIFT, 2, origin)]
                       (snd (@ProcessRawInput (platform "Hi") (key_down VK_CONTROL) 1
                               origin (@started (platform "Hi"))))))))) = 1%nat.
Proof.
  refine (proj1 (proj2 (@release_after_other_keys (platform "Hi")
                   (key_down VK_CONTROL) (key_up VK_CONTROL)
                   [(key_down VK_SHIFT, 2, origin)] 1 origin 3 origin
                   (@started (platform "Hi")) _ _ _ _ _ _ _))).
  - split; [apply (bool_decide_unpack _); vm_compute; reflexivity | reflexivity].
  - apply (bool_decide_unpack _). vm_compute. reflexivity.
  - discriminate.
  - reflexivity.
  - reflexivity.
  - discriminate.
  - repeat constructor; discriminate.
Defined.

(** A key pressed in between, for comparison: the release of Left Ctrl
    after the key-down of [A] reports a combination. *)
Example release_after_regular_key :
  suppressed_count
    (emitted
       (snd (@run_keys (platform "Hi") [(key_down 0x41, 2, origin)]
               (snd (@ProcessRawInput (platform "Hi") (key_down VK_CONTROL) 1 origin
                       (@started (platform "Hi"))))))
       (snd (@ProcessRawInput (platform "Hi") (key_up VK_CONTROL) 3 origin
               (snd (@run_keys (platform "Hi") [(key_down 0x41, 2, origin)]
                       (snd (@ProcessRawInput (platform "Hi") (key_down VK_CONTROL) 1
                               origin (@started (platform "Hi"))))))))) = 1%nat.
Proof. vm_compute. reflexivity. Qed.

(** ** special_keys.cpp and suggestion_overlay.cpp: initialisation *)

Lemma lookup_resize n states i :
  (i < n)%nat ->
  default SpecialKeyState_new (resize n states !! i) =
    default SpecialKeyState_new (states !! i).
Proof.
  intros Hi. unfold resize.
  destruct (decide (i < length states)%nat) as [Hlt|Hge].
  - rewrite lookup_app_l by (rewrite length_take; lia).
    by rewrite lookup_take_lt by lia.
  - rewrite lookup_app_r by (rewrite length_take; lia).
    rewrite length_take, (lookup_ge_None_2 states i) by lia.
    rewrite lookup_replicate_2 by lia. done.
Qed.

(** X23.  [SpecialKeyHandler::Initialize] sets the list of monitored keys
    to Ctrl, Shift and Alt and brings the vector of states to their
    number, but it resets no state: the state at each of the first three
    indices stays what it was, and an index without state gets one that is
    not pressed.  So when the list already starts with Ctrl, Shift and
    Alt, as it does after an earlier [Initialize] and any [AddSpecialKey],
    each of the three keys keeps its index and its state: a key that is
    pressed when [Initialize] is called is still pressed, with its time
    and place of pressing.  States are kept by index, not by key. *)
Theorem SpecialKeyHandler_Initialize_keeps_states p :
  let p' := snd (SpecialKeyHandler.Initialize p) in
  s_specialKeys p' = [VK_CONTROL; VK_SHIFT; VK_MENU] /\
  keys_wf p' /\
  (forall i, (i < 3)%nat ->
     SpecialKeyHandler.state_at p' i = SpecialKeyHandler.state_at p i) /\
  (take 3 (s_specialKeys p) = [VK_CONTROL; VK_SHIFT; VK_MENU] ->
   forall k, k ∈ [VK_CONTROL; VK_SHIFT; VK_MENU] ->
     SpecialKeyHandler.GetSpecialKeyIndex p' k =
       SpecialKeyHandler.GetSpecialKeyIndex p k /\
     SpecialKeyHandler.state_at p'
       (Z.to_nat (SpecialKeyHandler.GetSpecialKeyIndex p' k)) =
     SpecialKeyHandler.state_at p
       (Z.to_nat (SpecialKeyHandler.GetSpecialKeyIndex p k))) /\
  s_pendingSuggestion p' = s_pendingSuggestion p /\
  s_hasPendingSuggestion p' = s_hasPendingSuggestion p.
Proof.
  cbv zeta. unfold SpecialKeyHandler.Initialize.
  unfold mbind, M_bind, print, emit, modify. cbn [snd fst].
  unfold keys_wf, SpecialKeyHandler.state_at, SpecialKeyHandler.GetSpecialKeyIndex.
  cbn [s_specialKeys s_specialKeyStates s_pendingSuggestion s_hasPendingSuggestion
       with_specialKeys with_world].
  split_and!; try done.
  - apply (bool_decide_unpack _). vm_compute. reflexivity.
  - unfold resize. rewrite length_app, length_take, length_replicate.
    cbn [length]. lia.
  - intros i Hi. by apply lookup_resize.
  - intros Hkeys k Hk.
    assert (Hidx : SpecialKeyHandler.index_from (s_specialKeys p) 0 k =
                   SpecialKeyHandler.index_from [VK_CONTROL; VK_SHIFT; VK_MENU] 0 k).
    { rewrite <- (take_drop 3 (s_specialKeys p)), Hkeys.
      by apply index_from_app. }
    rewrite Hidx. split; [done|].
    apply lookup_resize.
    pose proof (index_from_spec [VK_CONTROL; VK_SHIFT; VK_MENU] k 0) as Hspec.
    rewrite bool_decide_eq_true_2 in Hspec by done.
    cbn [length] in *. lia.
Qed.

Lemma SpecialKeyHandler_Initialize_keeps_states_witness :
  SpecialKeyHandler.state_at
    (snd (SpecialKeyHandler.Initialize (@ctrl_held (platform "Hi")))) 0 =
  SpecialKeyHandler.state_at (@ctrl_held (platform "Hi")) 0.
Proof.
  refine (proj1 (proj2 (proj2 (SpecialKeyHandler_Initialize_keeps_states
                                 (@ctrl_held (platform "Hi"))))) 0%nat _).
  lia.
Defined.

(** States are kept by index: with Tab and Ctrl monitored in this order and
    Ctrl pressed, [Initialize] moves Ctrl to the first index, where the
    state of Tab was, and leaves the press of Ctrl to Shift. *)
Example Initialize_keeps_states_by_index :
  let p1 := snd (SpecialKeyHandler.AddSpecialKey VK_CONTROL
                   (snd (SpecialKeyHandler.AddSpecialKey VK_TAB process_start))) in
  let p2 := snd (@SpecialKeyHandler.ProcessSpecialKeyEvent (platform "Hi")
                   VK_CONTROL 0 false 1 origin p1) in
  let p3 := snd (SpecialKeyHandler.Initialize p2) in
  let state_of p k :=
    SpecialKeyHandler.state_at p
      (Z.to_nat (SpecialKeyHandler.GetSpecialKeyIndex p k)) in
  isPressed (state_of p2 VK_CONTROL) = true /\
  isPressed (state_of p3 VK_CONTROL) = false /\
  isPressed (state_of p3 VK_SHIFT) = true.
Proof. vm_compute. repeat split. Qed.

Section OverlayStart.
Context `{Win32}.

(** X24.  [SuggestionOverlay::Initialize] on an overlay that is not
    initialised makes it ready exactly when the window class registers and
    the window is created, and the new window is not on screen; on an
    initialised overlay it does nothing, so it creates no second window. *)
Theorem SuggestionOverlay_Initialize_outcome p :
  let p' := snd (SuggestionOverlay.Initialize p) in
  overlay_ready p' =
    (if SuggestionOverlay_s_initialized p then overlay_ready p
     else RegisterOverlayClass_ok && CreateOverlayWindow_ok) /\
  SuggestionOverlay_s_initialized p' =
    (SuggestionOverlay_s_initialized p ||
     RegisterOverlayClass_ok && CreateOverlayWindow_ok) /\
  (if SuggestionOverlay_s_initialized p then p' = p
   else if RegisterOverlayClass_ok
        then overlay_displayed p' = false
        else SuggestionOverlay_s_overlayWindow p' = SuggestionOverlay_s_overlayWindow p) /\
  (SuggestionOverlay_s_initialized p' = true ->
   SuggestionOverlay.Initialize p' = (tt, p')).
Proof.
  cbv zeta. unfold SuggestionOverlay.Initialize, SuggestionOverlay.CreateOverlayWindow.
  unfold overlay_ready, overlay_displayed.
  unfold mbind, M_bind, print, emit, modify, gets, skip, mret, M_ret.
  destruct (SuggestionOverlay_s_initialized p) eqn:Hi; simpl.
  - rewrite Hi. by split_and!.
  - destruct RegisterOverlayClass_ok eqn:Hreg; simpl.
    + destruct CreateOverlayWindow_ok eqn:Hcr; simpl; rewrite ?Hi; by split_and!.
    + rewrite Hi. by split_and!.
Qed.
End OverlayStart.

Lemma SuggestionOverlay_Initialize_outcome_witness :
  overlay_ready (snd (@SuggestionOverlay.Initialize (platform "Hi") process_start)) =
    true.
Proof.
  exact (proj1 (@SuggestionOverlay_Initialize_outcome (platform "Hi") process_start)).
Defined.
